(** * ConfScoutBot: conference matching, listing and de-duplication

    A shallow embedding of the decision logic of the repository's three
    Python modules:

    - the filtering bot ([FilterBot], from [conference_bot (1).py]):
      [_matches_filters], the first-contact defaults, [/list] and
      [/upcoming], and the country/direction selection toggles;
    - the notification bot ([NotifyBot], from [conference_bot.py]):
      [subscribe] and [upcoming_conferences];
    - the scraper mixin ([Scraper], from [conference_scraper.py]):
      [_is_relevant_conference], [scrape_confs_tech],
      [check_early_bird_status] and [discover_new_conferences].

    Python values are modelled as follows.  A [str] is the list of its
    code points.  A JSON dictionary whose keys are fixed by the code is a
    record with one optional field per key ([None]: the key is absent).
    The two dictionaries keyed by data ([users], [conferences]) are a
    [gmap] and, where iteration order is observable, an association list.
    A call that can raise returns a [result]. *)

From Stdlib Require Import ZArith NArith List String Ascii Bool Lia.
From Stdlib Require Import Sorting.Sorted Sorting.Permutation.
From stdpp Require Import base option list gmap strings pretty.

Open Scope N_scope.

(** ** Python strings and exceptions *)

Module Py.

(** A Python [str]: a sequence of Unicode code points. *)
Abbreviation str := (list N).

(** The source files are UTF-8; a literal is written here as in the
    source and decoded to its code points. *)
Fixpoint utf8_decode (need : nat) (acc : N) (bs : list N) : str :=
  match bs with
  | [] => []
  | b :: bs' =>
      match need with
      | O =>
          if b <? 128 then b :: utf8_decode 0 0 bs'
          else if b <? 224 then utf8_decode 1 (b mod 32) bs'
          else if b <? 240 then utf8_decode 2 (b mod 16) bs'
          else utf8_decode 3 (b mod 8) bs'
      | S O => (acc * 64 + b mod 64) :: utf8_decode 0 0 bs'
      | S n => utf8_decode n (acc * 64 + b mod 64) bs'
      end
  end.

Definition lit (s : string) : str :=
  utf8_decode 0 0 (map N_of_ascii (list_ascii_of_string s)).

(** Exceptions raised by the modelled code. *)
Inductive exn : Type :=
| KeyError (key : string)
| IndexError
| ValueError
| AttributeError
| TypeError.

Inductive result (A : Type) : Type :=
| Ok (a : A)
| Raise (e : exn).
Arguments Ok {A} a.
Arguments Raise {A} e.

#[export] Instance result_ret : MRet result := fun A a => Ok a.
#[export] Instance result_bind : MBind result := fun A B f r =>
  match r with
  | Ok a => f a
  | Raise e => Raise e
  end.

(** [d[key]] on a dictionary whose entry for [key] is [field]. *)
Definition getitem {A} (key : string) (field : option A) : result A :=
  match field with
  | Some v => Ok v
  | None => Raise (KeyError key)
  end.

(** [l[i]] for [i >= 0], and [l[-1]]. *)
Definition index {A} (l : list A) (i : nat) : result A :=
  match l !! i with
  | Some v => Ok v
  | None => Raise IndexError
  end.

Definition index_last {A} (l : list A) : result A :=
  match last l with
  | Some v => Ok v
  | None => Raise IndexError
  end.

(** [str.isspace] on one code point (CPython's
    [_PyUnicode_IsWhitespace]). *)
Definition isspace (c : N) : bool :=
  ((9 <=? c) && (c <=? 13)) || ((28 <=? c) && (c <=? 32))
  || (c =? 133) || (c =? 160) || (c =? 5760)
  || ((8192 <=? c) && (c <=? 8202))
  || (c =? 8232) || (c =? 8233) || (c =? 8239) || (c =? 8287)
  || (c =? 12288).

(** [s.split()]: the maximal runs of non-whitespace code points.
    [cur] is the run being read, most recent code point first. *)
Fixpoint split_from (cur : str) (s : str) : list str :=
  match s with
  | [] => match cur with [] => [] | _ => [rev cur] end
  | c :: s' =>
      if isspace c
      then match cur with
           | [] => split_from [] s'
           | _ => rev cur :: split_from [] s'
           end
      else split_from (c :: cur) s'
  end.

Definition split (s : str) : list str := split_from [] s.

(** [s.lower()], as CPython 3.11 computes it from the tables of
    Unicode 14.0: every code point is replaced by its lower-case
    mapping, U+0130 by two code points, and a capital sigma by the
    final or the medial small sigma, after its context. *)

(** The code points that have a lower-case mapping of one code point:
    the run [(first, last, step, to)] maps [first + k * step], up to
    [last], to [to + k * step].  The runs are in ascending order. *)
Definition lowercase_runs : list (N * N * N * N) :=
  [
    (65, 90, 1, 97); (192, 214, 1, 224); (216, 222, 1, 248);
    (256, 302, 2, 257); (306, 310, 2, 307); (313, 327, 2, 314);
    (330, 374, 2, 331); (376, 376, 1, 255); (377, 381, 2, 378);
    (385, 385, 1, 595); (386, 388, 2, 387); (390, 390, 1, 596);
    (391, 391, 1, 392); (393, 394, 1, 598); (395, 395, 1, 396);
    (398, 398, 1, 477); (399, 399, 1, 601); (400, 400, 1, 603);
    (401, 401, 1, 402); (403, 403, 1, 608); (404, 404, 1, 611);
    (406, 406, 1, 617); (407, 407, 1, 616); (408, 408, 1, 409);
    (412, 412, 1, 623); (413, 413, 1, 626); (415, 415, 1, 629);
    (416, 420, 2, 417); (422, 422, 1, 640); (423, 423, 1, 424);
    (425, 425, 1, 643); (428, 428, 1, 429); (430, 430, 1, 648);
    (431, 431, 1, 432); (433, 434, 1, 650); (435, 437, 2, 436);
    (439, 439, 1, 658); (440, 440, 1, 441); (444, 444, 1, 445);
    (452, 452, 1, 454); (453, 453, 1, 454); (455, 455, 1, 457);
    (456, 456, 1, 457); (458, 458, 1, 460); (459, 475, 2, 460);
    (478, 494, 2, 479); (497, 497, 1, 499); (498, 500, 2, 499);
    (502, 502, 1, 405); (503, 503, 1, 447); (504, 542, 2, 505);
    (544, 544, 1, 414); (546, 562, 2, 547); (570, 570, 1, 11365);
    (571, 571, 1, 572); (573, 573, 1, 410); (574, 574, 1, 11366);
    (577, 577, 1, 578); (579, 579, 1, 384); (580, 580, 1, 649);
    (581, 581, 1, 652); (582, 590, 2, 583); (880, 882, 2, 881);
    (886, 886, 1, 887); (895, 895, 1, 1011); (902, 902, 1, 940);
    (904, 906, 1, 941); (908, 908, 1, 972); (910, 911, 1, 973);
    (913, 929, 1, 945); (932, 939, 1, 964); (975, 975, 1, 983);
    (984, 1006, 2, 985); (1012, 1012, 1, 952); (1015, 1015, 1, 1016);
    (1017, 1017, 1, 1010); (1018, 1018, 1, 1019); (1021, 1023, 1, 891);
    (1024, 1039, 1, 1104); (1040, 1071, 1, 1072); (1120, 1152, 2, 1121);
    (1162, 1214, 2, 1163); (1216, 1216, 1, 1231); (1217, 1229, 2, 1218);
    (1232, 1326, 2, 1233); (1329, 1366, 1, 1377); (4256, 4293, 1, 11520);
    (4295, 4295, 1, 11559); (4301, 4301, 1, 11565); (5024, 5103, 1, 43888);
    (5104, 5109, 1, 5112); (7312, 7354, 1, 4304); (7357, 7359, 1, 4349);
    (7680, 7828, 2, 7681); (7838, 7838, 1, 223); (7840, 7934, 2, 7841);
    (7944, 7951, 1, 7936); (7960, 7965, 1, 7952); (7976, 7983, 1, 7968);
    (7992, 7999, 1, 7984); (8008, 8013, 1, 8000); (8025, 8031, 2, 8017);
    (8040, 8047, 1, 8032); (8072, 8079, 1, 8064); (8088, 8095, 1, 8080);
    (8104, 8111, 1, 8096); (8120, 8121, 1, 8112); (8122, 8123, 1, 8048);
    (8124, 8124, 1, 8115); (8136, 8139, 1, 8050); (8140, 8140, 1, 8131);
    (8152, 8153, 1, 8144); (8154, 8155, 1, 8054); (8168, 8169, 1, 8160);
    (8170, 8171, 1, 8058); (8172, 8172, 1, 8165); (8184, 8185, 1, 8056);
    (8186, 8187, 1, 8060); (8188, 8188, 1, 8179); (8486, 8486, 1, 969);
    (8490, 8490, 1, 107); (8491, 8491, 1, 229); (8498, 8498, 1, 8526);
    (8544, 8559, 1, 8560); (8579, 8579, 1, 8580); (9398, 9423, 1, 9424);
    (11264, 11311, 1, 11312); (11360, 11360, 1, 11361);
    (11362, 11362, 1, 619); (11363, 11363, 1, 7549); (11364, 11364, 1, 637);
    (11367, 11371, 2, 11368); (11373, 11373, 1, 593); (11374, 11374, 1, 625);
    (11375, 11375, 1, 592); (11376, 11376, 1, 594); (11378, 11378, 1, 11379);
    (11381, 11381, 1, 11382); (11390, 11391, 1, 575);
    (11392, 11490, 2, 11393); (11499, 11501, 2, 11500);
    (11506, 11506, 1, 11507); (42560, 42604, 2, 42561);
    (42624, 42650, 2, 42625); (42786, 42798, 2, 42787);
    (42802, 42862, 2, 42803); (42873, 42875, 2, 42874);
    (42877, 42877, 1, 7545); (42878, 42886, 2, 42879);
    (42891, 42891, 1, 42892); (42893, 42893, 1, 613);
    (42896, 42898, 2, 42897); (42902, 42920, 2, 42903);
    (42922, 42922, 1, 614); (42923, 42923, 1, 604); (42924, 42924, 1, 609);
    (42925, 42925, 1, 620); (42926, 42926, 1, 618); (42928, 42928, 1, 670);
    (42929, 42929, 1, 647); (42930, 42930, 1, 669); (42931, 42931, 1, 43859);
    (42932, 42946, 2, 42933); (42948, 42948, 1, 42900);
    (42949, 42949, 1, 642); (42950, 42950, 1, 7566); (42951, 42953, 2, 42952);
    (42960, 42960, 1, 42961); (42966, 42968, 2, 42967);
    (42997, 42997, 1, 42998); (65313, 65338, 1, 65345);
    (66560, 66599, 1, 66600); (66736, 66771, 1, 66776);
    (66928, 66938, 1, 66967); (66940, 66954, 1, 66979);
    (66956, 66962, 1, 66995); (66964, 66965, 1, 67003);
    (68736, 68786, 1, 68800); (71840, 71871, 1, 71872);
    (93760, 93791, 1, 93792); (125184, 125217, 1, 125218)
  ].

(** The code points with the property [Cased], and those with the
    property [Case_Ignorable], as ranges in ascending order. *)
Definition cased_ranges : list (N * N) :=
  [
    (65, 90); (97, 122); (170, 170); (181, 181); (186, 186); (192, 214);
    (216, 246); (248, 442); (444, 447); (452, 659); (661, 696); (704, 705);
    (736, 740); (837, 837); (880, 883); (886, 887); (890, 893); (895, 895);
    (902, 902); (904, 906); (908, 908); (910, 929); (931, 1013); (1015, 1153);
    (1162, 1327); (1329, 1366); (1376, 1416); (4256, 4293); (4295, 4295);
    (4301, 4301); (4304, 4346); (4349, 4351); (5024, 5109); (5112, 5117);
    (7296, 7304); (7312, 7354); (7357, 7359); (7424, 7615); (7680, 7957);
    (7960, 7965); (7968, 8005); (8008, 8013); (8016, 8023); (8025, 8025);
    (8027, 8027); (8029, 8029); (8031, 8061); (8064, 8116); (8118, 8124);
    (8126, 8126); (8130, 8132); (8134, 8140); (8144, 8147); (8150, 8155);
    (8160, 8172); (8178, 8180); (8182, 8188); (8305, 8305); (8319, 8319);
    (8336, 8348); (8450, 8450); (8455, 8455); (8458, 8467); (8469, 8469);
    (8473, 8477); (8484, 8484); (8486, 8486); (8488, 8488); (8490, 8493);
    (8495, 8500); (8505, 8505); (8508, 8511); (8517, 8521); (8526, 8526);
    (8544, 8575); (8579, 8580); (9398, 9449); (11264, 11492); (11499, 11502);
    (11506, 11507); (11520, 11557); (11559, 11559); (11565, 11565);
    (42560, 42605); (42624, 42653); (42786, 42887); (42891, 42894);
    (42896, 42954); (42960, 42961); (42963, 42963); (42965, 42969);
    (42997, 42998); (43000, 43002); (43824, 43866); (43868, 43880);
    (43888, 43967); (64256, 64262); (64275, 64279); (65313, 65338);
    (65345, 65370); (66560, 66639); (66736, 66771); (66776, 66811);
    (66928, 66938); (66940, 66954); (66956, 66962); (66964, 66965);
    (66967, 66977); (66979, 66993); (66995, 67001); (67003, 67004);
    (67456, 67456); (67459, 67461); (67463, 67504); (67506, 67514);
    (68736, 68786); (68800, 68850); (71840, 71903); (93760, 93823);
    (119808, 119892); (119894, 119964); (119966, 119967); (119970, 119970);
    (119973, 119974); (119977, 119980); (119982, 119993); (119995, 119995);
    (119997, 120003); (120005, 120069); (120071, 120074); (120077, 120084);
    (120086, 120092); (120094, 120121); (120123, 120126); (120128, 120132);
    (120134, 120134); (120138, 120144); (120146, 120485); (120488, 120512);
    (120514, 120538); (120540, 120570); (120572, 120596); (120598, 120628);
    (120630, 120654); (120656, 120686); (120688, 120712); (120714, 120744);
    (120746, 120770); (120772, 120779); (122624, 122633); (122635, 122654);
    (125184, 125251); (127280, 127305); (127312, 127337); (127344, 127369)
  ].

Definition case_ignorable_ranges : list (N * N) :=
  [
    (39, 39); (46, 46); (58, 58); (94, 94); (96, 96); (168, 168); (173, 173);
    (175, 175); (180, 180); (183, 184); (688, 879); (884, 885); (890, 890);
    (900, 901); (903, 903); (1155, 1161); (1369, 1369); (1375, 1375);
    (1425, 1469); (1471, 1471); (1473, 1474); (1476, 1477); (1479, 1479);
    (1524, 1524); (1536, 1541); (1552, 1562); (1564, 1564); (1600, 1600);
    (1611, 1631); (1648, 1648); (1750, 1757); (1759, 1768); (1770, 1773);
    (1807, 1807); (1809, 1809); (1840, 1866); (1958, 1968); (2027, 2037);
    (2042, 2042); (2045, 2045); (2070, 2093); (2137, 2139); (2184, 2184);
    (2192, 2193); (2200, 2207); (2249, 2306); (2362, 2362); (2364, 2364);
    (2369, 2376); (2381, 2381); (2385, 2391); (2402, 2403); (2417, 2417);
    (2433, 2433); (2492, 2492); (2497, 2500); (2509, 2509); (2530, 2531);
    (2558, 2558); (2561, 2562); (2620, 2620); (2625, 2626); (2631, 2632);
    (2635, 2637); (2641, 2641); (2672, 2673); (2677, 2677); (2689, 2690);
    (2748, 2748); (2753, 2757); (2759, 2760); (2765, 2765); (2786, 2787);
    (2810, 2815); (2817, 2817); (2876, 2876); (2879, 2879); (2881, 2884);
    (2893, 2893); (2901, 2902); (2914, 2915); (2946, 2946); (3008, 3008);
    (3021, 3021); (3072, 3072); (3076, 3076); (3132, 3132); (3134, 3136);
    (3142, 3144); (3146, 3149); (3157, 3158); (3170, 3171); (3201, 3201);
    (3260, 3260); (3263, 3263); (3270, 3270); (3276, 3277); (3298, 3299);
    (3328, 3329); (3387, 3388); (3393, 3396); (3405, 3405); (3426, 3427);
    (3457, 3457); (3530, 3530); (3538, 3540); (3542, 3542); (3633, 3633);
    (3636, 3642); (3654, 3662); (3761, 3761); (3764, 3772); (3782, 3782);
    (3784, 3789); (3864, 3865); (3893, 3893); (3895, 3895); (3897, 3897);
    (3953, 3966); (3968, 3972); (3974, 3975); (3981, 3991); (3993, 4028);
    (4038, 4038); (4141, 4144); (4146, 4151); (4153, 4154); (4157, 4158);
    (4184, 4185); (4190, 4192); (4209, 4212); (4226, 4226); (4229, 4230);
    (4237, 4237); (4253, 4253); (4348, 4348); (4957, 4959); (5906, 5908);
    (5938, 5939); (5970, 5971); (6002, 6003); (6068, 6069); (6071, 6077);
    (6086, 6086); (6089, 6099); (6103, 6103); (6109, 6109); (6155, 6159);
    (6211, 6211); (6277, 6278); (6313, 6313); (6432, 6434); (6439, 6440);
    (6450, 6450); (6457, 6459); (6679, 6680); (6683, 6683); (6742, 6742);
    (6744, 6750); (6752, 6752); (6754, 6754); (6757, 6764); (6771, 6780);
    (6783, 6783); (6823, 6823); (6832, 6862); (6912, 6915); (6964, 6964);
    (6966, 6970); (6972, 6972); (6978, 6978); (7019, 7027); (7040, 7041);
    (7074, 7077); (7080, 7081); (7083, 7085); (7142, 7142); (7144, 7145);
    (7149, 7149); (7151, 7153); (7212, 7219); (7222, 7223); (7288, 7293);
    (7376, 7378); (7380, 7392); (7394, 7400); (7405, 7405); (7412, 7412);
    (7416, 7417); (7468, 7530); (7544, 7544); (7579, 7679); (8125, 8125);
    (8127, 8129); (8141, 8143); (8157, 8159); (8173, 8175); (8189, 8190);
    (8203, 8207); (8216, 8217); (8228, 8228); (8231, 8231); (8234, 8238);
    (8288, 8292); (8294, 8303); (8305, 8305); (8319, 8319); (8336, 8348);
    (8400, 8432); (11388, 11389); (11503, 11505); (11631, 11631);
    (11647, 11647); (11744, 11775); (11823, 11823); (12293, 12293);
    (12330, 12333); (12337, 12341); (12347, 12347); (12441, 12446);
    (12540, 12542); (40981, 40981); (42232, 42237); (42508, 42508);
    (42607, 42610); (42612, 42621); (42623, 42623); (42652, 42655);
    (42736, 42737); (42752, 42785); (42864, 42864); (42888, 42890);
    (42994, 42996); (43000, 43001); (43010, 43010); (43014, 43014);
    (43019, 43019); (43045, 43046); (43052, 43052); (43204, 43205);
    (43232, 43249); (43263, 43263); (43302, 43309); (43335, 43345);
    (43392, 43394); (43443, 43443); (43446, 43449); (43452, 43453);
    (43471, 43471); (43493, 43494); (43561, 43566); (43569, 43570);
    (43573, 43574); (43587, 43587); (43596, 43596); (43632, 43632);
    (43644, 43644); (43696, 43696); (43698, 43700); (43703, 43704);
    (43710, 43711); (43713, 43713); (43741, 43741); (43756, 43757);
    (43763, 43764); (43766, 43766); (43867, 43871); (43881, 43883);
    (44005, 44005); (44008, 44008); (44013, 44013); (64286, 64286);
    (64434, 64450); (65024, 65039); (65043, 65043); (65056, 65071);
    (65106, 65106); (65109, 65109); (65279, 65279); (65287, 65287);
    (65294, 65294); (65306, 65306); (65342, 65342); (65344, 65344);
    (65392, 65392); (65438, 65439); (65507, 65507); (65529, 65531);
    (66045, 66045); (66272, 66272); (66422, 66426); (67456, 67461);
    (67463, 67504); (67506, 67514); (68097, 68099); (68101, 68102);
    (68108, 68111); (68152, 68154); (68159, 68159); (68325, 68326);
    (68900, 68903); (69291, 69292); (69446, 69456); (69506, 69509);
    (69633, 69633); (69688, 69702); (69744, 69744); (69747, 69748);
    (69759, 69761); (69811, 69814); (69817, 69818); (69821, 69821);
    (69826, 69826); (69837, 69837); (69888, 69890); (69927, 69931);
    (69933, 69940); (70003, 70003); (70016, 70017); (70070, 70078);
    (70089, 70092); (70095, 70095); (70191, 70193); (70196, 70196);
    (70198, 70199); (70206, 70206); (70367, 70367); (70371, 70378);
    (70400, 70401); (70459, 70460); (70464, 70464); (70502, 70508);
    (70512, 70516); (70712, 70719); (70722, 70724); (70726, 70726);
    (70750, 70750); (70835, 70840); (70842, 70842); (70847, 70848);
    (70850, 70851); (71090, 71093); (71100, 71101); (71103, 71104);
    (71132, 71133); (71219, 71226); (71229, 71229); (71231, 71232);
    (71339, 71339); (71341, 71341); (71344, 71349); (71351, 71351);
    (71453, 71455); (71458, 71461); (71463, 71467); (71727, 71735);
    (71737, 71738); (71995, 71996); (71998, 71998); (72003, 72003);
    (72148, 72151); (72154, 72155); (72160, 72160); (72193, 72202);
    (72243, 72248); (72251, 72254); (72263, 72263); (72273, 72278);
    (72281, 72283); (72330, 72342); (72344, 72345); (72752, 72758);
    (72760, 72765); (72767, 72767); (72850, 72871); (72874, 72880);
    (72882, 72883); (72885, 72886); (73009, 73014); (73018, 73018);
    (73020, 73021); (73023, 73029); (73031, 73031); (73104, 73105);
    (73109, 73109); (73111, 73111); (73459, 73460); (78896, 78904);
    (92912, 92916); (92976, 92982); (92992, 92995); (94031, 94031);
    (94095, 94111); (94176, 94177); (94179, 94180); (110576, 110579);
    (110581, 110587); (110589, 110590); (113821, 113822); (113824, 113827);
    (118528, 118573); (118576, 118598); (119143, 119145); (119155, 119170);
    (119173, 119179); (119210, 119213); (119362, 119364); (121344, 121398);
    (121403, 121452); (121461, 121461); (121476, 121476); (121499, 121503);
    (121505, 121519); (122880, 122886); (122888, 122904); (122907, 122913);
    (122915, 122916); (122918, 122922); (123184, 123197); (123566, 123566);
    (123628, 123631); (125136, 125142); (125252, 125259); (127995, 127999);
    (917505, 917505); (917536, 917631); (917760, 917999)
  ].

Definition in_run (c : N) (run : N * N * N * N) : bool :=
  let '(first, last, step, _) := run in
  (first <=? c) && (c <=? last) && ((c - first) mod step =? 0).

Fixpoint find_run (c : N) (runs : list (N * N * N * N))
  : option (N * N * N * N) :=
  match runs with
  | [] => None
  | run :: runs' =>
      if c <? run.1.1.1 then None
      else if in_run c run then Some run
      else find_run c runs'
  end.

Fixpoint in_ranges (c : N) (ranges : list (N * N)) : bool :=
  match ranges with
  | [] => false
  | (first, last) :: ranges' =>
      if c <? first then false
      else (c <=? last) || in_ranges c ranges'
  end.

Definition cased (c : N) : bool := in_ranges c cased_ranges.
Definition case_ignorable (c : N) : bool := in_ranges c case_ignorable_ranges.

(** [_PyUnicode_ToLowerFull]. *)
Definition to_lower (c : N) : N :=
  match find_run c lowercase_runs with
  | Some (first, _, _, to) => to + (c - first)
  | None => c
  end.

Definition to_lower_full (c : N) : str :=
  if c =? 304 then [105; 775] else [to_lower c].

(** The first code point of [s] that is not case-ignorable. *)
Fixpoint skip_ignorable (s : str) : option N :=
  match s with
  | [] => None
  | c :: s' => if case_ignorable c then skip_ignorable s' else Some c
  end.

(** [handle_capital_sigma]: a capital sigma is final when a cased code
    point comes before it and none after it, case-ignorable code points
    apart.  [before] is what precedes the sigma, nearest first. *)
Definition handle_capital_sigma (before after : str) : N :=
  let final_sigma :=
    match skip_ignorable before with
    | Some c => cased c
    | None => false
    end in
  let final_sigma :=
    if final_sigma
    then match skip_ignorable after with
         | Some c => negb (cased c)
         | None => true
         end
    else false in
  if final_sigma then 962 else 963.

Definition lower_ucs4 (before : str) (c : N) (after : str) : str :=
  if c =? 931 then [handle_capital_sigma before after]
  else to_lower_full c.

Fixpoint lower_from (before : str) (s : str) : str :=
  match s with
  | [] => []
  | c :: s' => lower_ucs4 before c s' ++ lower_from (c :: before) s'
  end.

Definition lower (s : str) : str := lower_from [] s.

(** A code point that [lower] keeps wherever it stands. *)
Definition unmapped (c : N) : Prop :=
  c <> 931 /\ c <> 304 /\ find_run c lowercase_runs = None.

(** No code point of the image of [run] is in [other]: the two lie
    apart, or [other] holds every second code point and the image the
    ones between. *)
Definition run_apart (run other : N * N * N * N) : bool :=
  let '(first, last, step, to) := run in
  let '(first', last', step', _) := other in
  (to + (last - first) <? first')
  || (last' <? to)
  || ((step' =? 2) && ((step =? 2) || (first =? last))
      && negb (to mod 2 =? first' mod 2)).

(** The image of [run] holds neither U+03A3 nor U+0130, and no code
    point of a run. *)
Definition image_unmapped (run : N * N * N * N) : bool :=
  let '(first, last, _, to) := run in
  ((to + (last - first) <? 304) || (304 <? to))
  && ((to + (last - first) <? 931) || (931 <? to))
  && forallb (run_apart run) lowercase_runs.

(** [p in s] between two strings: [p] occurs in [s] as a contiguous
    run. *)
Fixpoint startswith (p s : str) : bool :=
  match p, s with
  | [], _ => true
  | _ :: _, [] => false
  | a :: p', b :: s' => (a =? b) && startswith p' s'
  end.

Fixpoint str_in (p s : str) : bool :=
  startswith p s
  || match s with
     | [] => false
     | _ :: s' => str_in p s'
     end.

(** [sep.join(l)]. *)
Fixpoint join (sep : str) (l : list str) : str :=
  match l with
  | [] => []
  | [s] => s
  | s :: l' => s ++ sep ++ join sep l'
  end.

(** [a <= b] between two strings: lexicographic on code points. *)
Fixpoint str_le (a b : str) : bool :=
  match a, b with
  | [], _ => true
  | _ :: _, [] => false
  | x :: a', y :: b' => (x <? y) || ((x =? y) && str_le a' b')
  end.

(** [any(p(x) for x in l)]: stops at the first element on which [p]
    is true, and at the first one on which it raises. *)
Fixpoint any {A} (p : A -> result bool) (l : list A) : result bool :=
  match l with
  | [] => Ok false
  | x :: l' => b ← p x; if b : bool then Ok true else any p l'
  end.

(** [x in l] for a list [l]. *)
Definition elem {A} `{EqDecision A} (x : A) (l : list A) : bool :=
  bool_decide (x ∈ l).

(** The truth value of a list or a string: non-empty. *)
Definition truthy {A} (l : list A) : bool :=
  match l with
  | [] => false
  | _ :: _ => true
  end.

(** [[x for x in l if p(x)]]. *)
Fixpoint select {A} (p : A -> result bool) (l : list A) : result (list A) :=
  match l with
  | [] => Ok []
  | x :: l' =>
      b ← p x; r ← select p l'; mret (if b : bool then x :: r else r)
  end.

(** [l.remove(x)] when [x in l]: the first occurrence goes. *)
Fixpoint remove_first (x : str) (l : list str) : list str :=
  match l with
  | [] => []
  | y :: l' => if decide (x = y) then l' else y :: remove_first x l'
  end.

(** Sorting by a string key.  The sort is stable: an element is put
    in front of the first element of the sorted tail whose key is not
    smaller than its own. *)
Fixpoint insert_by {A} (key : A -> str) (x : A) (l : list A) : list A :=
  match l with
  | [] => [x]
  | y :: l' =>
      if str_le (key x) (key y) then x :: l else y :: insert_by key x l'
  end.

Definition sorted_by {A} (key : A -> str) (l : list A) : list A :=
  foldr (insert_by key) [] l.

(** [l.sort(key=k)] for a key function that may raise: the keys of all
    the elements are computed first, in order, then the list is
    sorted on them. *)
Definition sort_key {A} (key : A -> result str) (l : list A)
  : result (list A) :=
  keyed ← mapM (fun x => k ← key x; mret (k, x)) l;
  mret (snd <$> sorted_by fst keyed).

(** [s.replace(old, new)] for a non-empty [old]: the occurrences of
    [old] are replaced from left to right, without overlap.  [skip] is
    the number of code points of the occurrence just replaced that are
    still to be passed over. *)
Fixpoint replace_from (skip : nat) (old new : str) (s : str) : str :=
  match s with
  | [] => []
  | c :: s' =>
      match skip with
      | S k => replace_from k old new s'
      | O =>
          if startswith old s
          then new ++ replace_from (length old - 1) old new s'
          else c :: replace_from 0 old new s'
      end
  end.

Definition replace (old new : str) (s : str) : str := replace_from 0 old new s.

(** [s.split(sep)[0]] for a separator of one code point: what comes
    before the first [sep]. *)
Fixpoint split_head (sep : N) (s : str) : str :=
  match s with
  | [] => []
  | c :: s' => if c =? sep then [] else c :: split_head sep s'
  end.

End Py.
Import Py.

(** A naive [datetime]: the calendar fields, and the time of the day in
    microseconds. *)
Module Datetime.
Record t : Type := mk {
  year : Z;
  month : Z;
  day : Z;
  time : Z
}.

Definition is_leap (y : Z) : bool :=
  ((y mod 4 =? 0) && (negb (y mod 100 =? 0) || (y mod 400 =? 0)))%Z.

Definition days_in_month (y m : Z) : Z :=
  (if m =? 2 then (if is_leap y then 29 else 28)
   else if (m =? 4) || (m =? 6) || (m =? 9) || (m =? 11) then 30
   else 31)%Z.

(** [d.replace(month=m)]: [ValueError] when [m] is not a month, or the
    day of [d] does not exist in month [m] of its year. *)
Definition replace_month (d : t) (m : Z) : result t :=
  if ((1 <=? m) && (m <=? 12) && (day d <=? days_in_month (year d) m))%Z
  then Ok (mk (year d) m (day d) (time d))
  else Raise ValueError.

(** [a <= b]: the fields are compared in order. *)
Definition le (a b : t) : bool :=
  ((year a <? year b)
   || ((year a =? year b)
       && ((month a <? month b)
           || ((month a =? month b)
               && ((day a <? day b)
                   || ((day a =? day b) && (time a <=? time b)))))))%Z.
End Datetime.

(** ** The JSON documents *)

(** A conference entry of [conferences.json].  The filtering bot writes
    [name], [date], [location], [country], [directions] and [url]; the
    scraper and the notification bot use [start_date], [end_date],
    [city], [topics], [source] and [early_bird_available]. *)
Module Conference.
Record t : Type := mk {
  name : option str;
  date : option str;
  location : option str;
  country : option str;
  directions : option (list str);
  url : option str;
  start_date : option str;
  end_date : option str;
  city : option str;
  topics : option (list str);
  source : option str;
  early_bird_available : option bool
}.

Definition empty : t :=
  mk None None None None None None None None None None None None.

(** The entry with its ['early_bird_available'] key set to [v]
    ([None]: without the key). *)
Definition with_early_bird_available (v : option bool) (c : t) : t :=
  mk (name c) (date c) (location c) (country c) (directions c) (url c)
     (start_date c) (end_date c) (city c) (topics c) (source c) v.
End Conference.

(** The ['filters'] entry of a user. *)
Module Filters.
Record t : Type := mk {
  countries : option (list str);
  directions : option (list str);
  topics : option (list str);
  notify_early_bird : option bool
}.

Definition empty : t := mk None None None None.

Definition with_countries (v : option (list str)) (f : t) : t :=
  mk v (directions f) (topics f) (notify_early_bird f).

Definition with_directions (v : option (list str)) (f : t) : t :=
  mk (countries f) v (topics f) (notify_early_bird f).

Definition with_notify_early_bird (v : option bool) (f : t) : t :=
  mk (countries f) (directions f) (topics f) v.
End Filters.

(** A user entry of [users.json]. *)
Module User.
Record t : Type := mk {
  subscribed : bool;
  filters : Filters.t;
  subscribed_date : option str
}.

(** [user['subscribed'] = v]. *)
Definition with_subscribed (v : bool) (u : t) : t :=
  mk v (filters u) (subscribed_date u).
End User.

(** A conference of the [confs.tech] feed, as [response.json()] gives
    it. *)
Module Payload.
Record t : Type := mk {
  name : option str;
  url : option str;
  startDate : option str;
  endDate : option str;
  city : option str;
  country : option str;
  topics : option (list str)
}.
End Payload.

(** A value as [json.loads] returns it: a float as its 64 bits, an
    object as its keys and values in the order of the document. *)
Module Json.

#[local] Unset Elimination Schemes.
Inductive t : Type :=
| Null
| Bool (b : bool)
| Int (n : Z)
| Float (bits : N)
| Str (s : str)
| List (l : list t)
| Dict (d : list (str * t)).
#[local] Set Elimination Schemes.

(** [bool(v)]. *)
Definition truthy (v : t) : bool :=
  match v with
  | Null => false
  | Bool b => b
  | Int n => negb (n =? 0)%Z
  | Float bits => negb (N.land bits (2 ^ 63 - 1) =? 0)
  | Str s => Py.truthy s
  | List l => Py.truthy l
  | Dict d => Py.truthy d
  end.

(** The value of [key] in a dictionary. *)
Fixpoint lookup (key : str) (d : list (str * t)) : option t :=
  match d with
  | [] => None
  | (k, v) :: d' => if decide (k = key) then Some v else lookup key d'
  end.

(** [v.get(key, default)]: only a dictionary has the method. *)
Definition get (v : t) (key : str) (default : t) : result t :=
  match v with
  | Dict d => Ok (from_option id default (lookup key d))
  | _ => Raise AttributeError
  end.

(** [v.lower()]: only a string has the method. *)
Definition lower (v : t) : result str :=
  match v with
  | Str s => Ok (Py.lower s)
  | _ => Raise AttributeError
  end.

(** What a loop over [v] goes through: the elements of a list, the
    keys of a dictionary, the characters of a string. *)
Definition iter (v : t) : result (list t) :=
  match v with
  | List l => Ok l
  | Dict d => Ok ((fun item => Str item.1) <$> d)
  | Str s => Ok ((fun c => Str [c]) <$> s)
  | _ => Raise TypeError
  end.

(** [sep.join(v)]: the items of [v] have to be strings. *)
Definition join (sep : str) (v : t) : result str :=
  items ← iter v;
  items ← mapM (fun item => match item with
                            | Str s => Ok s
                            | _ => Raise TypeError
                            end) items;
  mret (Py.join sep items).

End Json.

(** ** The filtering bot *)

Module FilterBot.

Definition ALL_COUNTRIES : str := lit "🌎 All Countries".
Definition ALL_DIRECTIONS : str := lit "✨ All Directions".

Definition COUNTRIES : list str :=
  [ lit "🇺🇸 USA"; lit "🇬🇧 UK"; lit "🇩🇪 Germany"; lit "🇵🇱 Poland";
    lit "🇳🇱 Netherlands"; lit "🇪🇸 Spain"; lit "🇫🇷 France"; lit "🇮🇹 Italy";
    lit "🇨🇦 Canada"; lit "🇦🇺 Australia"; lit "🌍 Online";
    lit "🌎 All Countries" ].

Definition DIRECTIONS : list str :=
  [ lit "🔄 Agile"; lit "🚀 DevOps"; lit "🧪 Testing/QA"; lit "☁️ Cloud";
    lit "🔒 Security"; lit "📊 Data Science"; lit "🤖 AI/ML"; lit "📱 Mobile";
    lit "🌐 Web Development"; lit "🏗️ Architecture"; lit "💼 Management";
    lit "✨ All Directions" ].

(** The test applied to one selected country [c]:
    [c.split()[-1].lower() in conference['country'].lower()]. *)
Definition country_test (conference : Conference.t) (c : str) : result bool :=
  w ← index_last (split c);
  country ← getitem "country" (Conference.country conference);
  mret (str_in (lower w) (lower country)).

(** The test applied to one selected direction [d]:
    [d.split()[1].lower() in [dir.lower() for dir in conference['directions']]]. *)
Definition direction_test (conference : Conference.t) (d : str) : result bool :=
  w ← index (split d) 1;
  dirs ← getitem "directions" (Conference.directions conference);
  mret (elem (lower w) (map lower dirs)).

Definition country_match (conference : Conference.t) (countries : list str)
  : result bool :=
  if elem ALL_COUNTRIES countries then Ok true
  else any (country_test conference) countries.

Definition direction_match (conference : Conference.t) (directions : list str)
  : result bool :=
  if elem ALL_DIRECTIONS directions then Ok true
  else any (direction_test conference) directions.

Definition _matches_filters (conference : Conference.t) (user_filters : Filters.t)
  : result bool :=
  let countries := default [] (Filters.countries user_filters) in
  let directions := default [] (Filters.directions user_filters) in
  if elem ALL_COUNTRIES countries && elem ALL_DIRECTIONS directions
  then Ok true
  else
    country_match ← country_match conference countries;
    direction_match ← direction_match conference directions;
    mret (country_match && direction_match).

(** *** The bot object and its command handlers

    [users] is the dictionary of [users.json]; [conferences] is that
    of [conferences.json], kept in insertion order because the
    handlers iterate over it.  A handler's reply is abstracted to the
    conferences it renders, in the order it renders them. *)
Record bot : Type := mk_bot {
  users : gmap string User.t;
  conferences : list (string * Conference.t)
}.

Inductive reply : Type :=
| NothingFound
| Listing (found : nat) (shown : list Conference.t)
| Upcoming (shown : list Conference.t).

Definition default_filters : Filters.t :=
  Filters.mk (Some [ALL_COUNTRIES]) (Some [ALL_DIRECTIONS]) None None.

(** The entry every handler writes for an unknown user:
    [{'subscribed': False, 'filters': {'countries': [...], 'directions': [...]}}]. *)
Definition new_user : User.t := User.mk false default_filters None.

(** [if user_id not in self.users: self.users[user_id] = {...}]. *)
Definition init_user (users : gmap string User.t) (user_id : string)
  : gmap string User.t :=
  match users !! user_id with
  | Some _ => users
  | None => <[user_id := new_user]> users
  end.

Definition start_command (self : bot) (uid : Z) : bot :=
  let user_id := pretty uid in
  mk_bot (init_user (users self) user_id) (conferences self).

Definition subscribe_command (self : bot) (uid : Z) : bot :=
  let user_id := pretty uid in
  let users := init_user (users self) user_id in
  mk_bot (alter (User.with_subscribed true) user_id users) (conferences self).

(** The keys read by the loop that renders one conference of [/list]. *)
Definition list_entry (conf : Conference.t) : result unit :=
  _ ← getitem "name" (Conference.name conf);
  _ ← getitem "location" (Conference.location conf);
  _ ← getitem "country" (Conference.country conf);
  _ ← getitem "date" (Conference.date conf);
  _ ← getitem "directions" (Conference.directions conf);
  _ ← getitem "url" (Conference.url conf);
  mret ().

(** [/list].  The user entry is created in memory before anything can
    raise, so the new state is returned next to the outcome. *)
Definition list_command (self : bot) (uid : Z) : bot * result reply :=
  let user_id := pretty uid in
  let users := init_user (users self) user_id in
  (mk_bot users (conferences self),
   user ← getitem user_id (users !! user_id);
   let user_filters := User.filters user in
   matching ← select (fun conf => _matches_filters conf user_filters)
                     (snd <$> conferences self);
   match matching with
   | [] => mret NothingFound
   | _ =>
       matching ← sort_key (fun x => getitem "date" (Conference.date x))
                           matching;
       _ ← mapM list_entry (take 10 matching);
       mret (Listing (length matching) (take 10 matching))
   end).

Section Upcoming.

(** [datetime.strptime(s, '%Y-%m-%d')] and [datetime.now()], as
    microseconds since the epoch; [strptime] is [None] where Python
    raises [ValueError]. *)
Variable strptime : str -> option Z.
Variable now : Z.

Definition timedelta_days (n : Z) : Z := (n * 86400000000)%Z.

(** The body of the [try] of [/upcoming] for one conference. *)
Definition upcoming_try (user_filters : Filters.t) (conf : Conference.t)
  : result bool :=
  date ← getitem "date" (Conference.date conf);
  match strptime date with
  | None => Raise ValueError
  | Some conf_date =>
      let three_months := (now + timedelta_days 90)%Z in
      if bool_decide (now ≤ conf_date ≤ three_months)%Z
      then _matches_filters conf user_filters
      else Ok false
  end.

(** [try: ... except: pass]: a conference on which the body raises
    is skipped. *)
Definition is_upcoming (user_filters : Filters.t) (conf : Conference.t)
  : bool :=
  match upcoming_try user_filters conf with
  | Ok b => b
  | Raise _ => false
  end.

(** The keys read by the loop that renders one conference of
    [/upcoming]. *)
Definition upcoming_entry (conf : Conference.t) : result unit :=
  _ ← getitem "name" (Conference.name conf);
  _ ← getitem "location" (Conference.location conf);
  _ ← getitem "date" (Conference.date conf);
  _ ← getitem "url" (Conference.url conf);
  mret ().

Definition upcoming_command (self : bot) (uid : Z) : result reply :=
  let user_id := pretty uid in
  let user_filters :=
    match users self !! user_id with
    | None => default_filters
    | Some user => User.filters user
    end in
  let upcoming :=
    List.filter (is_upcoming user_filters) (snd <$> conferences self) in
  match upcoming with
  | [] => mret NothingFound
  | _ =>
      _ ← mapM upcoming_entry (take 10 upcoming);
      mret (Upcoming (take 10 upcoming))
  end.

End Upcoming.

(** *** The selection toggles of [/filters]

    [select_country] on a button other than "Done": [selected] is the
    list under [context.user_data['selected_countries']] and [country]
    the label carried by the button. *)
Definition select_country (selected : list str) (country : str) : list str :=
  if decide (country = ALL_COUNTRIES) then [ALL_COUNTRIES]
  else
    let selected :=
      if elem ALL_COUNTRIES selected
      then remove_first ALL_COUNTRIES selected else selected in
    if elem country selected
    then remove_first country selected
    else selected ++ [country].

Definition select_direction (selected : list str) (direction : str) : list str :=
  if decide (direction = ALL_DIRECTIONS) then [ALL_DIRECTIONS]
  else
    let selected :=
      if elem ALL_DIRECTIONS selected
      then remove_first ALL_DIRECTIONS selected else selected in
    if elem direction selected
    then remove_first direction selected
    else selected ++ [direction].

(** *** The other commands *)

(** [/search] is [/list]. *)
Definition search_command (self : bot) (uid : Z) : bot * result reply :=
  list_command self uid.

Definition unsubscribe_command (self : bot) (uid : Z) : bot :=
  let user_id := pretty uid in
  match users self !! user_id with
  | Some _ =>
      mk_bot (alter (User.with_subscribed false) user_id (users self))
        (conferences self)
  | None => self
  end.

(** What [/myfilters] prints. *)
Record filters_shown : Type := mk_filters_shown {
  shown_countries : list str;
  shown_directions : list str;
  shown_active : bool
}.

Definition myfilters_command (self : bot) (uid : Z)
  : bot * result filters_shown :=
  let user_id := pretty uid in
  let users := init_user (users self) user_id in
  (mk_bot users (conferences self),
   user_data ← getitem user_id (users !! user_id);
   let countries :=
     default [ALL_COUNTRIES] (Filters.countries (User.filters user_data)) in
   let directions :=
     default [ALL_DIRECTIONS] (Filters.directions (User.filters user_data)) in
   let subscribed := User.subscribed user_data in
   mret (mk_filters_shown countries directions subscribed)).

End FilterBot.

(** ** The conversation of [/filters]

    The handlers of the filtering bot that run between [/filters] and
    the second "Done", with [context.user_data] as [UserData.t]. *)

Module UserData.
Record t : Type := mk {
  selected_countries : option (list str);
  selected_directions : option (list str)
}.

Definition empty : t := mk None None.
End UserData.

Module Conversation.
Import FilterBot.

Inductive state : Type :=
| SELECTING_COUNTRY
| SELECTING_DIRECTION
| END.

Record button : Type := mk_button {
  text : str;
  callback_data : str
}.

(** [range(0, n, 2)]. *)
Definition range2 (n : nat) : list nat :=
  (fun k => 2 * k)%nat <$> seq 0 (Nat.div2 (n + 1)).

(** The row of the keyboard that starts at index [i]: the label at [i]
    and, when [i + 1 < len(labels)], the one after it. *)
Definition keyboard_row (prefix : str) (labels : list str) (i : nat)
  : result (list button) :=
  a ← index labels i;
  if decide (i + 1 < length labels)%nat
  then b ← index labels (i + 1);
       mret [mk_button a (prefix ++ a); mk_button b (prefix ++ b)]
  else mret [mk_button a (prefix ++ a)].

(** The inline keyboard of a selection step: the labels two by two, then
    the "Done" button. *)
Definition keyboard (prefix : str) (labels : list str) (done : str)
  : result (list (list button)) :=
  rows ← mapM (keyboard_row prefix labels) (range2 (length labels));
  mret (rows ++ [[mk_button (lit "✅ Done") done]]).

(** [/filters]: the country keyboard, and an empty selection. *)
Definition filters_command (user_data : UserData.t)
  : result (list (list button)) * UserData.t * state :=
  (keyboard (lit "country_") COUNTRIES (lit "country_done"),
   UserData.mk (Some []) (UserData.selected_directions user_data),
   SELECTING_COUNTRY).

(** The callback of the country step; [data] is [query.data]. *)
Definition select_country (user_data : UserData.t) (data : str)
  : UserData.t * state :=
  if decide (data = lit "country_done")
  then
    let selected := default [] (UserData.selected_countries user_data) in
    let user_data :=
      if truthy selected then user_data
      else UserData.mk (Some [ALL_COUNTRIES])
             (UserData.selected_directions user_data) in
    (UserData.mk (UserData.selected_countries user_data) (Some []),
     SELECTING_DIRECTION)
  else
    let country := replace (lit "country_") [] data in
    let selected := default [] (UserData.selected_countries user_data) in
    (UserData.mk (Some (FilterBot.select_country selected country))
       (UserData.selected_directions user_data),
     SELECTING_COUNTRY).

(** [self.users[user_id]['filters'] = {'countries': ..., 'directions': ...}]. *)
Definition set_filters (countries directions : list str) (user : User.t)
  : User.t :=
  User.mk (User.subscribed user)
    (Filters.mk (Some countries) (Some directions) None None)
    (User.subscribed_date user).

(** The callback of the direction step. *)
Definition select_direction (self : bot) (uid : Z) (user_data : UserData.t)
    (data : str) : bot * UserData.t * state :=
  if decide (data = lit "direction_done")
  then
    let selected := default [] (UserData.selected_directions user_data) in
    let user_data :=
      if truthy selected then user_data
      else UserData.mk (UserData.selected_countries user_data)
             (Some [ALL_DIRECTIONS]) in
    let selected := if truthy selected then selected else [ALL_DIRECTIONS] in
    let countries :=
      default [ALL_COUNTRIES] (UserData.selected_countries user_data) in
    let directions := selected in
    let user_id := pretty uid in
    let users :=
      match users self !! user_id with
      | Some _ => users self
      | None => <[user_id := User.mk false Filters.empty None]> (users self)
      end in
    (mk_bot (alter (set_filters countries directions) user_id users)
       (conferences self),
     user_data, END)
  else
    let direction := replace (lit "direction_") [] data in
    let selected := default [] (UserData.selected_directions user_data) in
    (self,
     UserData.mk (UserData.selected_countries user_data)
       (Some (FilterBot.select_direction selected direction)),
     SELECTING_DIRECTION).

(** The [ConversationHandler]: a callback query goes to the handler of
    the current state; once the conversation has ended it goes to
    [button_callback], which only answers it. *)
Definition on_callback (now : bot * UserData.t * state) (uid : Z) (data : str)
  : bot * UserData.t * state :=
  let '(self, user_data, st) := now in
  match st with
  | SELECTING_COUNTRY =>
      let '(user_data, st) := select_country user_data data in
      (self, user_data, st)
  | SELECTING_DIRECTION => select_direction self uid user_data data
  | END => (self, user_data, END)
  end.

(** [/filters] followed by the callback queries [clicks]. *)
Definition converse (self : bot) (uid : Z) (user_data : UserData.t)
    (clicks : list str) : bot * UserData.t * state :=
  let '(_, user_data, st) := filters_command user_data in
  foldl (fun now data => on_callback now uid data) (self, user_data, st) clicks.

End Conversation.

(** ** The notification bot *)

Module NotifyBot.

(** The entry [subscribe] writes for an unknown user; [now] is
    [datetime.now().isoformat()]. *)
Definition new_subscriber (now : str) : User.t :=
  User.mk true
    (Filters.mk (Some []) None
       (Some [lit "QA"; lit "testing"; lit "IT"; lit "DevOps"; lit "software"])
       (Some true))
    (Some now).

(** [/subscribe]: from the users document that [load_users] reads to
    the one that [save_users] writes. *)
Definition subscribe (users : gmap string User.t) (now : str) (uid : Z)
  : gmap string User.t :=
  let user_id := pretty uid in
  match users !! user_id with
  | None => <[user_id := new_subscriber now]> users
  | Some _ => alter (User.with_subscribed true) user_id users
  end.

Inductive reply : Type :=
| NoConferences
| Upcoming (shown : list (string * Conference.t)).

(** [lambda x: x[1].get('start_date', '9999-12-31')]. *)
Definition start_date_key (x : string * Conference.t) : str :=
  default (lit "9999-12-31") (Conference.start_date x.2).

(** [/upcoming]: [conferences] is the document that
    [load_conferences] reads, in file order. *)
Definition upcoming_conferences (conferences : list (string * Conference.t))
  : reply :=
  match conferences with
  | [] => NoConferences
  | _ => Upcoming (take 10 (sorted_by start_date_key conferences))
  end.

Inductive unsubscribe_reply : Type :=
| Unsubscribed
| WasNotSubscribed.

(** [/unsubscribe]: the users document is written only for a known
    user. *)
Definition unsubscribe (users : gmap string User.t) (uid : Z)
  : gmap string User.t * unsubscribe_reply :=
  let user_id := pretty uid in
  match users !! user_id with
  | Some _ => (alter (User.with_subscribed false) user_id users, Unsubscribed)
  | None => (users, WasNotSubscribed)
  end.

(** The list [subscribed_users] that [check_new_conferences_job] builds.
    It is listed here in the order of the map, which is not the order of
    the document; the job does not use the order. *)
Definition subscribed_users (users : gmap string User.t) : list string :=
  fst <$> List.filter (fun item => User.subscribed item.2) (map_to_list users).

End NotifyBot.

(** ** The scraper *)

Module Scraper.

Definition european_countries : list str :=
  [ lit "Germany"; lit "France"; lit "UK"; lit "United Kingdom"; lit "Spain";
    lit "Italy"; lit "Netherlands"; lit "Belgium"; lit "Poland"; lit "Sweden";
    lit "Norway"; lit "Denmark"; lit "Finland"; lit "Austria";
    lit "Switzerland"; lit "Portugal"; lit "Czech Republic"; lit "Greece";
    lit "Ireland"; lit "Romania"; lit "Hungary"; lit "Croatia";
    lit "Slovenia" ].

Definition relevant_topics : list str :=
  [ lit "testing"; lit "qa"; lit "quality"; lit "software"; lit "dev";
    lit "tech"; lit "agile"; lit "javascript"; lit "python"; lit "java";
    lit "devops"; lit "cloud"; lit "security"; lit "mobile"; lit "web";
    lit "data" ].

Definition _is_relevant_conference (conf : Payload.t) : bool :=
  let country := default [] (Payload.country conf) in
  if negb (existsb (fun eu_country => str_in (lower eu_country) (lower country))
             european_countries)
  then false
  else
    let topics := default [] (Payload.topics conf) in
    let name := lower (default [] (Payload.name conf)) in
    if truthy topics
       && (let topic_str := lower (join (lit " ") topics) in
           existsb (fun topic => str_in topic topic_str) relevant_topics)
    then true
    else if existsb (fun topic => str_in topic name) relevant_topics
    then true
    else false.

(** What [requests.get] returned. *)
Record response (A : Type) : Type := mk_response {
  status_code : Z;
  body : A
}.
Arguments mk_response {A} _ _.
Arguments status_code {A} _.
Arguments body {A} _.

(** The dictionary appended for a relevant conference. *)
Definition scraped (conf : Payload.t) : Conference.t :=
  {| Conference.name := Some (default [] (Payload.name conf));
     Conference.url := Some (default [] (Payload.url conf));
     Conference.start_date := Some (default [] (Payload.startDate conf));
     Conference.end_date := Some (default [] (Payload.endDate conf));
     Conference.city := Some (default [] (Payload.city conf));
     Conference.country := Some (default [] (Payload.country conf));
     Conference.topics := Some (default [] (Payload.topics conf));
     Conference.source := Some (lit "confs.tech");
     Conference.date := None;
     Conference.location := None;
     Conference.directions := None;
     Conference.early_bird_available := None |}.

(** [scrape_confs_tech], given the outcome of the request: [None]
    when [requests.get] raised, and a [body] of [None] when the answer
    is not JSON.  Either exception is caught and leaves the list
    empty. *)
Definition scrape_confs_tech
    (got : option (response (option (list Payload.t))))
  : list Conference.t :=
  match got with
  | None => []
  | Some response =>
      if (status_code response =? 200)%Z
      then match body response with
           | None => []
           | Some data => scraped <$> List.filter _is_relevant_conference data
           end
      else []
  end.

Definition early_bird_keywords : list str :=
  [ lit "early bird"; lit "earlybird"; lit "super early";
    lit "early registration"; lit "early rate" ].

Section Discover.

(** The page behind a URL: [None] when [requests.get] raises.  A
    run asks for each URL once. *)
Variable http_get : str -> option (response str).

Definition check_early_bird_status (url : str) : option bool :=
  match http_get url with
  | None => None
  | Some response =>
      if (status_code response =? 200)%Z
      then
        let content := lower (body response) in
        Some (existsb
                (fun keyword =>
                   str_in keyword content
                   && (negb (str_in (lit "sold out") content)
                       && negb (str_in (lit "expired") content)))
                early_bird_keywords)
      else None
  end.

(** The de-duplication loop of [discover_new_conferences], from the
    values [seen_urls] and [unique_conferences] have when it reaches
    the rest [all_conferences] of the batch. *)
Fixpoint deduplicate (seen_urls : gset str)
    (unique_conferences : list Conference.t)
    (all_conferences : list Conference.t) : list Conference.t :=
  match all_conferences with
  | [] => unique_conferences
  | conf :: rest =>
      let url := default [] (Conference.url conf) in
      if truthy url && negb (bool_decide (url ∈ seen_urls))
      then
        let seen_urls := seen_urls ∪ {[ url ]} in
        let conf :=
          if truthy url
          then match check_early_bird_status url with
               | Some early_bird =>
                   Conference.with_early_bird_available (Some early_bird) conf
               | None => conf
               end
          else conf in
        deduplicate seen_urls (unique_conferences ++ [conf]) rest
      else deduplicate seen_urls unique_conferences rest
  end.

Definition discover_new_conferences
    (got : option (response (option (list Payload.t))))
  : list Conference.t :=
  deduplicate ∅ [] (scrape_confs_tech got).

End Discover.

Section Sources.

Variable http_get : str -> option (response str).

(** [datetime.fromisoformat] ([None] where it raises [ValueError]) and
    [datetime.now()]. *)
Variable fromisoformat : str -> option Datetime.t.
Variable now : Datetime.t.

(** The test of the loop of [get_upcoming_conferences_from_sources]; a
    date that is not read is skipped by the bare [except]. *)
Definition starts_within (cutoff_date end_date : Datetime.t)
    (conf : Conference.t) : bool :=
  let start_date_str := default [] (Conference.start_date conf) in
  truthy start_date_str
  && match fromisoformat (split_head 84 start_date_str) with
     | Some start_date =>
         Datetime.le cutoff_date start_date && Datetime.le start_date end_date
     | None => false
     end.

Definition get_upcoming_conferences_from_sources
    (got : option (response (option (list Payload.t)))) (months_ahead : Z)
  : result (list Conference.t) :=
  let conferences := discover_new_conferences http_get got in
  let cutoff_date := now in
  end_date ← Datetime.replace_month cutoff_date
                (Datetime.month cutoff_date + months_ahead);
  let upcoming := List.filter (starts_within cutoff_date end_date) conferences in
  mret (sorted_by (fun x => default [] (Conference.start_date x)) upcoming).

End Sources.

End Scraper.

(** ** The scraper on the feed as it is received

    [_is_relevant_conference] and [scrape_confs_tech] on entries that
    are any JSON values: a field can be missing, [null], or of another
    type than the code expects. *)

Module Feed.
Import Scraper.

Definition _is_relevant_conference (conf : Json.t) : result bool :=
  country ← Json.get conf (lit "country") (Json.Str []);
  european ←
    any (fun eu_country =>
           country_lower ← Json.lower country;
           mret (str_in (lower eu_country) country_lower))
      european_countries;
  if negb european then mret false
  else
    topics ← Json.get conf (lit "topics") (Json.List []);
    name ← Json.get conf (lit "name") (Json.Str []);
    name ← Json.lower name;
    in_topics ←
      (if Json.truthy topics
       then topic_str ← Json.join (lit " ") topics;
            let topic_str := lower topic_str in
            mret (existsb (fun topic => str_in topic topic_str)
                    relevant_topics)
       else mret false);
    if in_topics : bool then mret true
    else if existsb (fun topic => str_in topic name) relevant_topics
    then mret true
    else mret false.

(** The dictionary appended for a relevant conference. *)
Definition scraped (conf : Json.t) : result Json.t :=
  name ← Json.get conf (lit "name") (Json.Str []);
  url ← Json.get conf (lit "url") (Json.Str []);
  start_date ← Json.get conf (lit "startDate") (Json.Str []);
  end_date ← Json.get conf (lit "endDate") (Json.Str []);
  city ← Json.get conf (lit "city") (Json.Str []);
  country ← Json.get conf (lit "country") (Json.Str []);
  topics ← Json.get conf (lit "topics") (Json.List []);
  mret (Json.Dict
          [ (lit "name", name); (lit "url", url);
            (lit "start_date", start_date); (lit "end_date", end_date);
            (lit "city", city); (lit "country", country);
            (lit "topics", topics);
            (lit "source", Json.Str (lit "confs.tech")) ]).

(** The loop over the entries, from the value [conferences] has: the
    list when the loop ends, or the exception that ends it. *)
Fixpoint scrape_loop (conferences : list Json.t) (data : list Json.t)
  : list Json.t * option exn :=
  match data with
  | [] => (conferences, None)
  | conf :: data' =>
      match _is_relevant_conference conf with
      | Ok true =>
          match scraped conf with
          | Ok entry => scrape_loop (conferences ++ [entry]) data'
          | Raise e => (conferences, Some e)
          end
      | Ok false => scrape_loop conferences data'
      | Raise e => (conferences, Some e)
      end
  end.

(** [scrape_confs_tech], given the outcome of the request: [None] when
    [requests.get] raised, and a [body] of [None] when the answer is
    not JSON.  Every exception is caught, and the conferences appended
    before it are returned. *)
Definition scrape_confs_tech (got : option (response (option Json.t)))
  : list Json.t :=
  match got with
  | None => []
  | Some response =>
      if (status_code response =? 200)%Z
      then match body response with
           | None => []
           | Some data =>
               match Json.iter data with
               | Ok data => (scrape_loop [] data).1
               | Raise _ => []
               end
           end
      else []
  end.

(** A payload whose fields are strings, as an entry of the feed. *)
Definition field {A} (key : string) (value : A -> Json.t) (x : option A)
  : list (str * Json.t) :=
  from_option (fun v => [(lit key, value v)]) [] x.

Definition of_payload (conf : Payload.t) : Json.t :=
  Json.Dict
    (field "name" Json.Str (Payload.name conf)
     ++ field "url" Json.Str (Payload.url conf)
     ++ field "startDate" Json.Str (Payload.startDate conf)
     ++ field "endDate" Json.Str (Payload.endDate conf)
     ++ field "city" Json.Str (Payload.city conf)
     ++ field "country" Json.Str (Payload.country conf)
     ++ field "topics" (fun topics => Json.List (Json.Str <$> topics))
          (Payload.topics conf)).

End Feed.

(** ** The setup script *)

Module Setup.

(** [create_data_files], on the files of the working directory: a
    missing document is created empty, an existing one is left. *)
Definition create_file (path : string) (files : gmap string str)
  : gmap string str :=
  match files !! path with
  | Some _ => files
  | None => <[path := lit "{}"]> files
  end.

Definition create_data_files (files : gmap string str) : gmap string str :=
  create_file "users.json" (create_file "conferences.json" files).

End Setup.

(** ** Statements: vocabulary and scenarios *)

(** The vocabulary of the statements. *)
Module Terms.
Import FilterBot.

(** An axis can be evaluated on a conference: it is set to "all", or
    it holds no token, or the conference has the field it reads. *)
Definition evaluable {A} (ALL : str) (selected : list str) (field : option A)
  : Prop :=
  ALL ∈ selected \/ selected = [] \/ is_Some field.

(** The conference has the keys a listing prints, the date apart. *)
Definition renderable (conf : Conference.t) : Prop :=
  is_Some (Conference.name conf) /\ is_Some (Conference.location conf)
  /\ is_Some (Conference.country conf) /\ is_Some (Conference.directions conf)
  /\ is_Some (Conference.url conf).

(** Every selected country has a word and every selected direction
    two. *)
Definition wordy (user_filters : Filters.t) : Prop :=
  Forall (fun c => split c <> []) (default [] (Filters.countries user_filters))
  /\ Forall (fun d => (2 <= length (split d))%nat)
       (default [] (Filters.directions user_filters)).

(** The filters a handler applies for [uid]: the stored ones, or the
    defaults for an unknown user. *)
Definition filters_of (self : bot) (uid : Z) : Filters.t :=
  match users self !! pretty uid with
  | Some user => User.filters user
  | None => default_filters
  end.

Definition is_match (user_filters : Filters.t) (conf : Conference.t) : bool :=
  match _matches_filters conf user_filters with
  | Ok b => b
  | Raise _ => false
  end.

(** [a] comes no later than [b] under [key]. *)
Definition by_key {A} (key : A -> str) : relation A :=
  fun a b => str_le (key a) (key b) = true.

(** [c] is the record [r], with at most an early-bird status attached. *)
Definition attached (r c : Conference.t) : Prop :=
  c = r \/ exists v, c = Conference.with_early_bird_available (Some v) r.

Definition date_key (conf : Conference.t) : str :=
  default [] (Conference.date conf).

(** The stored conferences that match the filters applied for [uid],
    in the order of the store. *)
Definition matching_of (self : bot) (uid : Z) : list Conference.t :=
  List.filter (is_match (filters_of self uid)) (snd <$> conferences self).

(** What [/upcoming] of the filtering bot requires of a conference it
    shows: a date that [strptime] reads, within ninety days from [now],
    and matching filters. *)
Definition due (strptime : str -> option Z) (now : Z)
    (user_filters : Filters.t) (conf : Conference.t) : Prop :=
  exists date conf_date,
    Conference.date conf = Some date
    /\ strptime date = Some conf_date
    /\ (now <= conf_date <= now + timedelta_days 90)%Z
    /\ _matches_filters conf user_filters = Ok true.

End Terms.

(** The vocabulary of the statements about the rest of the code. *)
Module Vocabulary.
Import FilterBot Scraper Conversation.

(** The URL of a record, as the de-duplication loop reads it. *)
Definition url_of (conf : Conference.t) : str :=
  default [] (Conference.url conf).

(** The record as the loop stores it: with the early-bird status of its
    page, when there is one. *)
Definition annotated (http_get : str -> option (response str))
    (conf : Conference.t) : Conference.t :=
  match check_early_bird_status http_get (url_of conf) with
  | Some early_bird =>
      Conference.with_early_bird_available (Some early_bird) conf
  | None => conf
  end.

(** The records of a batch that the loop keeps: those with a URL that
    is neither in [seen] nor that of an earlier record. *)
Fixpoint first_by_url (seen : gset str) (l : list Conference.t)
  : list Conference.t :=
  match l with
  | [] => []
  | conf :: rest =>
      if truthy (url_of conf) && negb (bool_decide (url_of conf ∈ seen))
      then conf :: first_by_url (seen ∪ {[ url_of conf ]}) rest
      else first_by_url seen rest
  end.

(** A page shows an open early-bird offer: it answers 200, names an
    early-bird keyword, and says neither "sold out" nor "expired". *)
Definition offers_early_bird (page : option (response str)) : Prop :=
  exists r, page = Some r
    /\ status_code r = 200%Z
    /\ (exists keyword, keyword ∈ early_bird_keywords
                        /\ str_in keyword (lower (body r)) = true)
    /\ str_in (lit "sold out") (lower (body r)) = false
    /\ str_in (lit "expired") (lower (body r)) = false.

(** The date of the conference is read and lies within ninety days
    from [now]. *)
Definition dated_within (strptime : str -> option Z) (now : Z)
    (conf : Conference.t) : bool :=
  match Conference.date conf with
  | Some date =>
      match strptime date with
      | Some conf_date =>
          bool_decide (now ≤ conf_date ≤ now + timedelta_days 90)%Z
      | None => false
      end
  | None => false
  end.

(** A selection as the toggles keep it: no label twice, and the "all"
    sentinel on its own or not at all. *)
Definition tidy (ALL : str) (selected : list str) : Prop :=
  NoDup selected /\ (selected = [ALL] \/ ALL ∉ selected).

(** The stored filters of [uid] are the selections of [user_data], and
    both selections are tidy and not empty. *)
Definition settled (self : bot) (uid : Z) (user_data : UserData.t) : Prop :=
  exists user countries directions,
    users self !! pretty uid = Some user
    /\ User.filters user
       = Filters.mk (Some countries) (Some directions) None None
    /\ UserData.selected_countries user_data = Some countries
    /\ UserData.selected_directions user_data = Some directions
    /\ countries <> [] /\ directions <> []
    /\ tidy ALL_COUNTRIES countries /\ tidy ALL_DIRECTIONS directions.

(** What holds of a conversation at each of its steps. *)
Definition in_progress (uid : Z) (now : bot * UserData.t * state) : Prop :=
  match now with
  | (_, user_data, SELECTING_COUNTRY) =>
      exists countries,
        UserData.selected_countries user_data = Some countries
        /\ tidy ALL_COUNTRIES countries
  | (_, user_data, SELECTING_DIRECTION) =>
      exists countries directions,
        UserData.selected_countries user_data = Some countries
        /\ UserData.selected_directions user_data = Some directions
        /\ countries <> []
        /\ tidy ALL_COUNTRIES countries /\ tidy ALL_DIRECTIONS directions
  | (self, user_data, END) => settled self uid user_data
  end.

(** The same for the labels: the selections hold labels of the menus
    only. *)
Definition from_menus (uid : Z) (now : bot * UserData.t * state) : Prop :=
  match now with
  | (_, user_data, SELECTING_COUNTRY) =>
      default [] (UserData.selected_countries user_data) ⊆ COUNTRIES
  | (_, user_data, SELECTING_DIRECTION) =>
      default [ALL_COUNTRIES] (UserData.selected_countries user_data)
        ⊆ COUNTRIES
      /\ default [] (UserData.selected_directions user_data) ⊆ DIRECTIONS
  | (self, _, END) =>
      forall user,
        users self !! pretty uid = Some user ->
        default [] (Filters.countries (User.filters user)) ⊆ COUNTRIES
        /\ default [] (Filters.directions (User.filters user)) ⊆ DIRECTIONS
  end.

(** The labels two by two. *)
Fixpoint pairs {A} (l : list A) : list (list A) :=
  match l with
  | [] => []
  | [a] => [[a]]
  | a :: b :: rest => [a; b] :: pairs rest
  end.

(** The callback data of the buttons of each keyboard. *)
Definition country_data : list str :=
  lit "country_done" :: ((fun label => lit "country_" ++ label) <$> COUNTRIES).

Definition direction_data : list str :=
  lit "direction_done"
  :: ((fun label => lit "direction_" ++ label) <$> DIRECTIONS).

(** The callback queries [clicks], received from state [st] on, all come
    from the keyboard on display. *)
Fixpoint pressed (st : state) (clicks : list str) : Prop :=
  match clicks with
  | [] => True
  | data :: rest =>
      match st with
      | SELECTING_COUNTRY =>
          data ∈ country_data
          /\ pressed (if decide (data = lit "country_done")
                      then SELECTING_DIRECTION else SELECTING_COUNTRY) rest
      | SELECTING_DIRECTION =>
          data ∈ direction_data
          /\ pressed (if decide (data = lit "direction_done")
                      then END else SELECTING_DIRECTION) rest
      | END => True
      end
  end.

(** The text of a field: the field holds a string, a missing key
    counting as the empty string. *)
Definition text_of (field : option Json.t) : option str :=
  match field with
  | None => Some []
  | Some (Json.Str s) => Some s
  | Some _ => None
  end.

Definition topics_of (d : list (str * Json.t)) : Json.t :=
  default (Json.List []) (Json.lookup (lit "topics") d).

(** The strings [' '.join] goes through, when all the items are
    strings. *)
Definition items (topics : Json.t) : option (list str) :=
  match Json.iter topics with
  | Ok l => mapM (fun item => match item with
                              | Json.Str s => Some s
                              | _ => None
                              end) l
  | Raise _ => None
  end.

(** Some country of the European list occurs in [country], up to
    case; some word of the vocabulary occurs in [s], up to case. *)
Definition european (country : str) : Prop :=
  exists eu_country,
    eu_country ∈ european_countries
    /\ str_in (lower eu_country) (lower country) = true.

Definition in_vocabulary (s : str) : Prop :=
  exists topic,
    topic ∈ relevant_topics /\ str_in (lower topic) (lower s) = true.

End Vocabulary.

(** The topic axis as the specification words it: the "all" sentinel is
    selected, or some selected token, its decorative first word
    stripped, is contained (case-insensitively) in one of the tags. *)
Module Spec.
Import FilterBot.

Definition strip_prefix (token : str) : str :=
  join (lit " ") (drop 1 (split token)).

Definition topic_axis (conference : Conference.t) (directions : list str)
  : bool :=
  elem ALL_DIRECTIONS directions
  || existsb
       (fun d =>
          existsb (fun tag => str_in (lower (strip_prefix d)) (lower tag))
            (default [] (Conference.directions conference)))
       directions.
End Spec.

(** The conferences, filters and batches of the scenarios. *)
Module Examples.
Import FilterBot.

(** The first sample conference of the filtering bot. *)
Definition agile_testing_days : Conference.t :=
  {| Conference.name := Some (lit "Agile Testing Days");
     Conference.date := Some (lit "2026-03-15");
     Conference.location := Some (lit "Berlin");
     Conference.country := Some (lit "Germany");
     Conference.directions := Some [lit "agile"; lit "testing"];
     Conference.url := Some (lit "https://agiletestingdays.com");
     Conference.start_date := None; Conference.end_date := None;
     Conference.city := None; Conference.topics := None;
     Conference.source := None; Conference.early_bird_available := None |}.

(** A conference entry without a ['country'] key. *)
Definition no_country : Conference.t :=
  {| Conference.name := Some (lit "QA Meetup");
     Conference.date := Some (lit "2026-09-01");
     Conference.location := Some (lit "Virtual");
     Conference.country := None;
     Conference.directions := Some [lit "testing"];
     Conference.url := Some (lit "https://qameetup.example");
     Conference.start_date := None; Conference.end_date := None;
     Conference.city := None; Conference.topics := None;
     Conference.source := None; Conference.early_bird_available := None |}.

(** A conference tagged ["cloud-native"]. *)
Definition cloud_native : Conference.t :=
  {| Conference.name := Some (lit "Cloud Native Conference");
     Conference.date := Some (lit "2026-06-12");
     Conference.location := Some (lit "London");
     Conference.country := Some (lit "UK");
     Conference.directions := Some [lit "cloud-native"];
     Conference.url := Some (lit "https://cloudnativecon.com");
     Conference.start_date := None; Conference.end_date := None;
     Conference.city := None; Conference.topics := None;
     Conference.source := None; Conference.early_bird_available := None |}.

Definition germany_all : Filters.t :=
  Filters.mk (Some [lit "🇩🇪 Germany"]) (Some [ALL_DIRECTIONS]) None None.

Definition germany_agile : Filters.t :=
  Filters.mk (Some [lit "🇩🇪 Germany"]) (Some [lit "🔄 Agile"]) None None.

Definition all_all_early_bird : Filters.t :=
  Filters.mk (Some [ALL_COUNTRIES]) (Some [ALL_DIRECTIONS]) None (Some true).

Definition payload (url : string) (topics : list string) : Payload.t :=
  {| Payload.name := Some (lit "Test Automation Days");
     Payload.url := Some (lit url);
     Payload.startDate := Some (lit "2026-10-01");
     Payload.endDate := Some (lit "2026-10-02");
     Payload.city := Some (lit "Berlin");
     Payload.country := Some (lit "Germany");
     Payload.topics := Some (lit <$> topics) |}.

Definition testing_only : Payload.t :=
  payload "https://tad.example" ["testing"].

Definition testing_cloud : Payload.t :=
  payload "https://tad.example" ["testing"; "cloud"].

Definition without_url : Payload.t := payload "" ["testing"].

Definition other : Payload.t := payload "https://other.example" ["devops"].

(** A network on which every request raises. *)
Definition offline : str -> option (Scraper.response str) := fun _ => None.

Definition feed (data : list Payload.t)
  : option (Scraper.response (option (list Payload.t))) :=
  Some (Scraper.mk_response 200%Z (Some data)).

(** A matching conference whose entry has no ['date'] key. *)
Definition undated : Conference.t :=
  {| Conference.name := Some (lit "QA Global Summit");
     Conference.date := None;
     Conference.location := Some (lit "Virtual");
     Conference.country := Some (lit "Online");
     Conference.directions := Some [lit "testing"; lit "qa"];
     Conference.url := Some (lit "https://qasummit.com");
     Conference.start_date := None; Conference.end_date := None;
     Conference.city := None; Conference.topics := None;
     Conference.source := None; Conference.early_bird_available := None |}.

(** The same conference with a date that ['%Y-%m-%d'] does not read. *)
Definition misdated : Conference.t :=
  {| Conference.name := Some (lit "QA Global Summit");
     Conference.date := Some (lit "15 March 2027");
     Conference.location := Some (lit "Virtual");
     Conference.country := Some (lit "Online");
     Conference.directions := Some [lit "testing"; lit "qa"];
     Conference.url := Some (lit "https://qasummit.com");
     Conference.start_date := None; Conference.end_date := None;
     Conference.city := None; Conference.topics := None;
     Conference.source := None; Conference.early_bird_available := None |}.

Definition store (second : Conference.t) : bot :=
  mk_bot ∅ [("1"%string, agile_testing_days); ("2"%string, second)].

(** A clock and a date reader for a scenario in which no date is
    read. *)
Definition epoch : Z := 0.
Definition unreadable : str -> option Z := fun _ => None.

(** A store that is not in the order of the dates. *)
Definition unordered : bot :=
  mk_bot ∅ [("1"%string, cloud_native); ("2"%string, agile_testing_days)].

(** The first of March 2026 at midnight, and the dates of the sample
    conferences for ['%Y-%m-%d'], in microseconds from then. *)
Definition first_of_march : Z := 0.

Definition calendar (date : str) : option Z :=
  if decide (date = lit "2026-03-15") then Some (timedelta_days 14)
  else if decide (date = lit "2026-06-12") then Some (timedelta_days 103)
  else None.

(** The store of the notification bot: a conference without start
    date, then one that starts on 1 October 2026. *)
Definition announced : list (string * Conference.t) :=
  [("1"%string, cloud_native); ("2"%string, Scraper.scraped testing_only)].

End Examples.

(** The scenarios of the statements about the rest of the code. *)
Module Scenarios.
Import FilterBot Scraper Conversation Examples.

(** A network on which every page announces early-bird tickets. *)
Definition early_bird_page : str -> option (response str) :=
  fun _ => Some (mk_response 200%Z (lit "Early Bird tickets until May")).

(** A conference, and a payload, with the fields the filters read put
    in lower case. *)
Definition lower_conference (conf : Conference.t) : Conference.t :=
  {| Conference.name := Conference.name conf;
     Conference.date := Conference.date conf;
     Conference.location := Conference.location conf;
     Conference.country := option_map lower (Conference.country conf);
     Conference.directions :=
       option_map (map lower) (Conference.directions conf);
     Conference.url := Conference.url conf;
     Conference.start_date := Conference.start_date conf;
     Conference.end_date := Conference.end_date conf;
     Conference.city := Conference.city conf;
     Conference.topics := Conference.topics conf;
     Conference.source := Conference.source conf;
     Conference.early_bird_available :=
       Conference.early_bird_available conf |}.

Definition lower_payload (conf : Payload.t) : Payload.t :=
  {| Payload.name := option_map lower (Payload.name conf);
     Payload.url := Payload.url conf;
     Payload.startDate := Payload.startDate conf;
     Payload.endDate := Payload.endDate conf;
     Payload.city := Payload.city conf;
     Payload.country := option_map lower (Payload.country conf);
     Payload.topics := option_map (map lower) (Payload.topics conf) |}.

(** A conference and a payload in capitals, some of them beyond
    ASCII, and filters that name the conference in small letters. *)
Definition oesterreich : Conference.t :=
  {| Conference.name := Some (lit "QUALITÄTSTAGE");
     Conference.date := Some (lit "2026-05-20");
     Conference.location := Some (lit "Wien");
     Conference.country := Some (lit "ÖSTERREICH");
     Conference.directions := Some [lit "QUALITÄT"; lit "ΔΟΚΙΜΕΣ"];
     Conference.url := Some (lit "https://qualitaetstage.example");
     Conference.start_date := None; Conference.end_date := None;
     Conference.city := None; Conference.topics := None;
     Conference.source := None; Conference.early_bird_available := None |}.

Definition austrian : Filters.t :=
  Filters.mk (Some [lit "🇦🇹 Österreich"]) (Some [lit "🧪 δοκιμες"])
    None None.

Definition hellenic : Payload.t :=
  {| Payload.name := Some (lit "ΗΜΕΡΕΣ ΠΟΙΟΤΗΤΑΣ SOFTWARE");
     Payload.url := Some (lit "https://poiotita.example");
     Payload.startDate := Some (lit "2026-10-01");
     Payload.endDate := Some (lit "2026-10-02");
     Payload.city := Some (lit "ΑΘΗΝΑ");
     Payload.country := Some (lit "GREECE (ΕΛΛΑΣ)");
     Payload.topics := Some [lit "ΔΟΚΙΜΕΣ"] |}.

(** A payload without a ['country'] key. *)
Definition stateless : Payload.t :=
  {| Payload.name := Some (lit "Test Automation Days");
     Payload.url := Some (lit "https://tad.example");
     Payload.startDate := Some (lit "2026-10-01");
     Payload.endDate := Some (lit "2026-10-02");
     Payload.city := Some (lit "Berlin");
     Payload.country := None;
     Payload.topics := Some [lit "testing"] |}.

(** Entries of the feed: a conference on testing in Germany whose name
    is [null], and one whose name is a string. *)
Definition nameless : Json.t :=
  Json.Dict [ (lit "name", Json.Null);
              (lit "url", Json.Str (lit "https://tad.example"));
              (lit "country", Json.Str (lit "Germany"));
              (lit "topics", Json.List [Json.Str (lit "testing")]) ].

Definition named : Json.t :=
  Json.Dict [ (lit "name", Json.Str (lit "Ελληνικό Συνέδριο ΠΟΙΟΤΗΤΑΣ"));
              (lit "url", Json.Str (lit "https://poiotita.example"));
              (lit "country", Json.Str (lit "GREECE"));
              (lit "topics", Json.List [Json.Str (lit "QA")]) ].

(** Filters with nothing selected, a user who has them, a subscriber,
    and the bots that know them. *)
Definition nothing_selected : Filters.t :=
  Filters.mk (Some []) (Some []) None None.

Definition undecided : bot :=
  mk_bot {[ pretty 42%Z := User.mk false nothing_selected None ]}
    [("1"%string, no_country); ("2"%string, undated)].

Definition subscriber : User.t :=
  User.mk true germany_agile (Some (lit "2026-01-15T09:30:00")).

Definition subscribers : gmap string User.t :=
  {[ pretty 42%Z := subscriber ]}.

(** A date reader for which every date is today. *)
Definition today : str -> option Z := fun _ => Some epoch.

(** A conversation: Germany, "Done", "Done". *)
Definition germany_done_done : list str :=
  [lit "country_🇩🇪 Germany"; lit "country_done"; lit "direction_done"].

(** The fifteenth of March 2026 at midnight, and a reader of ISO dates
    for which every date is the first of April 2026. *)
Definition ides_of_march : Datetime.t := Datetime.mk 2026 3 15 0.

Definition first_of_april : str -> option Datetime.t :=
  fun _ => Some (Datetime.mk 2026 4 1 0).

(** A working directory in which the users are already there. *)
Definition users_only : gmap string str :=
  {[ "users.json"%string := lit "{ }" ]}.

End Scenarios.

(** ** The string operations on the repository's own data *)

Section PyExamples.

Example split_label :
  split (lit "🌐 Web Development")
  = [lit "🌐"; lit "Web"; lit "Development"].
Proof. reflexivity. Qed.

Example split_blank : split (lit "  ") = [].
Proof. reflexivity. Qed.

Example lower_label : lower (lit "🧪 Testing/QA") = lit "🧪 testing/qa".
Proof. reflexivity. Qed.

(** Beyond ASCII: a capital with a diaeresis, the two small sigmas, the
    dotted capital I, which becomes two code points, and the Kelvin
    sign, which becomes the letter k. *)
Example lower_umlaut : lower (lit "ÖSTERREICH") = lit "österreich".
Proof. by vm_compute. Qed.

Example lower_sigma : lower (lit "ΟΔΟΣ ΣΟΦΟΣ") = lit "οδος σοφος".
Proof. by vm_compute. Qed.

Example lower_dotted_i : lower [304] = [105; 775].
Proof. by vm_compute. Qed.

Example lower_kelvin : lower [8490] = lit "k".
Proof. by vm_compute. Qed.

Example str_in_country :
  str_in (lower (lit "UK")) (lower (lit "United Kingdom (UK)")) = true
  /\ str_in (lower (lit "Germany")) (lower (lit "Austria")) = false.
Proof. split; reflexivity. Qed.

Example join_topics :
  join (lit " ") [lit "testing"; lit "cloud"] = lit "testing cloud".
Proof. reflexivity. Qed.

Example str_le_dates :
  str_le (lit "2026-03-15") (lit "2026-04-20") = true
  /\ str_le (lit "2026-04-20") (lit "2026-03-15") = false
  /\ str_le (lit "2026-03-15") (lit "9999-12-31") = true.
Proof. split_and!; reflexivity. Qed.

Example labels_have_two_words :
  Forall (fun label => (2 <= length (split label))%nat)
    (FilterBot.COUNTRIES ++ FilterBot.DIRECTIONS).
Proof. repeat constructor; vm_compute; lia. Qed.

End PyExamples.

(** ** The filter matcher *)

Section ResultFacts.

Context {A : Type}.

Lemma elem_true `{EqDecision A} (x : A) (l : list A) :
  elem x l = true <-> x ∈ l.
Proof. unfold elem. apply bool_decide_eq_true. Qed.

Lemma elem_false `{EqDecision A} (x : A) (l : list A) :
  elem x l = false <-> x ∉ l.
Proof. unfold elem. apply bool_decide_eq_false. Qed.

(** When the test raises on no element, [any] is the disjunction of
    the tests. *)
Lemma any_total (p : A -> result bool) (l : list A) :
  Forall (fun x => exists b, p x = Ok b) l ->
  exists b, any p l = Ok b /\ (b = true <-> exists x, x ∈ l /\ p x = Ok true).
Proof.
  induction 1 as [|x l [b Hb] _ (r & Hr & IH)]; simpl.
  - exists false. split; [done|]. split; [done|].
    intros (x & Hx & _). by apply elem_of_nil in Hx.
  - rewrite Hb. simpl. destruct b.
    + exists true. split; [done|]. split; [|done]. intros _.
      exists x. split; [left|done].
    + exists r. split; [done|]. rewrite IH. split.
      * intros (y & Hy & Hp). exists y. split; [by right|done].
      * intros (y & Hy & Hp). apply elem_of_cons in Hy as [->|Hy].
        -- congruence.
        -- by exists y.
Qed.

(** [any] raises what its first test raises. *)
Lemma any_raise_head (p : A -> result bool) (x : A) (l : list A) (e : exn) :
  p x = Raise e -> any p (x :: l) = Raise e.
Proof. intros H. simpl. by rewrite H. Qed.

End ResultFacts.

Module MatcherFacts.
Import FilterBot Terms.

Lemma country_test_ok conference country c :
  Conference.country conference = Some country ->
  split c <> [] ->
  exists b, country_test conference c = Ok b.
Proof.
  intros Hc Hs. unfold country_test, index_last.
  destruct (last (split c)) as [w|] eqn:Hl.
  - simpl. rewrite Hc. simpl. eauto.
  - by apply last_None in Hl.
Qed.

Lemma country_test_missing conference c :
  Conference.country conference = None ->
  split c <> [] ->
  country_test conference c = Raise (KeyError "country").
Proof.
  intros Hc Hs. unfold country_test, index_last.
  destruct (last (split c)) as [w|] eqn:Hl.
  - simpl. by rewrite Hc.
  - by apply last_None in Hl.
Qed.

Lemma direction_test_ok conference tags d :
  Conference.directions conference = Some tags ->
  (2 <= length (split d))%nat ->
  exists w, split d !! 1%nat = Some w
            /\ direction_test conference d = Ok (elem (lower w) (map lower tags)).
Proof.
  intros Hc Hs. unfold direction_test, index.
  destruct (split d !! 1%nat) as [w|] eqn:Hl.
  - simpl. rewrite Hc. simpl. eauto.
  - apply lookup_ge_None in Hl. lia.
Qed.

Lemma direction_test_missing conference d :
  Conference.directions conference = None ->
  (2 <= length (split d))%nat ->
  direction_test conference d = Raise (KeyError "directions").
Proof.
  intros Hc Hs. unfold direction_test, index.
  destruct (split d !! 1%nat) as [w|] eqn:Hl.
  - simpl. by rewrite Hc.
  - apply lookup_ge_None in Hl. lia.
Qed.

(** The country axis, when every token has a word. *)
Lemma country_match_cases conference countries :
  Forall (fun c => split c <> []) countries ->
  (evaluable ALL_COUNTRIES countries (Conference.country conference)
   /\ exists b, country_match conference countries = Ok b)
  \/ (~ evaluable ALL_COUNTRIES countries (Conference.country conference)
      /\ country_match conference countries = Raise (KeyError "country")).
Proof.
  intros Hwf. unfold country_match, evaluable.
  destruct (elem ALL_COUNTRIES countries) eqn:Hall.
  { left. apply elem_true in Hall. eauto. }
  apply elem_false in Hall.
  destruct (Conference.country conference) as [country|] eqn:Hc.
  - left. split; [by eauto|].
    destruct (any_total (country_test conference) countries) as (b & Hb & _).
    + eapply Forall_impl; [exact Hwf|]. intros c Hs.
      by eapply country_test_ok.
    + eauto.
  - destruct countries as [|c cs].
    + left. split; [by eauto|]. simpl. eauto.
    + right. split.
      * intros [?|[?|[? ?]]]; done.
      * apply any_raise_head. apply country_test_missing; [done|].
        by apply Forall_cons in Hwf as [? _].
Qed.

(** The direction axis, when every token has two words. *)
Lemma direction_match_cases conference directions :
  Forall (fun d => (2 <= length (split d))%nat) directions ->
  (evaluable ALL_DIRECTIONS directions (Conference.directions conference)
   /\ exists b, direction_match conference directions = Ok b)
  \/ (~ evaluable ALL_DIRECTIONS directions (Conference.directions conference)
      /\ direction_match conference directions = Raise (KeyError "directions")).
Proof.
  intros Hwf. unfold direction_match, evaluable.
  destruct (elem ALL_DIRECTIONS directions) eqn:Hall.
  { left. apply elem_true in Hall. eauto. }
  apply elem_false in Hall.
  destruct (Conference.directions conference) as [tags|] eqn:Hc.
  - left. split; [by eauto|].
    destruct (any_total (direction_test conference) directions) as (b & Hb & _).
    + eapply Forall_impl; [exact Hwf|]. intros d Hs.
      destruct (direction_test_ok conference tags d Hc Hs) as (w & _ & ->).
      eauto.
    + eauto.
  - destruct directions as [|d ds].
    + left. split; [by eauto|]. simpl. eauto.
    + right. split.
      * intros [?|[?|[? ?]]]; done.
      * apply any_raise_head. apply direction_test_missing; [done|].
        by apply Forall_cons in Hwf as [? _].
Qed.

(** The direction axis is a membership test of the second word of a
    token among the lower-cased tags. *)
Lemma direction_any_exact conference tags directions :
  Conference.directions conference = Some tags ->
  Forall (fun d => (2 <= length (split d))%nat) directions ->
  exists b, any (direction_test conference) directions = Ok b
    /\ (b = true <->
         exists d w, d ∈ directions /\ split d !! 1%nat = Some w
                     /\ lower w ∈ map lower tags).
Proof.
  intros Hc Hwf.
  destruct (any_total (direction_test conference) directions) as (b & Hb & Hiff).
  { eapply Forall_impl; [exact Hwf|]. intros d Hs.
    destruct (direction_test_ok conference tags d Hc Hs) as (w & _ & ->).
    eauto. }
  exists b. split; [done|]. rewrite Hiff. split.
  - intros (d & Hd & Ht). rewrite Forall_forall in Hwf.
    destruct (direction_test_ok conference tags d Hc) as (w & Hw & Hdt).
    { by apply Hwf. }
    exists d, w. split_and!; [done..|].
    apply elem_true. congruence.
  - intros (d & w & Hd & Hw & Hin). exists d. split; [done|].
    rewrite Forall_forall in Hwf.
    destruct (direction_test_ok conference tags d Hc) as (w' & Hw' & ->).
    { by apply Hwf. }
    f_equal. apply elem_true. congruence.
Qed.

End MatcherFacts.

Section Matcher.
Import FilterBot Terms MatcherFacts Examples.

(** C1 (as amended).  [_matches_filters] is a function of its two
    arguments.  When every selected country has at least one word and
    every selected direction at least two, it returns a boolean exactly
    when each axis is evaluable: the axis is set to "all", or holds no
    token, or the conference has the field the axis reads.  Otherwise
    (a conference missing the field of an axis that holds a concrete
    token) it raises [KeyError] instead of counting the conference as
    non-matching. *)
Theorem matches_filters_returns conference user_filters :
  Forall (fun c => split c <> [])
    (default [] (Filters.countries user_filters)) ->
  Forall (fun d => (2 <= length (split d))%nat)
    (default [] (Filters.directions user_filters)) ->
  ((exists b, _matches_filters conference user_filters = Ok b) <->
     evaluable ALL_COUNTRIES (default [] (Filters.countries user_filters))
       (Conference.country conference)
     /\ evaluable ALL_DIRECTIONS (default [] (Filters.directions user_filters))
          (Conference.directions conference))
  /\ (forall e, _matches_filters conference user_filters = Raise e ->
       e = KeyError "country" \/ e = KeyError "directions").
Proof.
  intros Hc Hd. unfold _matches_filters.
  set (countries := default [] (Filters.countries user_filters)) in *.
  set (directions := default [] (Filters.directions user_filters)) in *.
  destruct (elem ALL_COUNTRIES countries && elem ALL_DIRECTIONS directions)
    eqn:Hboth.
  { apply andb_true_iff in Hboth as [H1%elem_true H2%elem_true].
    split; [|done]. split; [|by eauto].
    intros _. split; by left. }
  destruct (country_match_cases conference countries Hc)
    as [[Hec [b1 ->]]|[Hnc ->]]; simpl.
  - destruct (direction_match_cases conference directions Hd)
      as [[Hed [b2 ->]]|[Hnd ->]]; simpl.
    + split; [|done]. split; eauto.
    + split; [|intros e [= <-]; by right].
      split; [by intros [? ?]|]. intros [_ ?]. done.
  - split; [|intros e [= <-]; by left].
    split; [by intros [? ?]|]. intros [? _]. done.
Qed.

Lemma matches_filters_returns_witness :
  ((exists b, _matches_filters agile_testing_days germany_agile = Ok b) <->
     evaluable ALL_COUNTRIES (default [] (Filters.countries germany_agile))
       (Conference.country agile_testing_days)
     /\ evaluable ALL_DIRECTIONS (default [] (Filters.directions germany_agile))
          (Conference.directions agile_testing_days))
  /\ (forall e, _matches_filters agile_testing_days germany_agile = Raise e ->
       e = KeyError "country" \/ e = KeyError "directions").
Proof.
  apply (matches_filters_returns agile_testing_days germany_agile).
  - apply Forall_singleton. by vm_compute.
  - apply Forall_singleton. vm_compute. lia.
Defined.

(** C1, refuted as stated: a conference without a country, listed for
    a user who selected Germany, makes the matcher raise. *)
Lemma matches_filters_raises :
  _matches_filters no_country germany_all = Raise (KeyError "country")
  /\ ~ (forall conference user_filters,
          exists b, _matches_filters conference user_filters = Ok b).
Proof.
  assert (H : _matches_filters no_country germany_all
              = Raise (KeyError "country")) by (by vm_compute).
  split; [exact H|]. intros Htotal.
  destruct (Htotal no_country germany_all) as [b Hb]. congruence.
Qed.

(** C2.  With "all countries" among the selected countries and "all
    directions" among the selected directions, every conference
    matches. *)
Theorem matches_filters_all_all conference user_filters :
  ALL_COUNTRIES ∈ default [] (Filters.countries user_filters) ->
  ALL_DIRECTIONS ∈ default [] (Filters.directions user_filters) ->
  _matches_filters conference user_filters = Ok true.
Proof.
  intros Hc%elem_true Hd%elem_true. unfold _matches_filters.
  by rewrite Hc, Hd.
Qed.

Lemma matches_filters_all_all_witness :
  _matches_filters no_country default_filters = Ok true.
Proof.
  apply matches_filters_all_all; simpl; apply list_elem_of_singleton; done.
Defined.

(** C3 (as amended).  On a conference that has its directions and for
    tokens of at least two words, the direction axis is true exactly
    when "all directions" is selected, or the lower-cased second word
    of some selected token equals one of the lower-cased tags. *)
Theorem direction_match_exact conference tags directions :
  Conference.directions conference = Some tags ->
  Forall (fun d => (2 <= length (split d))%nat) directions ->
  exists b, direction_match conference directions = Ok b
    /\ (b = true <->
         ALL_DIRECTIONS ∈ directions
         \/ exists d w, d ∈ directions /\ split d !! 1%nat = Some w
                        /\ lower w ∈ map lower tags).
Proof.
  intros Hc Hwf. unfold direction_match.
  destruct (elem ALL_DIRECTIONS directions) eqn:Hall.
  - apply elem_true in Hall. exists true. split; [done|]. split; eauto.
  - apply elem_false in Hall.
    destruct (direction_any_exact conference tags directions Hc Hwf)
      as (b & Hb & Hiff).
    exists b. split; [done|]. rewrite Hiff. split; [by right|].
    intros [?|?]; done.
Qed.

Lemma direction_match_exact_witness :
  exists b, direction_match agile_testing_days [lit "🔄 Agile"] = Ok b
    /\ (b = true <->
         ALL_DIRECTIONS ∈ [lit "🔄 Agile"]
         \/ exists d w, d ∈ [lit "🔄 Agile"] /\ split d !! 1%nat = Some w
                        /\ lower w ∈ map lower [lit "agile"; lit "testing"]).
Proof.
  apply (direction_match_exact agile_testing_days).
  - reflexivity.
  - repeat constructor; vm_compute; lia.
Defined.

(** C3, refuted as stated: "cloud" is contained in the tag
    "cloud-native", yet the direction axis is false. *)
Lemma direction_match_not_substring :
  direction_match cloud_native [lit "☁️ Cloud"] = Ok false
  /\ Spec.topic_axis cloud_native [lit "☁️ Cloud"] = true.
Proof. split; by vm_compute. Qed.

(** C4 (as amended).  The matcher reads neither the early-bird toggle
    of the filters nor the early-bird field of the conference: for
    every conference and all filters, whatever the two values, its
    outcome is the one it has without them; and whenever the country
    axis and the direction axis evaluate, the outcome is their
    conjunction and nothing else. *)
Theorem matches_filters_ignores_early_bird conference user_filters
    (early_bird toggle : option bool) :
  _matches_filters
    (Conference.with_early_bird_available early_bird conference)
    (Filters.with_notify_early_bird toggle user_filters)
  = _matches_filters conference user_filters
  /\ forall country_ok direction_ok : bool,
       country_match conference
         (default [] (Filters.countries user_filters)) = Ok country_ok ->
       direction_match conference
         (default [] (Filters.directions user_filters)) = Ok direction_ok ->
       _matches_filters
         (Conference.with_early_bird_available early_bird conference)
         (Filters.with_notify_early_bird toggle user_filters)
       = Ok (country_ok && direction_ok).
Proof.
  split; [reflexivity|]. intros country_ok direction_ok Hc Hd.
  change (_matches_filters
            (Conference.with_early_bird_available early_bird conference)
            (Filters.with_notify_early_bird toggle user_filters))
    with (_matches_filters conference user_filters).
  unfold _matches_filters.
  destruct (elem ALL_COUNTRIES _ && elem ALL_DIRECTIONS _) eqn:Hboth.
  - apply andb_true_iff in Hboth as [H1 H2].
    unfold country_match in Hc. unfold direction_match in Hd.
    rewrite H1 in Hc. rewrite H2 in Hd.
    injection Hc as <-. injection Hd as <-. done.
  - rewrite Hc, Hd. done.
Qed.

(** On a conference without country, for which the country axis
    raises, and on one for which both axes evaluate. *)
Lemma matches_filters_ignores_early_bird_witness :
  _matches_filters
    (Conference.with_early_bird_available (Some false) no_country)
    (Filters.with_notify_early_bird (Some true) germany_all)
  = _matches_filters no_country germany_all
  /\ _matches_filters
       (Conference.with_early_bird_available (Some false) agile_testing_days)
       (Filters.with_notify_early_bird (Some true) germany_agile)
     = Ok (true && true).
Proof.
  split.
  - apply (matches_filters_ignores_early_bird no_country germany_all
             (Some false) (Some true)).
  - apply (matches_filters_ignores_early_bird agile_testing_days
             germany_agile (Some false) (Some true)); by vm_compute.
Defined.

(** C4, refuted as stated: with the toggle set, a conference whose
    early-bird status is unknown, or known to be false, still
    matches. *)
Lemma matches_filters_early_bird_unknown :
  Filters.notify_early_bird all_all_early_bird = Some true
  /\ Conference.early_bird_available agile_testing_days = None
  /\ _matches_filters agile_testing_days all_all_early_bird = Ok true
  /\ _matches_filters
       (Conference.with_early_bird_available (Some false) agile_testing_days)
       all_all_early_bird = Ok true.
Proof. split_and!; by vm_compute. Qed.

(** C5.  A selection that contains the "all" sentinel of its axis
    matches exactly as the sentinel alone does, on the country axis
    and on the direction axis. *)
Theorem all_supersedes conference user_filters (countries directions : list str) :
  ALL_COUNTRIES ∈ countries ->
  ALL_DIRECTIONS ∈ directions ->
  _matches_filters conference
    (Filters.with_countries (Some countries) user_filters)
  = _matches_filters conference
      (Filters.with_countries (Some [ALL_COUNTRIES]) user_filters)
  /\ _matches_filters conference
       (Filters.with_directions (Some directions) user_filters)
     = _matches_filters conference
         (Filters.with_directions (Some [ALL_DIRECTIONS]) user_filters).
Proof.
  intros Hc%elem_true Hd%elem_true.
  assert (Hc1 : elem ALL_COUNTRIES [ALL_COUNTRIES] = true)
    by (apply elem_true, list_elem_of_singleton; done).
  assert (Hd1 : elem ALL_DIRECTIONS [ALL_DIRECTIONS] = true)
    by (apply elem_true, list_elem_of_singleton; done).
  destruct user_filters as [cs ds ts toggle].
  unfold _matches_filters, country_match, direction_match,
    Filters.with_countries, Filters.with_directions.
  cbn [Filters.countries Filters.directions from_option id].
  rewrite Hc, Hd, Hc1, Hd1. done.
Qed.

Lemma all_supersedes_witness :
  _matches_filters agile_testing_days
    (Filters.with_countries (Some [lit "🇩🇪 Germany"; ALL_COUNTRIES]) germany_agile)
  = _matches_filters agile_testing_days
      (Filters.with_countries (Some [ALL_COUNTRIES]) germany_agile)
  /\ _matches_filters agile_testing_days
       (Filters.with_directions (Some [ALL_DIRECTIONS; lit "🔒 Security"]) germany_agile)
     = _matches_filters agile_testing_days
         (Filters.with_directions (Some [ALL_DIRECTIONS]) germany_agile).
Proof.
  apply all_supersedes.
  - apply list_elem_of_In. right. left. reflexivity.
  - apply list_elem_of_In. left. reflexivity.
Defined.

Lemma remove_first_subseteq (x y : str) (l : list str) :
  x ∈ remove_first y l -> x ∈ l.
Proof.
  induction l as [|z l IH]; [done|]. simpl.
  destruct (decide (y = z)); [by right|].
  intros [->|H]%elem_of_cons; [left|right; auto].
Qed.

(** The toggles of [/filters] keep the "all" sentinel apart: a
    selection that is the sentinel alone, or does not hold it, stays
    so. *)
Lemma select_country_exclusive (selected : list str) (country : str) :
  selected = [ALL_COUNTRIES] \/ ALL_COUNTRIES ∉ selected ->
  select_country selected country = [ALL_COUNTRIES]
  \/ ALL_COUNTRIES ∉ select_country selected country.
Proof.
  intros Hsel. unfold select_country.
  destruct (decide (country = ALL_COUNTRIES)) as [|Hne]; [by left|].
  right. destruct Hsel as [->|Hnot].
  - rewrite (proj2 (elem_true ALL_COUNTRIES [ALL_COUNTRIES])) by (by left).
    cbn [remove_first]. rewrite decide_True by done.
    rewrite (proj2 (elem_false country [])) by apply not_elem_of_nil.
    intros H%list_elem_of_singleton. congruence.
  - rewrite (proj2 (elem_false ALL_COUNTRIES selected) Hnot).
    destruct (elem country selected).
    + intros H. by apply remove_first_subseteq in H.
    + intros [H|H%list_elem_of_singleton]%elem_of_app; [done|congruence].
Qed.

End Matcher.

(** ** First contact *)

Section FirstContact.
Import FilterBot.

Lemma init_user_new (users : gmap string User.t) (user_id : string) :
  users !! user_id = None ->
  init_user users user_id !! user_id = Some new_user.
Proof. intros H. unfold init_user. rewrite H. apply lookup_insert_eq. Qed.

Lemma init_user_known (users : gmap string User.t) (user_id : string) :
  is_Some (users !! user_id) -> init_user users user_id = users.
Proof. intros [u Hu]. unfold init_user. by rewrite Hu. Qed.

(** C9 (as amended).  For a user id that is not in the users document,
    [/start] and [/subscribe] of the filtering bot create the filters
    "all countries" / "all directions", without any early-bird key; the
    [/subscribe] of the notification bot creates an empty country list,
    five concrete topics and the early-bird notification switched on. *)
Theorem first_contact_filters (self : bot) (users : gmap string User.t)
    (now : str) (uid : Z) :
  FilterBot.users self !! pretty uid = None ->
  users !! pretty uid = None ->
  FilterBot.users (start_command self uid) !! pretty uid
  = Some (User.mk false
            (Filters.mk (Some [ALL_COUNTRIES]) (Some [ALL_DIRECTIONS]) None None)
            None)
  /\ FilterBot.users (subscribe_command self uid) !! pretty uid
     = Some (User.mk true
               (Filters.mk (Some [ALL_COUNTRIES]) (Some [ALL_DIRECTIONS]) None None)
               None)
  /\ NotifyBot.subscribe users now uid !! pretty uid
     = Some (User.mk true
               (Filters.mk (Some []) None
                  (Some [lit "QA"; lit "testing"; lit "IT"; lit "DevOps";
                         lit "software"])
                  (Some true))
               (Some now)).
Proof.
  intros Hself Husers. split_and!.
  - unfold start_command. cbn [FilterBot.users]. by apply init_user_new.
  - unfold subscribe_command. cbn [FilterBot.users].
    rewrite lookup_alter_eq, init_user_new by done. done.
  - unfold NotifyBot.subscribe. rewrite Husers. apply lookup_insert_eq.
Qed.

Lemma first_contact_filters_witness :
  FilterBot.users (start_command (mk_bot ∅ []) 42) !! pretty 42%Z
  = Some (User.mk false
            (Filters.mk (Some [ALL_COUNTRIES]) (Some [ALL_DIRECTIONS]) None None)
            None)
  /\ FilterBot.users (subscribe_command (mk_bot ∅ []) 42) !! pretty 42%Z
     = Some (User.mk true
               (Filters.mk (Some [ALL_COUNTRIES]) (Some [ALL_DIRECTIONS]) None None)
               None)
  /\ NotifyBot.subscribe ∅ (lit "2026-01-15T09:30:00") 42 !! pretty 42%Z
     = Some (User.mk true
               (Filters.mk (Some []) None
                  (Some [lit "QA"; lit "testing"; lit "IT"; lit "DevOps";
                         lit "software"])
                  (Some true))
               (Some (lit "2026-01-15T09:30:00"))).
Proof.
  apply (first_contact_filters (mk_bot ∅ []) ∅ (lit "2026-01-15T09:30:00") 42).
  - reflexivity.
  - reflexivity.
Defined.

(** C9, refuted as stated: the first [/subscribe] of the notification
    bot stores filters whose country list is empty (it does not hold the
    "all countries" sentinel), whose topics are concrete, and whose
    early-bird switch is on. *)
Lemma first_subscribe_not_default :
  User.filters <$> (NotifyBot.subscribe ∅ (lit "2026-01-15T09:30:00") 42
                     !! pretty 42%Z)
  = Some (Filters.mk (Some []) None
            (Some [lit "QA"; lit "testing"; lit "IT"; lit "DevOps";
                   lit "software"])
            (Some true))
  /\ ALL_COUNTRIES ∉ ([] : list str).
Proof. split; [by vm_compute|]. apply not_elem_of_nil. Qed.

End FirstContact.

(** ** De-duplication of a scraped batch *)

Section Dedup.
Import Scraper Terms.

Variable http_get : str -> option (response str).

Lemma truthy_false {A} (l : list A) : truthy l = false <-> l = [].
Proof. destruct l; simpl; split; congruence. Qed.

Lemma with_early_bird_url (v : option bool) (conf : Conference.t) :
  Conference.url (Conference.with_early_bird_available v conf)
  = Conference.url conf.
Proof. reflexivity. Qed.

(** A record without URL, or whose URL has been seen, or occurs
    earlier in the rest of the batch, leaves no trace in the outcome of
    the loop. *)
Lemma deduplicate_skip (l1 : list Conference.t) :
  forall (seen : gset str) (out : list Conference.t) (r : Conference.t)
         (l2 : list Conference.t),
    default [] (Conference.url r) = []
    \/ default [] (Conference.url r) ∈ seen
    \/ default [] (Conference.url r)
         ∈ (fun c => default [] (Conference.url c)) <$> l1 ->
    deduplicate http_get seen out (l1 ++ r :: l2)
    = deduplicate http_get seen out (l1 ++ l2).
Proof.
  induction l1 as [|c l1 IH]; intros seen out r l2 Hr.
  - cbn [app deduplicate].
    destruct Hr as [Hr|[Hr|Hr]].
    + rewrite Hr. done.
    + rewrite (bool_decide_eq_true_2 _ Hr). by rewrite andb_false_r.
    + by apply elem_of_nil in Hr.
  - cbn [app deduplicate].
    destruct (truthy (default [] (Conference.url c))
              && negb (bool_decide (default [] (Conference.url c) ∈ seen)))
      eqn:Hc.
    + apply IH. destruct Hr as [Hr|[Hr|Hr]]; [by left| |].
      * right; left. set_solver.
      * rewrite fmap_cons in Hr. apply elem_of_cons in Hr as [Hr|Hr].
        -- right; left. rewrite Hr. set_solver.
        -- by right; right.
    + apply IH. destruct Hr as [Hr|[Hr|Hr]]; [by left|by right; left|].
      rewrite fmap_cons in Hr. apply elem_of_cons in Hr as [Hr|Hr];
        [|by right; right].
      apply andb_false_iff in Hc as [Hc|Hc].
      * left. apply truthy_false in Hc. congruence.
      * right; left. apply negb_false_iff, bool_decide_eq_true in Hc.
        congruence.
Qed.

(** What holds of the records kept so far, and is kept by attaching an
    early-bird status, holds of the outcome for the records with a
    URL. *)
Lemma deduplicate_Forall (P : Conference.t -> Prop) (l : list Conference.t) :
  (forall v c, P c -> P (Conference.with_early_bird_available v c)) ->
  forall (seen : gset str) (out : list Conference.t),
    Forall P out ->
    Forall (fun c => default [] (Conference.url c) <> [] -> P c) l ->
    Forall P (deduplicate http_get seen out l).
Proof.
  intros HP. induction l as [|c l IH]; intros seen out Hout Hl; [done|].
  apply Forall_cons in Hl as [Hc Hl]. cbn [deduplicate].
  destruct (truthy (default [] (Conference.url c))) eqn:Ht; cbn [andb];
    [|by apply IH].
  destruct (negb (bool_decide (default [] (Conference.url c) ∈ seen)));
    [|by apply IH].
  apply IH; [|done]. apply Forall_app. split; [done|].
  apply Forall_singleton.
  assert (Hp : P c).
  { apply Hc. intros Hnil. rewrite Hnil in Ht. done. }
  destruct (check_early_bird_status http_get _); [by apply HP|done].
Qed.

(** The loop only appends to the records kept so far. *)
Lemma deduplicate_extends (l : list Conference.t) :
  forall (seen : gset str) (out : list Conference.t),
    exists rest, deduplicate http_get seen out l = out ++ rest.
Proof.
  induction l as [|c l IH]; intros seen out; cbn [deduplicate].
  - exists []. by rewrite app_nil_r.
  - destruct (_ && _); [|apply IH].
    edestruct IH as [rest ->]. rewrite <- app_assoc. by eexists.
Qed.

(** The first record of the batch with a given URL is kept. *)
Lemma deduplicate_keeps (l1 : list Conference.t) :
  forall (seen : gset str) (out : list Conference.t) (r : Conference.t)
         (l2 : list Conference.t),
    default [] (Conference.url r) <> [] ->
    default [] (Conference.url r) ∉ seen ->
    default [] (Conference.url r)
      ∉ (fun c => default [] (Conference.url c)) <$> l1 ->
    exists c, c ∈ deduplicate http_get seen out (l1 ++ r :: l2)
              /\ attached r c.
Proof.
  induction l1 as [|a l1 IH]; intros seen out r l2 Hurl Hseen Hl1.
  - cbn [app deduplicate].
    destruct (default [] (Conference.url r)) as [|ch url] eqn:Hr; [done|].
    cbn [truthy andb]. rewrite (bool_decide_eq_false_2 _ Hseen). cbn [negb].
    edestruct deduplicate_extends as [rest ->].
    eexists. split.
    + apply elem_of_app. left. apply elem_of_app. right. by left.
    + unfold attached. destruct (check_early_bird_status _ _); eauto.
  - rewrite fmap_cons in Hl1. apply not_elem_of_cons in Hl1 as [Hne Hl1].
    cbn [app deduplicate]. destruct (_ && _); apply IH; try done.
    apply not_elem_of_union. split; [done|].
    by apply not_elem_of_singleton.
Qed.

(** C6 (as amended).  Of two records of a batch with one URL, the first
    in input order is the one stored, as it is but for the early-bird
    status attached to it, and the later one is dropped whole: the
    outcome is the one of the batch without it, so no field of it is
    merged. *)
Theorem first_url_wins (l1 : list Conference.t) (r : Conference.t)
    (l2 : list Conference.t) (r' : Conference.t) (l3 : list Conference.t) :
  default [] (Conference.url r) <> [] ->
  default [] (Conference.url r)
    ∉ (fun c => default [] (Conference.url c)) <$> l1 ->
  default [] (Conference.url r') = default [] (Conference.url r) ->
  deduplicate http_get ∅ [] (l1 ++ r :: l2 ++ r' :: l3)
  = deduplicate http_get ∅ [] (l1 ++ r :: l2 ++ l3)
  /\ exists c, c ∈ deduplicate http_get ∅ [] (l1 ++ r :: l2 ++ r' :: l3)
               /\ attached r c.
Proof.
  intros Hurl Hfirst Hsame. split.
  - rewrite !app_comm_cons, !app_assoc. apply deduplicate_skip.
    right; right. rewrite Hsame, fmap_app, fmap_cons.
    apply elem_of_app. right. by left.
  - apply deduplicate_keeps; [done| |done]. apply not_elem_of_empty.
Qed.

(** C7.  A record without a URL (the key is absent, or its value is the
    empty string) is dropped and the rest of the batch is processed as
    if the record had not been there; no record without a URL is ever in
    the outcome. *)
Theorem missing_url_dropped (l1 : list Conference.t) (r : Conference.t)
    (l2 : list Conference.t) :
  Conference.url r = None \/ Conference.url r = Some [] ->
  deduplicate http_get ∅ [] (l1 ++ r :: l2)
  = deduplicate http_get ∅ [] (l1 ++ l2)
  /\ forall c, c ∈ deduplicate http_get ∅ [] (l1 ++ r :: l2) ->
               exists url, Conference.url c = Some url /\ url <> [].
Proof.
  intros Hr. split.
  - apply deduplicate_skip. left. by destruct Hr as [-> | ->].
  - apply Forall_forall.
    apply deduplicate_Forall; [by intros v c H|done|].
    apply Forall_forall. intros c _ Hc.
    destruct (Conference.url c) as [url|]; [|done]. by exists url.
Qed.

End Dedup.

(** The same at the level of the feed: a payload without URL changes
    nothing in what [discover_new_conferences] returns. *)
Lemma discover_missing_url (http_get : str -> option (Scraper.response str))
    (data1 : list Payload.t) (p : Payload.t) (data2 : list Payload.t) :
  default [] (Payload.url p) = [] ->
  Scraper.discover_new_conferences http_get
    (Some (Scraper.mk_response 200%Z (Some (data1 ++ p :: data2))))
  = Scraper.discover_new_conferences http_get
      (Some (Scraper.mk_response 200%Z (Some (data1 ++ data2)))).
Proof.
  intros Hp. unfold Scraper.discover_new_conferences. cbn.
  rewrite !List.filter_app, !fmap_app. cbn [List.filter].
  destruct (Scraper._is_relevant_conference p); [|done].
  rewrite fmap_cons. apply deduplicate_skip. left.
  cbn. by rewrite Hp.
Qed.

Section DedupScenarios.
Import Scraper Terms Examples.

Lemma first_url_wins_witness :
  deduplicate offline ∅ []
    ([scraped other] ++ scraped testing_only :: [] ++ scraped testing_cloud :: [])
  = deduplicate offline ∅ []
      ([scraped other] ++ scraped testing_only :: [] ++ [])
  /\ exists c, c ∈ deduplicate offline ∅ []
                     ([scraped other] ++ scraped testing_only
                        :: [] ++ scraped testing_cloud :: [])
               /\ attached (scraped testing_only) c.
Proof.
  apply (first_url_wins offline [scraped other] (scraped testing_only) []
           (scraped testing_cloud) []).
  - by vm_compute.
  - intros H. apply list_elem_of_In in H. vm_compute in H.
    destruct H as [H|[]]. discriminate H.
  - reflexivity.
Defined.

(** C6, refuted as stated: of two records with one URL and the topics
    ["testing"] and ["testing", "cloud"], in this order, the one stored
    has the topics ["testing"]. *)
Lemma duplicate_topics_not_merged :
  Conference.topics
    <$> discover_new_conferences offline (feed [testing_only; testing_cloud])
  = [Some [lit "testing"]]
  /\ lit "cloud" ∉ [lit "testing"].
Proof.
  split; [by vm_compute|].
  intros H. apply list_elem_of_In in H. vm_compute in H.
  destruct H as [H|[]]. discriminate H.
Qed.

Lemma missing_url_dropped_witness :
  deduplicate offline ∅ []
    ([scraped testing_only] ++ scraped without_url :: [scraped other])
  = deduplicate offline ∅ [] ([scraped testing_only] ++ [scraped other])
  /\ forall c, c ∈ deduplicate offline ∅ []
                    ([scraped testing_only] ++ scraped without_url
                       :: [scraped other]) ->
               exists url, Conference.url c = Some url /\ url <> [].
Proof.
  apply (missing_url_dropped offline [scraped testing_only]
           (scraped without_url) [scraped other]).
  right. reflexivity.
Defined.

End DedupScenarios.

(** ** The relevance pre-filter *)

Section Substrings.

(** A space is a barrier for the context of a sigma: it is neither
    cased nor case-ignorable. *)
Lemma skip_ignorable_sep (s rest : str) :
  skip_ignorable (s ++ 32 :: rest)
  = match skip_ignorable s with Some c => Some c | None => Some 32 end.
Proof.
  induction s as [|c s IH]; [done|].
  cbn [app skip_ignorable]. by destruct (case_ignorable c).
Qed.

Lemma handle_capital_sigma_after (before s rest : str) :
  handle_capital_sigma before (s ++ 32 :: rest)
  = handle_capital_sigma before s.
Proof.
  unfold handle_capital_sigma. rewrite skip_ignorable_sep.
  by destruct (skip_ignorable s).
Qed.

Lemma handle_capital_sigma_before (s rest after : str) :
  handle_capital_sigma (s ++ 32 :: rest) after
  = handle_capital_sigma s after.
Proof.
  unfold handle_capital_sigma. rewrite skip_ignorable_sep.
  by destruct (skip_ignorable s).
Qed.

Lemma lower_from_before (before rest s : str) :
  lower_from (before ++ 32 :: rest) s = lower_from before s.
Proof.
  revert before. induction s as [|c s IH]; intros before; [done|].
  cbn [lower_from]. rewrite app_comm_cons, (IH (c :: before)). f_equal.
  unfold lower_ucs4. by rewrite handle_capital_sigma_before.
Qed.

Lemma lower_from_sep (before a b : str) :
  lower_from before (a ++ 32 :: b) = lower_from before a ++ 32 :: lower b.
Proof.
  revert before. induction a as [|c a IH]; intros before.
  - cbn [app lower_from].
    change (32 :: before) with ([] ++ 32 :: before).
    rewrite (lower_from_before [] before b). done.
  - cbn [app lower_from]. rewrite IH, <- app_assoc. f_equal.
    unfold lower_ucs4. by rewrite handle_capital_sigma_after.
Qed.

(** Lower-casing goes through a space. *)
Lemma lower_sep (a b : str) : lower (a ++ 32 :: b) = lower a ++ 32 :: lower b.
Proof. apply lower_from_sep. Qed.

(** Lower-casing a string joined on spaces is joining the lower-cased
    parts. *)
Lemma lower_join (l : list str) :
  lower (join (lit " ") l) = join (lit " ") (lower <$> l).
Proof.
  induction l as [|s l IH]; [done|].
  destruct l as [|s' l]; [done|].
  change (join (lit " ") (s :: s' :: l))
    with (s ++ 32 :: join (lit " ") (s' :: l)).
  rewrite lower_sep, IH. done.
Qed.

(** What [lower] returns is in lower case: lower-casing it again
    changes nothing. *)
Lemma find_run_Some (c : N) (runs : list (N * N * N * N))
    (run : N * N * N * N) :
  find_run c runs = Some run -> run ∈ runs /\ in_run c run = true.
Proof.
  induction runs as [|r runs IH]; [done|]. cbn [find_run].
  destruct (c <? r.1.1.1); [done|].
  destruct (in_run c r) eqn:Hr.
  - intros [= <-]. split; [left|done].
  - intros H. destruct (IH H) as [Hin Hrun]. split; [by right|done].
Qed.

Lemma find_run_None (c : N) (runs : list (N * N * N * N)) :
  (forall run, run ∈ runs -> in_run c run = false) ->
  find_run c runs = None.
Proof.
  induction runs as [|r runs IH]; intros H; [done|]. cbn [find_run].
  destruct (c <? r.1.1.1); [done|].
  rewrite (H r) by left. apply IH. intros run Hin. apply H. by right.
Qed.

Lemma run_apart_sound (run other : N * N * N * N) (c : N) :
  in_run c run = true ->
  run_apart run other = true ->
  in_run (run.2 + (c - run.1.1.1)) other = false.
Proof.
  destruct run as [[[first last] step] to].
  destruct other as [[[first' last'] step'] to'].
  unfold in_run, run_apart. cbn [fst snd].
  intros Hc Hap.
  apply andb_true_iff in Hc as [Hc Hstep].
  apply andb_true_iff in Hc as [Hfirst%N.leb_le Hlast%N.leb_le].
  apply N.eqb_eq in Hstep.
  apply not_true_is_false. intros Hin.
  apply andb_true_iff in Hin as [Hin Hstep'].
  apply andb_true_iff in Hin as [Hfirst'%N.leb_le Hlast'%N.leb_le].
  apply N.eqb_eq in Hstep'.
  apply orb_true_iff in Hap as [Hap|Hap];
    [apply orb_true_iff in Hap as [Hap%N.ltb_lt|Hap%N.ltb_lt]; lia|].
  apply andb_true_iff in Hap as [Hap Hpar].
  apply andb_true_iff in Hap as [Htwo%N.eqb_eq Hap]. subst step'.
  apply negb_true_iff, N.eqb_neq in Hpar.
  assert (Heven : (c - first) mod 2 = 0).
  { apply orb_true_iff in Hap as [Hap%N.eqb_eq|Hap%N.eqb_eq]; subst.
    - done.
    - by replace (c - last) with 0 by lia. }
  apply Hpar.
  clear Hap Hstep Hpar.
  zify. Z.to_euclidean_division_equations. lia.
Qed.

Lemma lowercase_runs_unmapped :
  forallb image_unmapped lowercase_runs = true.
Proof. by vm_compute. Qed.

Lemma to_lower_unmapped (c : N) (run : N * N * N * N) :
  find_run c lowercase_runs = Some run ->
  unmapped (run.2 + (c - run.1.1.1)).
Proof.
  intros Hrun. apply find_run_Some in Hrun as [Hin Hc].
  pose proof lowercase_runs_unmapped as Hall.
  rewrite forallb_forall in Hall.
  specialize (Hall run (proj1 (list_elem_of_In _ _) Hin)).
  assert (Hbounds : run.1.1.1 <= c <= run.1.1.2).
  { destruct run as [[[first last] step] to]. unfold in_run in Hc.
    apply andb_true_iff in Hc as [Hc _].
    apply andb_true_iff in Hc as [?%N.leb_le ?%N.leb_le]. done. }
  unfold image_unmapped in Hall.
  destruct run as [[[first last] step] to]. cbn [fst snd] in *.
  apply andb_true_iff in Hall as [Hall Hruns].
  apply andb_true_iff in Hall as [H304 H931].
  split_and!.
  - apply orb_true_iff in H931 as [?%N.ltb_lt|?%N.ltb_lt]; lia.
  - apply orb_true_iff in H304 as [?%N.ltb_lt|?%N.ltb_lt]; lia.
  - apply find_run_None. intros other Hother.
    rewrite forallb_forall in Hruns.
    apply (run_apart_sound (first, last, step, to) other c Hc).
    apply Hruns. by apply list_elem_of_In.
Qed.

Lemma unmapped_small_letters :
  unmapped 962 /\ unmapped 963 /\ unmapped 105 /\ unmapped 775.
Proof.
  unfold unmapped.
  split_and!; first [discriminate | vm_compute; reflexivity].
Qed.

Lemma lower_ucs4_unmapped (before : str) (c : N) (after : str) :
  Forall unmapped (lower_ucs4 before c after).
Proof.
  destruct unmapped_small_letters as (Hfinal & Hmedial & Hi & Hdot).
  unfold lower_ucs4. destruct (c =? 931) eqn:Hsigma.
  - apply Forall_singleton.
    unfold handle_capital_sigma. cbv zeta.
    match goal with |- unmapped (if ?final_sigma then _ else _) =>
      by destruct final_sigma
    end.
  - apply N.eqb_neq in Hsigma. unfold to_lower_full.
    destruct (c =? 304) eqn:Hc.
    + apply Forall_cons. split; [exact Hi|]. by apply Forall_singleton.
    + apply N.eqb_neq in Hc. apply Forall_singleton. unfold to_lower.
      destruct (find_run c lowercase_runs) as [[[[first last] step] to]|]
        eqn:Hrun.
      * apply (to_lower_unmapped c _ Hrun).
      * done.
Qed.

Lemma lower_from_unmapped (before s : str) :
  Forall unmapped (lower_from before s).
Proof.
  revert before. induction s as [|c s IH]; intros before; [constructor|].
  cbn [lower_from]. apply Forall_app. split; [|apply IH].
  apply lower_ucs4_unmapped.
Qed.

Lemma lower_from_fixed (before s : str) :
  Forall unmapped s -> lower_from before s = s.
Proof.
  intros Hs. revert before.
  induction Hs as [|c s (Hsigma & Hdot & Hrun) _ IH]; intros before; [done|].
  cbn [lower_from]. rewrite IH. unfold lower_ucs4, to_lower_full, to_lower.
  rewrite Hrun.
  apply N.eqb_neq in Hsigma, Hdot. by rewrite Hsigma, Hdot.
Qed.

Lemma lower_twice (s : str) : lower (lower s) = lower s.
Proof. apply lower_from_fixed, lower_from_unmapped. Qed.

(** A string that does not contain [c] cannot start across [c]. *)
Lemma startswith_sep (w x y : str) (c : N) :
  c ∉ w -> w <> [] -> startswith w (x ++ c :: y) = startswith w x.
Proof.
  revert x. induction w as [|a w IH]; intros x Hc Hw; [done|].
  apply not_elem_of_cons in Hc as [Hac Hc].
  destruct x as [|b x]; simpl.
  - apply andb_false_iff. left. apply N.eqb_neq. congruence.
  - destruct w as [|a' w].
    + by destruct x.
    + rewrite IH; done.
Qed.

(** Nor can it occur across [c]: it occurs on one side. *)
Lemma str_in_sep (w x y : str) (c : N) :
  c ∉ w -> w <> [] ->
  str_in w (x ++ c :: y) = (str_in w x || str_in w y).
Proof.
  intros Hc Hw. induction x as [|b x IH].
  - cbn [app]. destruct w as [|a w]; [done|].
    apply not_elem_of_cons in Hc as [Hac _].
    cbn. replace (a =? c) with false; [done|].
    symmetry. apply N.eqb_neq. congruence.
  - change ((b :: x) ++ c :: y) with (b :: (x ++ c :: y)).
    change (str_in w (b :: x ++ c :: y))
      with (startswith w (b :: x ++ c :: y) || str_in w (x ++ c :: y)).
    change (str_in w (b :: x)) with (startswith w (b :: x) || str_in w x).
    rewrite IH.
    change (b :: x ++ c :: y) with ((b :: x) ++ c :: y).
    rewrite startswith_sep by done.
    by rewrite orb_assoc.
Qed.

(** Occurring in a string joined on [c] is occurring in a part. *)
Lemma str_in_join (w : str) (c : N) (l : list str) :
  c ∉ w -> w <> [] ->
  str_in w (join [c] l) = existsb (str_in w) l.
Proof.
  intros Hc Hw. induction l as [|s l IH].
  - by destruct w.
  - destruct l as [|s' l].
    + cbn. by rewrite orb_false_r.
    + change (join [c] (s :: s' :: l)) with (s ++ c :: join [c] (s' :: l)).
      rewrite str_in_sep, IH by done. done.
Qed.

Lemma existsb_elem_of {A} (p : A -> bool) (l : list A) :
  existsb p l = true <-> exists x, x ∈ l /\ p x = true.
Proof.
  rewrite existsb_exists. split; intros (x & Hx & Hp); exists x;
    (split; [by apply list_elem_of_In|done]).
Qed.

End Substrings.

Section Relevance.
Import Scraper Vocabulary.

(** The vocabulary is in lower case, and none of its words is empty or
    contains a space. *)
Lemma relevant_topics_words :
  Forall (fun topic => lower topic = topic /\ (32 ∉ topic) /\ topic <> [])
    relevant_topics.
Proof.
  unfold relevant_topics.
  repeat (apply Forall_cons; split;
          [split_and!;
           [by vm_compute
           |let H := fresh in
            intros H; apply list_elem_of_In in H; vm_compute in H;
            repeat (destruct H as [H|H]; [discriminate H|]); exact H
           |by vm_compute]
          |]).
  apply Forall_nil. done.
Qed.

(** A word of the vocabulary occurs in the lower-cased, space-joined
    topics exactly when it occurs, up to case, in one of them. *)
Lemma topics_hit (items : list str) :
  existsb (fun topic => str_in topic (lower (join (lit " ") items)))
    relevant_topics = true
  <-> exists topic, topic ∈ relevant_topics
        /\ exists t, t ∈ items /\ str_in (lower topic) (lower t) = true.
Proof.
  pose proof relevant_topics_words as Hwords.
  rewrite Forall_forall in Hwords.
  rewrite existsb_elem_of.
  split; intros (topic & Hin & H); exists topic; (split; [done|]);
    destruct (Hwords topic Hin) as (Hlow & Hsp & Hne).
  - rewrite lower_join in H. change (lit " ") with [32] in H.
    rewrite str_in_join in H by done.
    apply existsb_elem_of in H as (t' & Ht' & Hstr).
    apply list_elem_of_fmap in Ht' as (t & -> & Ht).
    exists t. by rewrite Hlow.
  - destruct H as (t & Ht & Hstr).
    rewrite lower_join. change (lit " ") with [32].
    rewrite str_in_join by done.
    apply existsb_elem_of. exists (lower t).
    split; [by apply list_elem_of_fmap_2|]. by rewrite <- Hlow.
Qed.

Lemma name_hit (name : str) :
  existsb (fun topic => str_in topic (lower name)) relevant_topics = true
  <-> exists topic, topic ∈ relevant_topics
        /\ str_in (lower topic) (lower name) = true.
Proof.
  pose proof relevant_topics_words as Hwords.
  rewrite Forall_forall in Hwords.
  rewrite existsb_elem_of. split; intros (topic & Hin & Hstr);
    exists topic; (split; [done|]);
    destruct (Hwords topic Hin) as (Hlow & _); congruence.
Qed.

(** On a payload whose fields are strings, the pre-filter accepts
    exactly when some country of the European list occurs, up to case,
    in the country, and some word of the vocabulary occurs, up to case,
    in one of the topics or in the name. *)
Lemma payload_relevance (conf : Payload.t) :
  _is_relevant_conference conf = true <->
  (exists eu_country,
      eu_country ∈ european_countries
      /\ str_in (lower eu_country)
           (lower (default [] (Payload.country conf))) = true)
  /\ (exists topic,
        topic ∈ relevant_topics
        /\ ((exists t, t ∈ default [] (Payload.topics conf)
                       /\ str_in (lower topic) (lower t) = true)
            \/ str_in (lower topic)
                 (lower (default [] (Payload.name conf))) = true)).
Proof.
  unfold _is_relevant_conference.
  set (country := default [] (Payload.country conf)).
  set (topics := default [] (Payload.topics conf)).
  set (name := default [] (Payload.name conf)).
  assert (Htopics :
    truthy topics
    && existsb (fun topic => str_in topic (lower (join (lit " ") topics)))
         relevant_topics = true
    <-> exists topic, topic ∈ relevant_topics
          /\ exists t, t ∈ topics /\ str_in (lower topic) (lower t) = true).
  { rewrite andb_true_iff, topics_hit. split; [by intros [_ ?]|].
    intros (topic & Hin & t & Ht & Hstr). split; [|by eauto].
    by destruct topics; [apply elem_of_nil in Ht|]. }
  pose proof (name_hit name) as Hname.
  set (E := existsb _ european_countries).
  set (T := truthy topics && _) in *.
  set (M := existsb (fun topic => str_in topic (lower name)) relevant_topics)
    in *.
  replace (if negb E then false
           else if T then true else if M then true else false)
    with (E && (T || M)) by (by destruct E, T, M).
  rewrite andb_true_iff, orb_true_iff, Htopics, Hname.
  unfold E. rewrite existsb_elem_of. split.
  - intros [Heu [(topic & Hin & Hex)|(topic & Hin & Hstr)]]; eauto 6.
  - intros [Heu (topic & Hin & [Hex|Hstr])]; eauto 6.
Qed.

(** The same function on the entries of the feed. *)
Lemma any_pure {A} (f : A -> bool) (l : list A) :
  any (fun x => Ok (f x)) l = Ok (existsb f l).
Proof.
  induction l as [|x l IH]; [done|]. cbn [any existsb mbind result_bind].
  destruct (f x); [done|]. by rewrite IH.
Qed.

Lemma lower_text (field : option Json.t) :
  Json.lower (default (Json.Str []) field)
  = match text_of field with
    | Some s => Ok (lower s)
    | None => Raise AttributeError
    end.
Proof. by destruct field as [[]|]. Qed.

Lemma join_items (sep : str) (topics : Json.t) :
  Json.join sep topics
  = match items topics with
    | Some ts => Ok (join sep ts)
    | None => Raise TypeError
    end.
Proof.
  unfold Json.join, items.
  destruct (Json.iter topics) as [l|e] eqn:Hiter; cbn [mbind result_bind].
  - clear Hiter.
    assert (Hl :
      mapM (fun item => match item with
                        | Json.Str s => Ok s
                        | _ => Raise TypeError
                        end) l
      = match mapM (fun item => match item with
                                | Json.Str s => Some s
                                | _ => None
                                end) l with
        | Some ts => Ok ts
        | None => Raise TypeError
        end).
    { induction l as [|item l IH]; [done|].
      cbn [mapM]. rewrite IH.
      destruct item; try done.
      cbn [mbind result_bind option_bind mret result_ret option_ret].
      by destruct (mapM (M := option) _ l). }
    rewrite Hl. by destruct (mapM (M := option) _ l).
  - destruct topics; (discriminate Hiter || by injection Hiter as <-).
Qed.

(** The outcome of the pre-filter on a dictionary, case by case. *)
Lemma relevance_cases (d : list (str * Json.t)) :
  Feed._is_relevant_conference (Json.Dict d)
  = match text_of (Json.lookup (lit "country") d) with
    | None => Raise AttributeError
    | Some country =>
        if negb (existsb
                   (fun eu_country =>
                      str_in (lower eu_country) (lower country))
                   european_countries)
        then Ok false
        else
          match text_of (Json.lookup (lit "name") d) with
          | None => Raise AttributeError
          | Some name =>
              if Json.truthy (topics_of d)
              then match items (topics_of d) with
                   | None => Raise TypeError
                   | Some ts =>
                       Ok (existsb
                             (fun topic =>
                                str_in topic (lower (join (lit " ") ts)))
                             relevant_topics
                           || existsb
                                (fun topic => str_in topic (lower name))
                                relevant_topics)
                   end
              else Ok (existsb (fun topic => str_in topic (lower name))
                         relevant_topics)
          end
    end.
Proof.
  unfold Feed._is_relevant_conference, Json.get, topics_of.
  cbn [mbind result_bind mret result_ret].
  rewrite !lower_text.
  destruct (text_of (Json.lookup (lit "country") d)) as [country|].
  - cbn [mbind result_bind]. rewrite any_pure. cbn [mbind result_bind].
    destruct (negb _); [done|].
    destruct (text_of (Json.lookup (lit "name") d)) as [name|]; [|done].
    cbn [mbind result_bind].
    destruct (Json.truthy _).
    + rewrite join_items. destruct (items _) as [ts|]; [|done].
      cbn [mbind result_bind mret result_ret].
      destruct (existsb _ relevant_topics); [done|].
      by destruct (existsb _ relevant_topics).
    + cbn [mbind result_bind mret result_ret].
      by destruct (existsb _ relevant_topics).
  - done.
Qed.

(** C8.  An entry is accepted exactly when it is a dictionary whose
    country and name are strings (or missing), some country of the
    European list occurs, up to case, in the country, the topics, if
    they are not empty, can be joined, and some word of the vocabulary
    occurs, up to case, in one of the joined items or in the name.  An
    entry that is no dictionary, or whose country, or name for a
    European country, is no string, raises [AttributeError]; topics
    that cannot be joined raise [TypeError], for a European country
    and a name that is a string. *)
Theorem relevance_prefilter (conf : Json.t) :
  (Feed._is_relevant_conference conf = Ok true <->
   exists d country name,
     conf = Json.Dict d
     /\ text_of (Json.lookup (lit "country") d) = Some country
     /\ text_of (Json.lookup (lit "name") d) = Some name
     /\ european country
     /\ ((Json.truthy (topics_of d) = false /\ in_vocabulary name)
         \/ (Json.truthy (topics_of d) = true
             /\ exists ts,
                  items (topics_of d) = Some ts
                  /\ ((exists t, t ∈ ts /\ in_vocabulary t)
                      \/ in_vocabulary name))))
  /\ (Feed._is_relevant_conference conf = Raise AttributeError <->
      (forall d, conf <> Json.Dict d)
      \/ exists d,
           conf = Json.Dict d
           /\ (text_of (Json.lookup (lit "country") d) = None
               \/ exists country,
                    text_of (Json.lookup (lit "country") d) = Some country
                    /\ european country
                    /\ text_of (Json.lookup (lit "name") d) = None))
  /\ (Feed._is_relevant_conference conf = Raise TypeError <->
      exists d country name,
        conf = Json.Dict d
        /\ text_of (Json.lookup (lit "country") d) = Some country
        /\ text_of (Json.lookup (lit "name") d) = Some name
        /\ european country
        /\ Json.truthy (topics_of d) = true
        /\ items (topics_of d) = None)
  /\ (forall e, Feed._is_relevant_conference conf = Raise e ->
       e = AttributeError \/ e = TypeError).
Proof.
  destruct conf as [| | | | |l|d];
    try (split_and!;
         [split; [done|by intros (? & ? & ? & ? & _)]
         |split; [by left|done]
         |split; [done|by intros (? & ? & ? & ? & _)]
         |by intros e [= <-]; left]).
  rewrite relevance_cases.
  assert (Heu : forall country,
    existsb (fun eu_country => str_in (lower eu_country) (lower country))
      european_countries = true <-> european country).
  { intros country. apply existsb_elem_of. }
  assert (Htopics : forall ts,
    existsb (fun topic => str_in topic (lower (join (lit " ") ts)))
      relevant_topics = true <-> exists t, t ∈ ts /\ in_vocabulary t).
  { intros ts. rewrite topics_hit. unfold in_vocabulary.
    split; [intros (topic & ? & t & ? & ?)|intros (t & ? & topic & ? & ?)];
      eauto 6. }
  pose proof name_hit as Hname.
  destruct (text_of (Json.lookup (lit "country") d)) as [country|] eqn:Hc.
  2:{ split_and!.
      - split; [done|]. intros (d' & ? & ? & [= <-] & ? & _). congruence.
      - split; [|done]. intros _. right. exists d. by split; [|left].
      - split; [done|]. intros (d' & ? & ? & [= <-] & ? & _). congruence.
      - intros e [= <-]. by left. }
  destruct (existsb _ european_countries) eqn:He; cbn [negb].
  2:{ assert (Hno : ~ european country).
      { intros H. apply Heu in H. congruence. }
      split_and!.
      - split; [done|].
        intros (d' & c' & ? & [= <-] & ? & ? & ? & _). congruence.
      - split; [done|]. intros [H|(d' & [= <-] & [H|H])].
        + by destruct (H d).
        + congruence.
        + destruct H as (c' & ? & ? & _). congruence.
      - split; [done|].
        intros (d' & c' & ? & [= <-] & ? & ? & ? & _). congruence.
      - done. }
  apply Heu in He.
  destruct (text_of (Json.lookup (lit "name") d)) as [name|] eqn:Hn.
  2:{ split_and!.
      - split; [done|]. intros (d' & ? & ? & [= <-] & ? & ? & _). congruence.
      - split; [|done]. intros _. right. exists d. split; [done|].
        right. by exists country.
      - split; [done|]. intros (d' & ? & ? & [= <-] & ? & ? & _). congruence.
      - intros e [= <-]. by left. }
  destruct (Json.truthy (topics_of d)) eqn:Ht.
  - destruct (items (topics_of d)) as [ts|] eqn:Hi.
    + split_and!.
      * split.
        -- intros [= H]. apply orb_true_iff in H.
           exists d, country, name. split_and!; try done.
           right. split; [done|]. exists ts. split; [done|].
           destruct H as [H|H]; [left; by apply Htopics|right; by apply Hname].
        -- intros (d' & c' & n' & [= <-] & ? & ? & _ & [[? _]|(_ & ts' & ? & H)]);
             [congruence|].
           f_equal. apply orb_true_iff.
           replace ts' with ts in H by congruence.
           replace n' with name in H by congruence.
           destruct H as [H|H]; [left; by apply Htopics|right; by apply Hname].
      * split; [done|]. intros [H|(d' & [= <-] & [H|H])].
        -- by destruct (H d).
        -- congruence.
        -- destruct H as (c' & ? & ? & ?). congruence.
      * split; [done|].
        intros (d' & ? & ? & [= <-] & ? & ? & ? & ? & ?). congruence.
      * done.
    + split_and!.
      * split; [done|].
        intros (d' & c' & n' & [= <-] & ? & ? & _ & [[? _]|(_ & ts' & ? & _)]);
          congruence.
      * split; [done|]. intros [H|(d' & [= <-] & [H|H])].
        -- by destruct (H d).
        -- congruence.
        -- destruct H as (c' & ? & ? & ?). congruence.
      * split; [|done]. intros _. by exists d, country, name.
      * intros e [= <-]. by right.
  - split_and!.
    + split.
      * intros [= H]. exists d, country, name. split_and!; try done.
        left. split; [done|]. by apply Hname.
      * intros (d' & c' & n' & [= <-] & ? & ? & _ & [[_ H]|(? & _)]);
          [|congruence].
        f_equal. replace n' with name in H by congruence. by apply Hname.
    + split; [done|]. intros [H|(d' & [= <-] & [H|H])].
      * by destruct (H d).
      * congruence.
      * destruct H as (c' & ? & ? & ?). congruence.
    + split; [done|].
      intros (d' & ? & ? & [= <-] & ? & ? & ? & ? & ?). congruence.
    + done.
Qed.

(** On a payload whose fields are strings the two models agree. *)
Lemma lookup_app (key : str) (d1 d2 : list (str * Json.t)) :
  Json.lookup key (d1 ++ d2)
  = match Json.lookup key d1 with
    | Some v => Some v
    | None => Json.lookup key d2
    end.
Proof.
  induction d1 as [|[k v] d1 IH]; [done|]. cbn [app Json.lookup].
  by destruct (decide (k = key)).
Qed.

Lemma lookup_field {A} (key : str) (name : string) (value : A -> Json.t)
    (x : option A) :
  Json.lookup key (Feed.field name value x)
  = if decide (lit name = key) then value <$> x else None.
Proof.
  destruct x as [v|]; cbn [Feed.field from_option Json.lookup].
  - by destruct (decide (lit name = key)).
  - by destruct (decide (lit name = key)).
Qed.

Lemma items_strings (ts : list str) :
  items (Json.List (Json.Str <$> ts)) = Some ts.
Proof.
  unfold items. cbn [Json.iter].
  induction ts as [|t ts IH]; [done|].
  cbn [fmap list_fmap mapM mbind option_bind]. fold (fmap Json.Str ts).
  change (list_fmap _ _ Json.Str ts) with (Json.Str <$> ts).
  by rewrite IH.
Qed.

Lemma of_payload_relevance (conf : Payload.t) :
  Feed._is_relevant_conference (Feed.of_payload conf)
  = Ok (_is_relevant_conference conf).
Proof.
  unfold Feed.of_payload. rewrite relevance_cases.
  unfold topics_of. rewrite !lookup_app, !lookup_field.
  repeat match goal with
         | |- context [decide (lit ?a = lit ?b)] =>
             first
               [ rewrite (decide_True (P := lit a = lit b)) by reflexivity
               | rewrite (decide_False (P := lit a = lit b))
                   by (intros H; vm_compute in H; discriminate H) ]
         end.
  unfold _is_relevant_conference.
  destruct conf as [name url startDate endDate city country topics].
  cbn [Payload.name Payload.country Payload.topics].
  destruct country as [country|], name as [name|], topics as [topics|];
    cbn [fmap option_fmap option_map text_of from_option id];
    destruct (negb _); try done.
  all: try (destruct (existsb _ relevant_topics); done).
  all: destruct topics as [|t topics];
    cbn [Json.truthy truthy fmap list_fmap andb];
    try (destruct (existsb _ relevant_topics); done).
  all: change (items _) with (items (Json.List (Json.Str <$> t :: topics)));
    rewrite items_strings;
    destruct (existsb _ relevant_topics); [done|];
    by destruct (existsb _ relevant_topics).
Qed.

End Relevance.

Section RelevanceScenarios.
Import Scraper Vocabulary Scenarios.

(** C8, refuted as stated: an entry for Germany with the topic
    "testing" whose name is [null] is not accepted, the pre-filter
    raises on it; and [scrape_confs_tech] then returns without the
    entries that come after it, here one that is accepted on its
    own. *)
Lemma relevance_null_name :
  Feed._is_relevant_conference nameless = Raise AttributeError
  /\ european (lit "Germany")
  /\ in_vocabulary (lit "testing")
  /\ Feed._is_relevant_conference named = Ok true
  /\ Feed.scrape_confs_tech
       (Some (mk_response 200%Z (Some (Json.List [nameless; named]))))
     = [].
Proof.
  split_and!.
  - vm_compute. reflexivity.
  - exists (lit "Germany"). split; [|vm_compute; reflexivity].
    apply list_elem_of_In. left. reflexivity.
  - exists (lit "testing"). split; [|vm_compute; reflexivity].
    apply list_elem_of_In. left. reflexivity.
  - vm_compute. reflexivity.
  - vm_compute. reflexivity.
Qed.

End RelevanceScenarios.

(** ** Sorting by a string key *)

Section Sorting.
Import Terms.

Lemma str_le_refl (a : str) : str_le a a = true.
Proof.
  induction a as [|x a IH]; [done|]. simpl.
  by rewrite N.eqb_refl, IH, orb_true_r.
Qed.

Lemma str_le_total (a b : str) : str_le a b = false -> str_le b a = true.
Proof.
  revert b. induction a as [|x a IH]; intros [|y b]; simpl; try done.
  intros H. apply orb_false_iff in H as [Hlt H].
  apply N.ltb_ge in Hlt.
  destruct (N.eqb_spec x y) as [->|Hne].
  - simpl in H. rewrite N.eqb_refl, (IH _ H). by rewrite orb_true_r.
  - apply orb_true_iff. left. apply N.ltb_lt. lia.
Qed.

Lemma str_le_trans (a b c : str) :
  str_le a b = true -> str_le b c = true -> str_le a c = true.
Proof.
  revert b c. induction a as [|x a IH]; intros [|y b] [|z c]; simpl;
    try done.
  intros H1 H2.
  apply orb_true_iff in H1 as [H1|H1]; apply orb_true_iff in H2 as [H2|H2].
  - apply N.ltb_lt in H1, H2. apply orb_true_iff. left. apply N.ltb_lt. lia.
  - apply andb_true_iff in H2 as [->%N.eqb_eq _]. by rewrite H1.
  - apply andb_true_iff in H1 as [->%N.eqb_eq _]. by rewrite H2.
  - apply andb_true_iff in H1 as [->%N.eqb_eq H1].
    apply andb_true_iff in H2 as [->%N.eqb_eq H2].
    rewrite N.eqb_refl, (IH _ _ H1 H2). by rewrite orb_true_r.
Qed.

Context {A : Type} (key : A -> str).

Lemma by_key_trans : Transitive (by_key key).
Proof. intros a b c. apply str_le_trans. Qed.

Lemma insert_by_perm (x : A) (l : list A) : insert_by key x l ≡ₚ x :: l.
Proof.
  induction l as [|y l IH]; [done|]. simpl.
  destruct (str_le (key x) (key y)); [done|].
  rewrite IH. apply Permutation_swap.
Qed.

Lemma sorted_by_perm (l : list A) : sorted_by key l ≡ₚ l.
Proof.
  induction l as [|x l IH]; [done|].
  change (sorted_by key (x :: l)) with (insert_by key x (sorted_by key l)).
  by rewrite insert_by_perm, IH.
Qed.

Lemma insert_by_hd (x y : A) (l : list A) :
  by_key key y x -> HdRel (by_key key) y l ->
  HdRel (by_key key) y (insert_by key x l).
Proof.
  intros Hyx Hl. destruct l as [|z l]; simpl.
  - by constructor.
  - destruct (str_le (key x) (key z)); constructor; [done|].
    by inversion Hl.
Qed.

Lemma insert_by_sorted (x : A) (l : list A) :
  Sorted (by_key key) l -> Sorted (by_key key) (insert_by key x l).
Proof.
  induction 1 as [|y l Hs IH Hhd]; simpl.
  - by repeat constructor.
  - destruct (str_le (key x) (key y)) eqn:Hxy.
    + constructor; [by constructor|]. by constructor.
    + constructor; [done|]. apply insert_by_hd; [|done].
      by apply str_le_total.
Qed.

Lemma sorted_by_sorted (l : list A) : Sorted (by_key key) (sorted_by key l).
Proof.
  induction l as [|x l IH]; [constructor|].
  by apply insert_by_sorted.
Qed.

(** Every element of the sorted list comes no later than all those
    after it. *)
Lemma sorted_by_ascending (l : list A) :
  StronglySorted (by_key key) (sorted_by key l).
Proof.
  apply Sorted_StronglySorted; [apply by_key_trans|apply sorted_by_sorted].
Qed.

(** The sort is stable: the elements that have a given key are met in
    the order in which the list had them. *)
Lemma insert_by_stable (k : str) (x : A) (l : list A) :
  List.filter (fun a => bool_decide (key a = k)) (insert_by key x l)
  = List.filter (fun a => bool_decide (key a = k)) (x :: l).
Proof.
  induction l as [|y l IH]; [done|].
  cbn [insert_by]. destruct (str_le (key x) (key y)) eqn:Hxy; [done|].
  cbn [List.filter] in *. rewrite IH.
  destruct (bool_decide (key x = k)) eqn:Hx; [|done].
  destruct (bool_decide (key y = k)) eqn:Hy; [|done].
  apply bool_decide_eq_true in Hx, Hy.
  rewrite Hx, Hy, str_le_refl in Hxy. done.
Qed.

Lemma sorted_by_stable (k : str) (l : list A) :
  List.filter (fun a => bool_decide (key a = k)) (sorted_by key l)
  = List.filter (fun a => bool_decide (key a = k)) l.
Proof.
  induction l as [|x l IH]; [done|].
  change (sorted_by key (x :: l)) with (insert_by key x (sorted_by key l)).
  rewrite insert_by_stable. cbn [List.filter]. by rewrite IH.
Qed.

End Sorting.

(** Sorting the list decorated with its keys, then dropping them, is
    sorting the list. *)
Lemma insert_by_decorated {A} (key : A -> str) (x : A) (l : list (str * A)) :
  Forall (fun p => p.1 = key p.2) l ->
  snd <$> insert_by fst (key x, x) l = insert_by key x (snd <$> l).
Proof.
  induction 1 as [|[k y] l Hk _ IH]; [done|].
  cbn [fst snd] in Hk. subst k.
  cbn [insert_by fmap list_fmap fst snd].
  destruct (str_le (key x) (key y)); [done|].
  cbn [fmap list_fmap snd]. f_equal. exact IH.
Qed.

Lemma sorted_by_decorated {A} (key : A -> str) (l : list A) :
  snd <$> sorted_by fst ((fun x => (key x, x)) <$> l) = sorted_by key l.
Proof.
  induction l as [|x l IH]; [done|].
  rewrite fmap_cons.
  change (sorted_by fst ((key x, x) :: ((fun x => (key x, x)) <$> l)))
    with (insert_by fst (key x, x)
            (sorted_by fst ((fun x => (key x, x)) <$> l))).
  rewrite insert_by_decorated, IH; [done|].
  rewrite (sorted_by_perm fst). apply Forall_fmap, Forall_true. done.
Qed.

(** ** The listings *)

Section MonadFacts.

Context {A B : Type}.

Lemma mapM_Ok (f : A -> result B) (g : A -> B) (l : list A) :
  Forall (fun x => f x = Ok (g x)) l -> mapM f l = Ok (g <$> l).
Proof.
  induction 1 as [|x l Hx _ IH]; [done|].
  cbn [mapM]. rewrite Hx, IH. done.
Qed.

Lemma mapM_Raise (f : A -> result B) (e : exn) (l : list A) :
  Forall (fun x => f x = Raise e \/ exists y, f x = Ok y) l ->
  Exists (fun x => f x = Raise e) l ->
  mapM f l = Raise e.
Proof.
  induction 1 as [|x l Hx Hl IH]; intros Hex.
  - by apply Exists_nil in Hex.
  - cbn [mapM]. destruct Hx as [->|[y Hy]]; [done|].
    rewrite Hy. apply Exists_cons in Hex as [Hex|Hex]; [congruence|].
    cbn. rewrite (IH Hex). done.
Qed.

Lemma select_filter (p : A -> result bool) (q : A -> bool) (l : list A) :
  Forall (fun x => p x = Ok (q x)) l -> select p l = Ok (List.filter q l).
Proof.
  induction 1 as [|x l Hx _ IH]; [done|].
  cbn [select List.filter]. rewrite Hx, IH. cbn. by destruct (q x).
Qed.

End MonadFacts.

Section ListingFacts.
Import FilterBot Terms MatcherFacts.

(** The matcher returns on a conference that has its country and its
    directions, for filters whose tokens have their words. *)
Lemma matches_filters_ok conference user_filters :
  wordy user_filters ->
  is_Some (Conference.country conference) ->
  is_Some (Conference.directions conference) ->
  _matches_filters conference user_filters
  = Ok (is_match user_filters conference).
Proof.
  intros [Hc Hd] Hcountry Hdirs. unfold is_match, _matches_filters.
  destruct (_ && _); [done|].
  destruct (country_match_cases conference _ Hc) as [[_ [b1 ->]]|[Hn _]].
  - destruct (direction_match_cases conference _ Hd) as [[_ [b2 ->]]|[Hn _]].
    + done.
    + destruct Hn. by right; right.
  - destruct Hn. by right; right.
Qed.

Lemma init_user_filters (self : bot) (uid : Z) :
  exists user, init_user (users self) (pretty uid) !! pretty uid = Some user
               /\ User.filters user = filters_of self uid.
Proof.
  unfold init_user, filters_of.
  destruct (users self !! pretty uid) as [user|] eqn:Hu.
  - by exists user.
  - exists new_user. split; [apply lookup_insert_eq|done].
Qed.

(** The matching conferences of [/list], on a store of renderable
    conferences. *)
Lemma list_command_matching (self : bot) (uid : Z) :
  wordy (filters_of self uid) ->
  Forall renderable (snd <$> conferences self) ->
  (list_command self uid).2
  = match matching_of self uid with
    | [] => Ok NothingFound
    | matching =>
        matching ← sort_key (fun x => getitem "date" (Conference.date x))
                            matching;
        _ ← mapM list_entry (take 10 matching);
        mret (Listing (length matching) (take 10 matching))
    end.
Proof.
  intros Hw Hr. unfold matching_of, list_command. cbn [snd].
  destruct (init_user_filters self uid) as (user & Hu & Hf).
  rewrite Hu. cbn [getitem mbind result_bind]. rewrite Hf.
  rewrite (select_filter _ (is_match (filters_of self uid))).
  - cbn [mbind result_bind]. by destruct (List.filter _ _).
  - eapply Forall_impl; [exact Hr|]. intros conf (_ & _ & Hc & Hd & _).
    by apply matches_filters_ok.
Qed.

Lemma sort_key_dated (l : list Conference.t) :
  Forall (fun conf => is_Some (Conference.date conf)) l ->
  sort_key (fun x => getitem "date" (Conference.date x)) l
  = Ok (sorted_by date_key l).
Proof.
  intros Hl. unfold sort_key.
  rewrite (mapM_Ok _ (fun x => (date_key x, x))).
  - cbn. by rewrite sorted_by_decorated.
  - eapply Forall_impl; [exact Hl|]. intros conf [d Hd].
    unfold date_key. by rewrite Hd.
Qed.

Lemma sort_key_undated (l : list Conference.t) :
  Exists (fun conf => Conference.date conf = None) l ->
  sort_key (fun x => getitem "date" (Conference.date x)) l
  = Raise (KeyError "date").
Proof.
  intros Hl. unfold sort_key.
  rewrite (mapM_Raise _ (KeyError "date")); [done| |].
  - apply Forall_forall. intros conf _.
    destruct (Conference.date conf); [right; by eexists|by left].
  - eapply Exists_impl; [exact Hl|]. by intros conf ->.
Qed.

Lemma list_entry_ok (conf : Conference.t) :
  renderable conf -> is_Some (Conference.date conf) ->
  list_entry conf = Ok ().
Proof.
  intros ([? Hn] & [? Hl] & [? Hc] & [? Hd] & [? Hu]) [? Ht].
  unfold list_entry. by rewrite Hn, Hl, Hc, Ht, Hd, Hu.
Qed.

Lemma matching_of_renderable (self : bot) (uid : Z) :
  Forall renderable (snd <$> conferences self) ->
  Forall renderable (matching_of self uid).
Proof.
  intros Hr. apply Forall_forall. intros conf Hin.
  rewrite Forall_forall in Hr. apply Hr.
  apply list_elem_of_In, filter_In in Hin as [Hin _].
  by apply list_elem_of_In.
Qed.

(** [/list] fails on a matching conference without date. *)
Lemma list_command_undated (self : bot) (uid : Z) :
  wordy (filters_of self uid) ->
  Forall renderable (snd <$> conferences self) ->
  Exists (fun conf => Conference.date conf = None) (matching_of self uid) ->
  (list_command self uid).2 = Raise (KeyError "date").
Proof.
  intros Hw Hr Hex. rewrite list_command_matching by done.
  destruct (matching_of self uid) as [|conf l]; [by apply Exists_nil in Hex|].
  by rewrite sort_key_undated.
Qed.

(** [/list] shows the first ten matching conferences in the order of
    their date strings. *)
Lemma list_command_dated (self : bot) (uid : Z) :
  wordy (filters_of self uid) ->
  Forall renderable (snd <$> conferences self) ->
  Forall (fun conf => is_Some (Conference.date conf)) (matching_of self uid) ->
  (list_command self uid).2
  = Ok (match matching_of self uid with
        | [] => NothingFound
        | _ => Listing (length (sorted_by date_key (matching_of self uid)))
                 (take 10 (sorted_by date_key (matching_of self uid)))
        end).
Proof.
  intros Hw Hr Hd. rewrite list_command_matching by done.
  pose proof (matching_of_renderable self uid Hr) as Hrm.
  destruct (matching_of self uid) as [|conf l] eqn:Hm; [done|].
  rewrite sort_key_dated by done. cbn [mbind result_bind].
  rewrite (mapM_Ok _ (fun _ => ())); [done|].
  apply Forall_take. rewrite sorted_by_perm.
  apply Forall_forall. intros c Hc. rewrite Forall_forall in Hrm, Hd.
  apply list_entry_ok; auto.
Qed.

(** A conference that [/upcoming] keeps is due. *)
Lemma is_upcoming_due strptime now user_filters conf :
  is_upcoming strptime now user_filters conf = true ->
  due strptime now user_filters conf.
Proof.
  unfold is_upcoming, upcoming_try, due.
  destruct (Conference.date conf) as [date|]; [|done].
  cbn [getitem mbind result_bind].
  destruct (strptime date) as [conf_date|] eqn:Hs; [|done].
  destruct (bool_decide _) eqn:Hw; [|done].
  apply bool_decide_eq_true in Hw.
  destruct (_matches_filters conf user_filters) as [b|e] eqn:Hm; [|done].
  intros ->. by exists date, conf_date.
Qed.

Lemma upcoming_entry_ok (conf : Conference.t) :
  renderable conf -> is_Some (Conference.date conf) ->
  upcoming_entry conf = Ok ().
Proof.
  intros ([? Hn] & [? Hl] & _ & _ & [? Hu]) [? Ht].
  unfold upcoming_entry. by rewrite Hn, Hl, Ht, Hu.
Qed.

(** [/upcoming] of the filtering bot returns, and shows at most ten
    conferences of the store, each of them due. *)
Lemma upcoming_command_due strptime now (self : bot) (uid : Z) :
  Forall renderable (snd <$> conferences self) ->
  exists shown,
    upcoming_command strptime now self uid
    = Ok (match shown with [] => NothingFound | _ => Upcoming shown end)
    /\ (length shown <= 10)%nat
    /\ Forall (fun conf =>
                 conf ∈ snd <$> conferences self
                 /\ due strptime now (filters_of self uid) conf)
         shown.
Proof.
  intros Hr. unfold upcoming_command.
  change (match users self !! pretty uid with
          | Some user => User.filters user
          | None => default_filters
          end) with (filters_of self uid).
  set (upcoming := List.filter _ _).
  assert (Hup : Forall (fun conf =>
                          conf ∈ snd <$> conferences self
                          /\ due strptime now (filters_of self uid) conf)
                  upcoming).
  { apply Forall_forall. intros conf Hin.
    apply list_elem_of_In, filter_In in Hin as [Hin Hu].
    split; [by apply list_elem_of_In|by apply is_upcoming_due]. }
  exists (take 10 upcoming). split_and!.
  - destruct upcoming as [|conf l] eqn:Heq; [done|].
    rewrite <- Heq in *. rewrite (mapM_Ok _ (fun _ => ())).
    + by rewrite Heq.
    + apply Forall_take. eapply Forall_impl; [exact Hup|].
      intros c [Hin (date & ? & Hd & _)]. rewrite Forall_forall in Hr.
      apply upcoming_entry_ok; [by apply Hr|by eexists].
  - rewrite length_take. lia.
  - by apply Forall_take.
Qed.

End ListingFacts.

Section Listings.
Import FilterBot Terms Vocabulary Examples.

(** [/upcoming] of the filtering bot keeps the conferences whose date
    is read and lies within ninety days and which match, a conference
    on which the matcher raises being skipped. *)
Lemma is_upcoming_split strptime now user_filters conf :
  is_upcoming strptime now user_filters conf
  = dated_within strptime now conf && is_match user_filters conf.
Proof.
  unfold is_upcoming, upcoming_try, dated_within, is_match.
  destruct (Conference.date conf) as [date|]; [|done].
  cbn [getitem mbind result_bind].
  destruct (strptime date); [|done].
  by destruct (bool_decide _).
Qed.

Lemma upcoming_command_shown strptime now (self : bot) (uid : Z) :
  Forall renderable (snd <$> conferences self) ->
  upcoming_command strptime now self uid
  = Ok (match take 10
                 (List.filter
                    (fun conf =>
                       dated_within strptime now conf
                       && is_match (filters_of self uid) conf)
                    (snd <$> conferences self)) with
        | [] => NothingFound
        | shown => Upcoming shown
        end).
Proof.
  intros Hr. unfold upcoming_command.
  change (match users self !! pretty uid with
          | Some user => User.filters user
          | None => default_filters
          end) with (filters_of self uid).
  assert (Hfilter :
    List.filter (is_upcoming strptime now (filters_of self uid))
      (snd <$> conferences self)
    = List.filter
        (fun conf =>
           dated_within strptime now conf
           && is_match (filters_of self uid) conf)
        (snd <$> conferences self)).
  { apply filter_ext. intros conf. apply is_upcoming_split. }
  rewrite Hfilter. set (upcoming := List.filter _ _).
  assert (Hup : Forall (fun conf => renderable conf
                                    /\ is_Some (Conference.date conf))
                  upcoming).
  { apply Forall_forall. intros conf Hin.
    apply list_elem_of_In, filter_In in Hin as [Hin Hd].
    rewrite Forall_forall in Hr. split; [by apply Hr, list_elem_of_In|].
    apply andb_true_iff in Hd as [Hd _].
    unfold dated_within in Hd. by destruct (Conference.date conf). }
  destruct upcoming as [|conf l] eqn:Heq; [done|]. rewrite <- Heq in *.
  rewrite (mapM_Ok _ (fun _ => ())).
  - cbn [mbind result_bind mret result_ret]. rewrite Heq. done.
  - apply Forall_take. eapply Forall_impl; [exact Hup|].
    intros c [? ?]. by apply upcoming_entry_ok.
Qed.

(** C10 (as amended).  Every listing shows at most ten conferences.
    On a store whose conferences have the keys a listing prints, for
    filters whose tokens have their words:
    - [/list] raises [KeyError] when a matching conference has no date;
      otherwise it shows the first ten of the matching conferences taken
      in ascending order of their date strings;
    - [/upcoming] of the filtering bot returns, and shows the first
      ten, in the order of the store, of the conferences whose date is
      read, lies within ninety days, and which match: a conference
      without a readable date is left out;
    - [/upcoming] of the notification bot shows the first ten of the
      stored conferences taken in ascending order of their start-date
      strings, a missing start date counting as "9999-12-31". *)
Theorem listings_shown (strptime : str -> option Z) (now : Z) (self : bot)
    (uid : Z) (stored : list (string * Conference.t)) :
  wordy (filters_of self uid) ->
  Forall renderable (snd <$> conferences self) ->
  (Exists (fun conf => Conference.date conf = None) (matching_of self uid) ->
   (list_command self uid).2 = Raise (KeyError "date"))
  /\ (Forall (fun conf => is_Some (Conference.date conf))
        (matching_of self uid) ->
      exists sorted,
        sorted ≡ₚ matching_of self uid
        /\ StronglySorted (by_key date_key) sorted
        /\ (length (take 10 sorted) <= 10)%nat
        /\ (list_command self uid).2
           = Ok (match matching_of self uid with
                 | [] => NothingFound
                 | _ => Listing (length sorted) (take 10 sorted)
                 end))
  /\ (exists shown,
        shown
        = take 10
            (List.filter
               (fun conf =>
                  dated_within strptime now conf
                  && is_match (filters_of self uid) conf)
               (snd <$> conferences self))
        /\ upcoming_command strptime now self uid
           = Ok (match shown with [] => NothingFound | _ => Upcoming shown end)
        /\ (length shown <= 10)%nat
        /\ Forall (fun conf =>
                     conf ∈ snd <$> conferences self
                     /\ due strptime now (filters_of self uid) conf)
             shown)
  /\ (exists sorted,
        sorted ≡ₚ stored
        /\ StronglySorted (by_key NotifyBot.start_date_key) sorted
        /\ (length (take 10 sorted) <= 10)%nat
        /\ NotifyBot.upcoming_conferences stored
           = match stored with
             | [] => NotifyBot.NoConferences
             | _ => NotifyBot.Upcoming (take 10 sorted)
             end).
Proof.
  intros Hw Hr. split_and!.
  - by apply list_command_undated.
  - intros Hd. exists (sorted_by date_key (matching_of self uid)).
    split_and!.
    + apply sorted_by_perm.
    + apply sorted_by_ascending.
    + rewrite length_take. lia.
    + by apply list_command_dated.
  - eexists. split; [reflexivity|]. split_and!.
    + rewrite (upcoming_command_shown strptime now self uid Hr).
      by destruct (take 10 _).
    + rewrite length_take. lia.
    + apply Forall_take, Forall_forall. intros conf Hin.
      apply list_elem_of_In, filter_In in Hin as [Hin Hu].
      split; [by apply list_elem_of_In|].
      apply is_upcoming_due. by rewrite is_upcoming_split.
  - exists (sorted_by NotifyBot.start_date_key stored). split_and!.
    + apply sorted_by_perm.
    + apply sorted_by_ascending.
    + rewrite length_take. lia.
    + by destruct stored.
Qed.

End Listings.

Section ListingScenarios.
Import FilterBot Terms Vocabulary Examples.

Lemma default_filters_wordy : wordy default_filters.
Proof.
  split; apply Forall_singleton.
  - by vm_compute.
  - vm_compute. lia.
Qed.

(** On a store with an undated match; and on a store that is not in
    the order of the dates, with a clock for which one of its two
    conferences is within ninety days, and a notification store of two
    entries, the first without start date. *)
Lemma listings_shown_witness :
  (list_command (store undated) 42).2 = Raise (KeyError "date")
  /\ (exists sorted,
        sorted ≡ₚ matching_of unordered 42
        /\ StronglySorted (by_key date_key) sorted
        /\ (length (take 10 sorted) <= 10)%nat
        /\ (list_command unordered 42).2
           = Ok (match matching_of unordered 42 with
                 | [] => NothingFound
                 | _ => Listing (length sorted) (take 10 sorted)
                 end))
  /\ (exists shown,
        shown
        = take 10
            (List.filter
               (fun conf =>
                  dated_within calendar first_of_march conf
                  && is_match (filters_of unordered 42) conf)
               (snd <$> conferences unordered))
        /\ upcoming_command calendar first_of_march unordered 42
           = Ok (match shown with [] => NothingFound | _ => Upcoming shown end)
        /\ (length shown <= 10)%nat
        /\ Forall (fun conf =>
                     conf ∈ snd <$> conferences unordered
                     /\ due calendar first_of_march
                          (filters_of unordered 42) conf)
             shown)
  /\ (exists sorted,
        sorted ≡ₚ announced
        /\ StronglySorted (by_key NotifyBot.start_date_key) sorted
        /\ (length (take 10 sorted) <= 10)%nat
        /\ NotifyBot.upcoming_conferences announced
           = match announced with
             | [] => NotifyBot.NoConferences
             | _ => NotifyBot.Upcoming (take 10 sorted)
             end).
Proof.
  split.
  - apply (listings_shown calendar first_of_march (store undated) 42 []).
    + exact default_filters_wordy.
    + repeat constructor; by eexists.
    + apply Exists_cons. right. apply Exists_cons. by left.
  - destruct (listings_shown calendar first_of_march unordered 42 announced)
      as (_ & Hlist & Hupcoming & Hnotify).
    + exact default_filters_wordy.
    + repeat constructor; by eexists.
    + split; [|by split].
      apply Hlist. repeat constructor; by eexists.
Defined.

(** What the three listings show in this scenario. *)
Example listings_unordered :
  (list_command unordered 42).2
  = Ok (Listing 2 [agile_testing_days; cloud_native])
  /\ upcoming_command calendar first_of_march unordered 42
     = Ok (Upcoming [agile_testing_days])
  /\ NotifyBot.upcoming_conferences announced
     = NotifyBot.Upcoming
         [("2"%string, Scraper.scraped testing_only);
          ("1"%string, cloud_native)].
Proof. split_and!; by vm_compute. Qed.

(** C10, refuted as stated: [/list] fails on a matching conference
    without date; and a conference whose date is not a calendar date is
    neither left out nor put last, it is shown first. *)
Lemma list_command_date_trouble :
  (list_command (store undated) 42).2 = Raise (KeyError "date")
  /\ (list_command (store misdated) 42).2
     = Ok (Listing 2 [misdated; agile_testing_days]).
Proof. split; by vm_compute. Qed.

End ListingScenarios.

(** ** More on the de-duplication *)

Section Kept.
Import Scraper Terms Vocabulary.

Variable http_get : str -> option (response str).

Lemma annotated_url (conf : Conference.t) :
  url_of (annotated http_get conf) = url_of conf.
Proof. unfold annotated. by destruct (check_early_bird_status _ _). Qed.

Lemma annotated_twice (conf : Conference.t) :
  annotated http_get (annotated http_get conf) = annotated http_get conf.
Proof.
  unfold annotated at 1. rewrite annotated_url. unfold annotated.
  by destruct (check_early_bird_status _ _).
Qed.

(** The loop stores, after the records it had, the records it keeps,
    each with its status. *)
Lemma deduplicate_kept (l : list Conference.t) :
  forall (seen : gset str) (out : list Conference.t),
    deduplicate http_get seen out l
    = out ++ (annotated http_get <$> first_by_url seen l).
Proof.
  induction l as [|c l IH]; intros seen out; cbn [deduplicate first_by_url].
  - by rewrite app_nil_r.
  - fold (url_of c).
    destruct (truthy (url_of c)) eqn:Ht; cbn [andb]; [|apply IH].
    destruct (negb (bool_decide (url_of c ∈ seen))); [|apply IH].
    rewrite IH, fmap_cons, <- app_assoc. done.
Qed.

Lemma first_by_url_sublist (l : list Conference.t) :
  forall seen : gset str, first_by_url seen l `sublist_of` l.
Proof.
  induction l as [|c l IH]; intros seen; cbn [first_by_url]; [done|].
  destruct (_ && _); [apply sublist_skip|apply sublist_cons]; apply IH.
Qed.

(** The URLs of the kept records: exactly the non-empty URLs of the
    batch that had not been seen. *)
Lemma first_by_url_elem (l : list Conference.t) :
  forall (seen : gset str) (u : str),
    u ∈ url_of <$> first_by_url seen l
    <-> u <> [] /\ (u ∉ seen) /\ u ∈ url_of <$> l.
Proof.
  induction l as [|c l IH]; intros seen u; cbn [first_by_url].
  - rewrite fmap_nil. split; [by intros ?%elem_of_nil|].
    by intros (_ & _ & ?%elem_of_nil).
  - rewrite (fmap_cons url_of c l).
    destruct (truthy (url_of c)) eqn:Ht; cbn [andb].
    + destruct (bool_decide (url_of c ∈ seen)) eqn:Hs; cbn [negb].
      * apply bool_decide_eq_true in Hs. rewrite IH, elem_of_cons.
        split.
        -- intros (? & ? & ?). split_and!; [done..|by right].
        -- intros (? & Hn & [->|?]); [by destruct Hn|done].
      * apply bool_decide_eq_false in Hs.
        rewrite fmap_cons, !elem_of_cons, IH. split.
        -- intros [->|(? & [? ?]%not_elem_of_union & ?)].
           ++ split_and!; [by destruct (url_of c)|done|by left].
           ++ split_and!; [done..|by right].
        -- intros (? & ? & [->|?]); [by left|].
           destruct (decide (u = url_of c)) as [->|]; [by left|].
           right. split_and!; [done| |done].
           apply not_elem_of_union. split; [done|].
           by apply not_elem_of_singleton.
    + apply truthy_false in Ht. rewrite IH, elem_of_cons.
      split.
      * intros (? & ? & ?). split_and!; [done..|by right].
      * intros (Hu & ? & [->|?]); [by destruct Hu|done].
Qed.

Lemma first_by_url_NoDup (l : list Conference.t) :
  forall seen : gset str, NoDup (url_of <$> first_by_url seen l).
Proof.
  induction l as [|c l IH]; intros seen; cbn [first_by_url];
    [constructor|].
  destruct (_ && _); [|apply IH].
  rewrite fmap_cons. constructor; [|apply IH].
  rewrite first_by_url_elem. intros (_ & Hn & _). apply Hn.
  apply elem_of_union. right. by apply elem_of_singleton.
Qed.

(** A batch of distinct, non-empty, unseen URLs is kept whole. *)
Lemma first_by_url_fixed (l : list Conference.t) :
  forall seen : gset str,
    NoDup (url_of <$> l) ->
    Forall (fun c => url_of c <> [] /\ url_of c ∉ seen) l ->
    first_by_url seen l = l.
Proof.
  induction l as [|c l IH]; intros seen Hnd Hl; [done|].
  rewrite fmap_cons in Hnd. apply NoDup_cons in Hnd as [Hc Hnd].
  apply Forall_cons in Hl as [[Hne Hs] Hl]. cbn [first_by_url].
  destruct (url_of c) as [|ch u] eqn:Hu; [done|]. cbn [truthy andb].
  rewrite (bool_decide_eq_false_2 _ Hs). cbn [negb]. f_equal.
  apply IH; [done|]. apply Forall_forall. intros x Hx.
  rewrite Forall_forall in Hl. destruct (Hl x Hx) as [? ?].
  split; [done|]. apply not_elem_of_union. split; [done|].
  apply not_elem_of_singleton. intros Heq. apply Hc. rewrite <- Heq.
  by apply list_elem_of_fmap_2.
Qed.

Lemma annotated_urls (l : list Conference.t) :
  url_of <$> (annotated http_get <$> l) = url_of <$> l.
Proof.
  rewrite <- list_fmap_compose. apply list_fmap_ext.
  intros i c _. apply annotated_url.
Qed.

(** The conferences that [discover_new_conferences] returns have
    pairwise distinct URLs. *)
Theorem deduplicate_unique_urls (all_conferences : list Conference.t) :
  NoDup (url_of <$> deduplicate http_get ∅ [] all_conferences).
Proof.
  rewrite deduplicate_kept, app_nil_l, annotated_urls.
  apply first_by_url_NoDup.
Qed.

(** No URL is lost: a non-empty URL is that of a returned conference
    exactly when it is that of a conference of the batch. *)
Theorem deduplicate_covers (all_conferences : list Conference.t) (u : str) :
  u <> [] ->
  (u ∈ url_of <$> deduplicate http_get ∅ [] all_conferences
   <-> u ∈ url_of <$> all_conferences).
Proof.
  intros Hu. rewrite deduplicate_kept, app_nil_l, annotated_urls.
  rewrite first_by_url_elem. split; [by intros (_ & _ & ?)|].
  intros ?. split_and!; [done|apply not_elem_of_empty|done].
Qed.

(** What the loop returned is kept whole by the loop. *)
Lemma first_by_url_deduplicate (all_conferences : list Conference.t) :
  first_by_url ∅ (deduplicate http_get ∅ [] all_conferences)
  = deduplicate http_get ∅ [] all_conferences.
Proof.
  rewrite !deduplicate_kept, !app_nil_l.
  rewrite first_by_url_fixed; [done| |].
  - rewrite annotated_urls. apply first_by_url_NoDup.
  - apply Forall_forall. intros c Hc.
    assert (Hu : url_of c ∈ url_of <$> first_by_url ∅ all_conferences).
    { rewrite <- annotated_urls. by apply list_elem_of_fmap_2. }
    apply first_by_url_elem in Hu as (? & ? & _). done.
Qed.

(** The loop keeps the order of the batch and invents nothing: what it
    returns is a sub-list of the batch, record by record with the
    early-bird status attached. *)
Theorem deduplicate_in_order (all_conferences : list Conference.t) :
  exists kept,
    kept `sublist_of` all_conferences
    /\ deduplicate http_get ∅ [] all_conferences
       = annotated http_get <$> kept.
Proof.
  exists (first_by_url ∅ all_conferences). split.
  - apply first_by_url_sublist.
  - by rewrite deduplicate_kept.
Qed.

End Kept.

Section SecondPass.
Import Scraper Terms Vocabulary.

(** The answers of the network during a first and a second pass. *)
Variable http_get http_get' : str -> option (response str).

(** De-duplicating what the loop returned, whatever the network
    answers then, drops and moves nothing: every record is kept in
    its place, with the early-bird status of the new request, or its
    former status when that request gives none.  With the same
    answers, the loop returns what it was given. *)
Theorem deduplicate_second_pass (all_conferences : list Conference.t) :
  deduplicate http_get' ∅ [] (deduplicate http_get ∅ [] all_conferences)
  = annotated http_get' <$> deduplicate http_get ∅ [] all_conferences
  /\ url_of
       <$> deduplicate http_get' ∅ []
             (deduplicate http_get ∅ [] all_conferences)
     = url_of <$> deduplicate http_get ∅ [] all_conferences
  /\ deduplicate http_get ∅ [] (deduplicate http_get ∅ [] all_conferences)
     = deduplicate http_get ∅ [] all_conferences.
Proof.
  assert (Hpass : forall h : str -> option (response str),
    deduplicate h ∅ [] (deduplicate http_get ∅ [] all_conferences)
    = annotated h <$> deduplicate http_get ∅ [] all_conferences).
  { intros h.
    rewrite (deduplicate_kept h), app_nil_l.
    by rewrite first_by_url_deduplicate. }
  split_and!.
  - apply Hpass.
  - rewrite Hpass. apply annotated_urls.
  - rewrite Hpass, deduplicate_kept, app_nil_l.
    rewrite <- list_fmap_compose. apply list_fmap_ext.
    intros i c _. apply annotated_twice.
Qed.

End SecondPass.

(** ** The early-bird status *)

Section EarlyBird.
Import Scraper Terms Vocabulary.

Variable http_get : str -> option (response str).

Lemma check_early_bird_status_true (url : str) :
  check_early_bird_status http_get url = Some true
  <-> offers_early_bird (http_get url).
Proof.
  unfold check_early_bird_status, offers_early_bird.
  destruct (http_get url) as [r|]; [|split; [done|by intros (? & ? & _)]].
  destruct (Z.eqb_spec (status_code r) 200) as [Hs|Hs].
  - split.
    + intros Hex. apply (inj Some) in Hex.
      apply existsb_elem_of in Hex as (k & Hk & Hin).
      apply andb_true_iff in Hin as [Hin Hno].
      apply andb_true_iff in Hno as [H1%negb_true_iff H2%negb_true_iff].
      exists r. split_and!; eauto.
    + intros (r' & [= <-] & _ & (k & Hk & Hin) & H1 & H2). f_equal.
      apply existsb_elem_of. exists k. split; [done|].
      by rewrite Hin, H1, H2.
  - split; [done|]. intros (r' & [= <-] & ? & _). done.
Qed.

Lemma scraped_early_bird (p : Payload.t) :
  Conference.early_bird_available (scraped p) = None.
Proof. reflexivity. Qed.

(** A conference returned by [discover_new_conferences] is marked as
    having early-bird tickets exactly when its page shows an open
    early-bird offer. *)
Theorem discover_early_bird_evidence
    (got : option (response (option (list Payload.t)))) (c : Conference.t) :
  c ∈ discover_new_conferences http_get got ->
  (Conference.early_bird_available c = Some true
   <-> offers_early_bird (http_get (url_of c))).
Proof.
  unfold discover_new_conferences.
  rewrite deduplicate_kept, app_nil_l.
  intros (c0 & -> & Hc0)%list_elem_of_fmap.
  assert (Hin : c0 ∈ scrape_confs_tech got).
  { eapply elem_of_sublist; [exact Hc0|]. apply first_by_url_sublist. }
  assert (Heb : Conference.early_bird_available c0 = None).
  { unfold scrape_confs_tech in Hin.
    destruct got as [r|]; [|by apply elem_of_nil in Hin].
    destruct (status_code r =? 200)%Z; [|by apply elem_of_nil in Hin].
    destruct (body r) as [data|]; [|by apply elem_of_nil in Hin].
    apply list_elem_of_fmap in Hin as (p & -> & _). done. }
  rewrite annotated_url, <- check_early_bird_status_true.
  unfold annotated.
  destruct (check_early_bird_status http_get (url_of c0)) as [b|]; [done|].
  rewrite Heb. done.
Qed.

End EarlyBird.

Section EarlyBirdScenario.
Import Scraper Terms Vocabulary Examples Scenarios.

Lemma discover_early_bird_evidence_witness :
  Conference.early_bird_available
    (annotated early_bird_page (scraped testing_only)) = Some true
  <-> offers_early_bird
        (early_bird_page
           (url_of (annotated early_bird_page (scraped testing_only)))).
Proof.
  apply (discover_early_bird_evidence early_bird_page
           (feed [testing_only; testing_cloud])).
  apply list_elem_of_In. left. by vm_compute.
Defined.

Lemma deduplicate_covers_witness :
  lit "https://tad.example"
    ∈ url_of <$> deduplicate offline ∅ []
                   [scraped testing_only; scraped testing_cloud]
  <-> lit "https://tad.example"
        ∈ url_of <$> [scraped testing_only; scraped testing_cloud].
Proof.
  apply (deduplicate_covers offline). by vm_compute.
Defined.

End EarlyBirdScenario.

(** ** More on the matcher *)

Section MatcherLaws.
Import FilterBot Terms MatcherFacts.

Lemma any_ext {A} (p q : A -> result bool) (l : list A) :
  (forall x, p x = q x) -> any p l = any q l.
Proof.
  intros Hpq. induction l as [|x l IH]; [done|].
  cbn [any]. by rewrite Hpq, IH.
Qed.

(** [any] stops at the first element that passes: what comes after it
    is not looked at. *)
Lemma any_app_true {A} (p : A -> result bool) (l l' : list A) :
  any p l = Ok true -> any p (l ++ l') = Ok true.
Proof.
  induction l as [|x l IH]; [done|]. cbn [app any].
  destruct (p x) as [[|]|e]; cbn; auto.
Qed.

Lemma country_match_app conference (countries extra : list str) :
  country_match conference countries = Ok true ->
  country_match conference (countries ++ extra) = Ok true.
Proof.
  unfold country_match.
  destruct (elem ALL_COUNTRIES (countries ++ extra)) eqn:H'; [done|].
  apply elem_false in H'. rewrite not_elem_of_app in H'.
  rewrite (proj2 (elem_false _ _) (proj1 H')). apply any_app_true.
Qed.

Lemma direction_match_app conference (directions extra : list str) :
  direction_match conference directions = Ok true ->
  direction_match conference (directions ++ extra) = Ok true.
Proof.
  unfold direction_match.
  destruct (elem ALL_DIRECTIONS (directions ++ extra)) eqn:H'; [done|].
  apply elem_false in H'. rewrite not_elem_of_app in H'.
  rewrite (proj2 (elem_false _ _) (proj1 H')). apply any_app_true.
Qed.

(** The outcome [Ok true] of the matcher, axis by axis. *)
Lemma matches_filters_true conference user_filters :
  _matches_filters conference user_filters = Ok true
  <-> country_match conference (default [] (Filters.countries user_filters))
      = Ok true
      /\ direction_match conference
           (default [] (Filters.directions user_filters)) = Ok true.
Proof.
  unfold _matches_filters.
  destruct (elem ALL_COUNTRIES _ && elem ALL_DIRECTIONS _) eqn:Hboth.
  - apply andb_true_iff in Hboth as [H1 H2].
    unfold country_match, direction_match. by rewrite H1, H2.
  - destruct (country_match _ _) as [[|]|e]; cbn;
      destruct (direction_match _ _) as [[|]|e']; cbn;
      split; try done; by intros [? ?].
Qed.

(** A longer selection keeps every match: a conference that matches
    still matches after countries, or directions, have been added at
    the end of the selection. *)
Theorem longer_selection_keeps_match conference user_filters
    (more_countries more_directions : list str) :
  _matches_filters conference user_filters = Ok true ->
  _matches_filters conference
    (Filters.mk
       (Some (default [] (Filters.countries user_filters) ++ more_countries))
       (Some (default [] (Filters.directions user_filters) ++ more_directions))
       (Filters.topics user_filters)
       (Filters.notify_early_bird user_filters))
  = Ok true.
Proof.
  rewrite !matches_filters_true. cbn [Filters.countries Filters.directions].
  intros [Hc Hd]. split.
  - by apply country_match_app.
  - by apply direction_match_app.
Qed.

(** With no country selected, no conference matches; with no direction
    selected either, the matcher returns [False] whatever the
    conference holds. *)
Theorem empty_selection_matches_nothing conference user_filters :
  default [] (Filters.countries user_filters) = [] ->
  _matches_filters conference user_filters <> Ok true
  /\ (default [] (Filters.directions user_filters) = [] ->
      _matches_filters conference user_filters = Ok false).
Proof.
  intros Hc. split.
  - rewrite matches_filters_true, Hc. by intros [? _].
  - intros Hd. unfold _matches_filters. by rewrite Hc, Hd.
Qed.

(** The matcher does not see the case of the conference: a conference
    whose country and directions are those of another in lower case
    gets the same outcome. *)
Theorem matches_filters_case_blind conference lowered user_filters :
  Conference.country lowered
  = option_map lower (Conference.country conference) ->
  Conference.directions lowered
  = option_map (map lower) (Conference.directions conference) ->
  _matches_filters lowered user_filters
  = _matches_filters conference user_filters.
Proof.
  intros Hc Hd.
  assert (Hct : forall c, country_test lowered c = country_test conference c).
  { intros c. unfold country_test. rewrite Hc.
    destruct (index_last (split c)) as [w|e]; [|done]. cbn.
    destruct (Conference.country conference) as [country|]; [|done].
    cbn. by rewrite lower_twice. }
  assert (Hdt : forall d, direction_test lowered d = direction_test conference d).
  { intros d. unfold direction_test. rewrite Hd.
    destruct (index (split d) 1) as [w|e]; [|done]. cbn.
    destruct (Conference.directions conference) as [dirs|]; [|done].
    cbn. do 2 f_equal. rewrite map_map.
    apply map_ext. intros t. apply lower_twice. }
  unfold _matches_filters, country_match, direction_match.
  by rewrite (any_ext _ _ _ Hct), (any_ext _ _ _ Hdt).
Qed.

End MatcherLaws.

(** ** More on the listings *)

Section ListingLaws.
Import FilterBot Terms Vocabulary.

Lemma List_filter_sublist {A} (p : A -> bool) (l : list A) :
  List.filter p l `sublist_of` l.
Proof.
  induction l as [|x l IH]; [done|]. cbn [List.filter].
  destruct (p x); [by apply sublist_skip|by apply sublist_cons].
Qed.

Lemma List_filter_none {A} (p : A -> bool) (l : list A) :
  (forall x, p x = false) -> List.filter p l = [].
Proof.
  intros Hp. induction l as [|x l IH]; [done|].
  cbn [List.filter]. by rewrite Hp.
Qed.

Lemma List_filter_ext {A} (p q : A -> bool) (l : list A) :
  (forall x, p x = q x) -> List.filter p l = List.filter q l.
Proof.
  intros Hpq. induction l as [|x l IH]; [done|].
  cbn [List.filter]. by rewrite Hpq, IH.
Qed.

Lemma list_command_known (self : bot) (uid : Z) (user : User.t) :
  users self !! pretty uid = Some user ->
  (list_command self uid).2
  = (matching ← select (fun conf => _matches_filters conf (User.filters user))
                  (snd <$> conferences self);
     match matching with
     | [] => mret NothingFound
     | _ =>
         matching ← sort_key (fun x => getitem "date" (Conference.date x))
                             matching;
         _ ← mapM list_entry (take 10 matching);
         mret (Listing (length matching) (take 10 matching))
     end).
Proof.
  intros Hu. unfold list_command, init_user. cbn [snd]. by rewrite Hu, Hu.
Qed.

(** A user without any country and any direction selected is shown
    nothing, by [/list] and by [/upcoming], whatever the store holds:
    neither command fails, even on conferences that lack their keys. *)
Theorem empty_selection_lists_nothing (strptime : str -> option Z) (now : Z)
    (self : bot) (uid : Z) (user : User.t) :
  users self !! pretty uid = Some user ->
  default [] (Filters.countries (User.filters user)) = [] ->
  default [] (Filters.directions (User.filters user)) = [] ->
  (list_command self uid).2 = Ok NothingFound
  /\ upcoming_command strptime now self uid = Ok NothingFound.
Proof.
  intros Hu Hc Hd.
  assert (Hm : forall conf, _matches_filters conf (User.filters user) = Ok false).
  { intros conf. unfold _matches_filters. by rewrite Hc, Hd. }
  split.
  - rewrite (list_command_known _ _ _ Hu).
    rewrite (select_filter _ (fun _ => false)).
    + by rewrite List_filter_none.
    + apply Forall_forall. intros conf _. apply Hm.
  - unfold upcoming_command. rewrite Hu. rewrite List_filter_none; [done|].
    intros conf. unfold is_upcoming, upcoming_try.
    destruct (Conference.date conf) as [date|]; [|done]. cbn.
    destruct (strptime date); [|done].
    destruct (bool_decide _); [|done]. by rewrite Hm.
Qed.

(** [/list] counts all the matching conferences and shows ten of them
    at most; conferences that have the same date are shown in the order
    of the store. *)
Theorem list_command_counts (self : bot) (uid : Z) :
  wordy (filters_of self uid) ->
  Forall renderable (snd <$> conferences self) ->
  Forall (fun conf => is_Some (Conference.date conf)) (matching_of self uid) ->
  matching_of self uid <> [] ->
  exists sorted,
    (list_command self uid).2
    = Ok (Listing (length (matching_of self uid)) (take 10 sorted))
    /\ length (take 10 sorted) = (10 `min` length (matching_of self uid))%nat
    /\ forall date,
         List.filter (fun conf => bool_decide (date_key conf = date)) sorted
         = List.filter (fun conf => bool_decide (date_key conf = date))
             (matching_of self uid).
Proof.
  intros Hw Hr Hd Hne. exists (sorted_by date_key (matching_of self uid)).
  assert (Hlen : length (sorted_by date_key (matching_of self uid))
                 = length (matching_of self uid))
    by (by rewrite sorted_by_perm).
  split_and!.
  - rewrite list_command_dated by done. rewrite Hlen.
    by destruct (matching_of self uid).
  - by rewrite length_take, Hlen.
  - intros date. apply sorted_by_stable.
Qed.

(** [/upcoming] of the filtering bot does not sort: the conferences it
    shows are in the order of the store. *)
Theorem upcoming_command_store_order (strptime : str -> option Z) (now : Z)
    (self : bot) (uid : Z) (shown : list Conference.t) :
  upcoming_command strptime now self uid = Ok (Upcoming shown) ->
  shown `sublist_of` (snd <$> conferences self).
Proof.
  unfold upcoming_command.
  set (upcoming := List.filter _ _).
  assert (Hsub : take 10 upcoming `sublist_of` (snd <$> conferences self)).
  { etrans; [apply sublist_take|apply List_filter_sublist]. }
  destruct upcoming as [|conf l] eqn:Heq; [done|]. rewrite <- Heq in *.
  destruct (mapM _ _); [|done]. cbn. by intros [= <-].
Qed.

Lemma matches_default_filters (conf : Conference.t) :
  _matches_filters conf default_filters = Ok true.
Proof.
  unfold _matches_filters, default_filters.
  cbn [Filters.countries Filters.directions from_option id].
  rewrite (proj2 (elem_true ALL_COUNTRIES [ALL_COUNTRIES])) by (by left).
  rewrite (proj2 (elem_true ALL_DIRECTIONS [ALL_DIRECTIONS])) by (by left).
  done.
Qed.

(** For a user the bot does not know, [/upcoming] looks at the dates
    only: it shows the first ten stored conferences whose date is read
    and lies within ninety days. *)
Theorem upcoming_command_unknown_user (strptime : str -> option Z) (now : Z)
    (self : bot) (uid : Z) :
  users self !! pretty uid = None ->
  Forall renderable (snd <$> conferences self) ->
  upcoming_command strptime now self uid
  = Ok (match take 10 (List.filter (dated_within strptime now)
                         (snd <$> conferences self)) with
        | [] => NothingFound
        | shown => Upcoming shown
        end).
Proof.
  intros Hu Hr. unfold upcoming_command. rewrite Hu.
  rewrite (List_filter_ext _ (dated_within strptime now)).
  2:{ intros conf. unfold is_upcoming, upcoming_try, dated_within.
      destruct (Conference.date conf) as [date|]; [|done]. cbn.
      destruct (strptime date); [|done].
      destruct (bool_decide _); [|done]. by rewrite matches_default_filters. }
  set (upcoming := List.filter _ _).
  assert (Hup : Forall (fun conf => renderable conf
                                    /\ is_Some (Conference.date conf))
                  upcoming).
  { apply Forall_forall. intros conf Hin.
    apply list_elem_of_In, filter_In in Hin as [Hin Hd].
    rewrite Forall_forall in Hr. split; [by apply Hr, list_elem_of_In|].
    unfold dated_within in Hd. by destruct (Conference.date conf). }
  destruct upcoming as [|conf l] eqn:Heq; [done|]. rewrite <- Heq in *.
  rewrite (mapM_Ok _ (fun _ => ())).
  - cbn. rewrite Heq. done.
  - apply Forall_take. eapply Forall_impl; [exact Hup|].
    intros c [? ?]. by apply upcoming_entry_ok.
Qed.

(** [/upcoming] of the notification bot shows every stored conference
    when there are ten or fewer, and ten of them otherwise; it shows
    stored conferences only. *)
Theorem upcoming_conferences_count (conferences : list (string * Conference.t))
    (shown : list (string * Conference.t)) :
  NotifyBot.upcoming_conferences conferences = NotifyBot.Upcoming shown ->
  length shown = (10 `min` length conferences)%nat
  /\ shown ⊆ conferences.
Proof.
  unfold NotifyBot.upcoming_conferences.
  destruct conferences as [|c l] eqn:Heq; [done|]. rewrite <- Heq.
  intros [= <-]. split.
  - by rewrite length_take, sorted_by_perm.
  - intros x Hx. apply elem_of_take in Hx as (i & Hx & _).
    apply list_elem_of_lookup_2 in Hx. by rewrite sorted_by_perm in Hx.
Qed.

End ListingLaws.

(** ** Subscriptions *)

Section Subscriptions.
Import FilterBot.

(** [/subscribe] of the filtering bot sets the flag and nothing else: a
    known user keeps the filters, a new one gets the defaults, and no
    other user is touched.  Subscribing twice is subscribing once. *)
Theorem subscribe_command_effect (self : bot) (uid : Z) (other : string) :
  other <> pretty uid ->
  users (subscribe_command self uid) !! pretty uid
  = Some (User.with_subscribed true
            (default new_user (users self !! pretty uid)))
  /\ users (subscribe_command self uid) !! other = users self !! other
  /\ conferences (subscribe_command self uid) = conferences self
  /\ subscribe_command (subscribe_command self uid) uid
     = subscribe_command self uid.
Proof.
  intros Hne. unfold subscribe_command. cbn [users conferences].
  split_and!.
  - rewrite lookup_alter_eq. unfold init_user.
    destruct (users self !! pretty uid) as [u|] eqn:Hu.
    + by rewrite Hu.
    + by rewrite lookup_insert_eq.
  - rewrite lookup_alter_ne by done. unfold init_user.
    destruct (users self !! pretty uid); [done|].
    by rewrite lookup_insert_ne.
  - done.
  - f_equal. rewrite init_user_known.
    + rewrite alter_alter_eq. apply alter_ext. by intros [? ? ?] _.
    + rewrite lookup_alter_eq. unfold init_user.
      destruct (users self !! pretty uid) as [u|] eqn:Hu;
        [rewrite Hu|rewrite lookup_insert_eq]; by eexists.
Qed.

(** [/unsubscribe] of the filtering bot never creates a user: for an
    unknown user the bot is left as it is; for a known one the flag is
    cleared, the filters stay, and no other user is touched. *)
Theorem unsubscribe_command_effect (self : bot) (uid : Z) (other : string) :
  other <> pretty uid ->
  users (unsubscribe_command self uid) !! pretty uid
  = User.with_subscribed false <$> users self !! pretty uid
  /\ users (unsubscribe_command self uid) !! other = users self !! other
  /\ conferences (unsubscribe_command self uid) = conferences self.
Proof.
  intros Hne. unfold unsubscribe_command.
  destruct (users self !! pretty uid) as [u|] eqn:Hu; cbn [users conferences].
  - split_and!; [|by rewrite lookup_alter_ne|done].
    by rewrite lookup_alter_eq, Hu.
  - by rewrite Hu.
Qed.

(** Subscribing and then unsubscribing leaves the filters as they were:
    those of the user, or the defaults for a user who was not known. *)
Theorem subscribe_then_unsubscribe (self : bot) (uid : Z) :
  users (unsubscribe_command (subscribe_command self uid) uid) !! pretty uid
  = Some (User.with_subscribed false
            (default new_user (users self !! pretty uid))).
Proof.
  unfold unsubscribe_command, subscribe_command. cbn [users conferences].
  rewrite lookup_alter_eq. unfold init_user.
  destruct (users self !! pretty uid) as [u|] eqn:Hu.
  - rewrite Hu. cbn. by rewrite lookup_alter_eq, lookup_alter_eq, Hu.
  - rewrite lookup_insert_eq. cbn.
    by rewrite lookup_alter_eq, lookup_alter_eq, lookup_insert_eq.
Qed.

(** [/myfilters] prints the stored selections, with "all" for a
    selection that is not stored, and registers an unknown user with
    the defaults. *)
Theorem myfilters_command_shows (self : bot) (uid : Z) :
  (myfilters_command self uid).2
  = Ok (mk_filters_shown
          (default [ALL_COUNTRIES]
             (Filters.countries (Terms.filters_of self uid)))
          (default [ALL_DIRECTIONS]
             (Filters.directions (Terms.filters_of self uid)))
          (from_option User.subscribed false (users self !! pretty uid)))
  /\ users (myfilters_command self uid).1 !! pretty uid
     = Some (default new_user (users self !! pretty uid)).
Proof.
  unfold myfilters_command, Terms.filters_of, init_user. cbn [fst snd users].
  destruct (users self !! pretty uid) as [u|] eqn:Hu.
  - by rewrite Hu.
  - by rewrite lookup_insert_eq.
Qed.

End Subscriptions.

Section NotifySubscriptions.
Import NotifyBot.

(** [/subscribe] of the notification bot, for a known user, sets the
    flag and keeps the filters and the date of the first subscription;
    no other user is touched. *)
Theorem subscribe_known_user (users : gmap string User.t) (now : str)
    (uid : Z) (user : User.t) (other : string) :
  users !! pretty uid = Some user ->
  other <> pretty uid ->
  subscribe users now uid !! pretty uid
  = Some (User.mk true (User.filters user) (User.subscribed_date user))
  /\ subscribe users now uid !! other = users !! other.
Proof.
  intros Hu Hne. unfold subscribe. rewrite Hu. split.
  - by rewrite lookup_alter_eq, Hu.
  - by rewrite lookup_alter_ne.
Qed.

Lemma subscribed_users_elem (users : gmap string User.t) (user_id : string) :
  user_id ∈ subscribed_users users
  <-> exists user, users !! user_id = Some user /\ User.subscribed user = true.
Proof.
  unfold subscribed_users. rewrite list_elem_of_fmap. split.
  - intros ([id u] & -> & Hin).
    apply list_elem_of_In, filter_In in Hin as [Hin Hs].
    apply list_elem_of_In, elem_of_map_to_list in Hin. by exists u.
  - intros (u & Hu & Hs). exists (user_id, u). split; [done|].
    apply list_elem_of_In, filter_In. split; [|done].
    by apply list_elem_of_In, elem_of_map_to_list.
Qed.

(** The users the periodic job would notify are those who subscribed
    and did not unsubscribe since: a user is among them after
    [/subscribe] and no longer after [/unsubscribe], and neither command
    moves another user in or out. *)
Theorem subscribed_users_follow (users : gmap string User.t) (now : str)
    (uid : Z) (other : string) :
  other <> pretty uid ->
  pretty uid ∈ subscribed_users (subscribe users now uid)
  /\ (pretty uid ∉ subscribed_users (unsubscribe users uid).1)
  /\ (other ∈ subscribed_users (subscribe users now uid)
      <-> other ∈ subscribed_users users)
  /\ (other ∈ subscribed_users (unsubscribe users uid).1
      <-> other ∈ subscribed_users users).
Proof.
  intros Hne. rewrite !subscribed_users_elem. unfold subscribe, unsubscribe.
  destruct (users !! pretty uid) as [u|] eqn:Hu; cbn [fst]; split_and!.
  - eexists. by rewrite lookup_alter_eq, Hu.
  - intros (u' & Hu' & Hs). rewrite lookup_alter_eq, Hu in Hu'.
    injection Hu' as <-. done.
  - by rewrite lookup_alter_ne.
  - by rewrite lookup_alter_ne.
  - eexists. by rewrite lookup_insert_eq.
  - intros (u' & Hu' & _). congruence.
  - by rewrite lookup_insert_ne.
  - done.
Qed.

End NotifySubscriptions.

(** ** The conversation of [/filters] *)

Section Decoding.

Lemma startswith_app (p s : str) : startswith p (p ++ s) = true.
Proof.
  induction p as [|a p IH]; [done|]. cbn. by rewrite N.eqb_refl, IH.
Qed.

Lemma replace_from_skip (old new pre s : str) :
  replace_from (length pre) old new (pre ++ s) = replace_from 0 old new s.
Proof. induction pre as [|c pre IH]; [done|]. exact IH. Qed.

Lemma replace_absent (old s : str) :
  str_in old s = false -> replace_from 0 old [] s = s.
Proof.
  induction s as [|c s IH]; [done|]. cbn [str_in replace_from].
  intros [H1 H2]%orb_false_iff. rewrite H1, IH; done.
Qed.

(** Taking a prefix off again: [(old + label).replace(old, "")] is
    [label], when [old] does not occur in [label]. *)
Lemma replace_prefix (old label : str) :
  old <> [] -> str_in old label = false ->
  replace old [] (old ++ label) = label.
Proof.
  intros Hold Hin. unfold replace. destruct old as [|a old]; [done|].
  cbn [app replace_from].
  change (a :: old ++ label) with ((a :: old) ++ label).
  rewrite startswith_app. cbn [app].
  replace (length (a :: old) - 1)%nat with (length old) by (cbn; lia).
  rewrite replace_from_skip. by apply replace_absent.
Qed.

End Decoding.

Section Toggles.
Import FilterBot Vocabulary.

Lemma remove_first_NoDup (x : str) (l : list str) :
  NoDup l -> NoDup (remove_first x l).
Proof.
  induction 1 as [|y l Hy Hl IH]; [constructor|]. cbn.
  destruct (decide (x = y)); [done|]. constructor; [|done].
  intros H. by apply remove_first_subseteq in H.
Qed.

Ltac toggle_tidy ALL :=
  let Hnd := fresh "Hnd" in
  let Hx := fresh "Hx" in
  let Hne := fresh "Hne" in
  intros [Hnd Hx];
  destruct (decide (_ = ALL)) as [|Hne];
    [split; [apply NoDup_singleton|by left]|];
  destruct Hx as [->|Hx];
    [ rewrite (proj2 (elem_true ALL [ALL])) by (by left);
      cbn [remove_first]; rewrite decide_True by done;
      match goal with
      | |- context [elem ?x []] =>
          rewrite (proj2 (elem_false x [])) by apply not_elem_of_nil
      end;
      split; [apply NoDup_singleton|];
      right; intros ?%list_elem_of_singleton; congruence
    | match goal with
      | |- context [elem ALL ?sel] =>
          rewrite (proj2 (elem_false ALL sel) Hx)
      end;
      match goal with
      | |- context [elem ?x ?sel] => destruct (elem x sel) eqn:?
      end;
      [ split; [by apply remove_first_NoDup|];
        right; intros ?%remove_first_subseteq; done
      | split;
        [ apply NoDup_app; split_and!;
          [ done
          | intros ? ? ?%list_elem_of_singleton; subst;
            match goal with
            | H : elem _ _ = false |- _ => by apply elem_false in H
            end
          | apply NoDup_singleton ]
        | right; intros [?|?%list_elem_of_singleton]%elem_of_app;
          [done|congruence] ] ] ].

(** A toggle keeps the selection tidy. *)
Lemma select_country_tidy (selected : list str) (country : str) :
  tidy ALL_COUNTRIES selected ->
  tidy ALL_COUNTRIES (select_country selected country).
Proof. unfold tidy, select_country. toggle_tidy ALL_COUNTRIES. Qed.

Lemma select_direction_tidy (selected : list str) (direction : str) :
  tidy ALL_DIRECTIONS selected ->
  tidy ALL_DIRECTIONS (select_direction selected direction).
Proof. unfold tidy, select_direction. toggle_tidy ALL_DIRECTIONS. Qed.

(** A toggle adds no label but the one of the button. *)
Lemma select_country_elem (selected : list str) (country x : str) :
  x ∈ select_country selected country -> x = country \/ x ∈ selected.
Proof.
  unfold select_country.
  destruct (decide (country = ALL_COUNTRIES)) as [->|];
    [intros ?%list_elem_of_singleton; by left|].
  destruct (elem ALL_COUNTRIES selected);
    destruct (elem country _); intros H.
  - do 2 apply remove_first_subseteq in H. by right.
  - apply elem_of_app in H as [H|H%list_elem_of_singleton]; [|by left].
    apply remove_first_subseteq in H. by right.
  - apply remove_first_subseteq in H. by right.
  - apply elem_of_app in H as [H|H%list_elem_of_singleton]; [by right|].
    by left.
Qed.

Lemma select_direction_elem (selected : list str) (direction x : str) :
  x ∈ select_direction selected direction -> x = direction \/ x ∈ selected.
Proof.
  unfold select_direction.
  destruct (decide (direction = ALL_DIRECTIONS)) as [->|];
    [intros ?%list_elem_of_singleton; by left|].
  destruct (elem ALL_DIRECTIONS selected);
    destruct (elem direction _); intros H.
  - do 2 apply remove_first_subseteq in H. by right.
  - apply elem_of_app in H as [H|H%list_elem_of_singleton]; [|by left].
    apply remove_first_subseteq in H. by right.
  - apply remove_first_subseteq in H. by right.
  - apply elem_of_app in H as [H|H%list_elem_of_singleton]; [by right|].
    by left.
Qed.

(** Pressing a button a second time undoes the first: a label that was
    not selected is selected, then not selected again, and the
    selection is what it was. *)
Theorem select_country_twice (selected : list str) (country : str) :
  country <> ALL_COUNTRIES ->
  ALL_COUNTRIES ∉ selected ->
  country ∉ selected ->
  select_country (select_country selected country) country = selected.
Proof.
  intros Hne Hall Hc.
  assert (Hstep : select_country selected country = selected ++ [country]).
  { unfold select_country. rewrite decide_False by done.
    rewrite (proj2 (elem_false ALL_COUNTRIES selected) Hall).
    by rewrite (proj2 (elem_false country selected) Hc). }
  rewrite Hstep. unfold select_country. rewrite decide_False by done.
  rewrite (proj2 (elem_false ALL_COUNTRIES (selected ++ [country]))).
  2:{ intros [?|?%list_elem_of_singleton]%elem_of_app; [done|congruence]. }
  rewrite (proj2 (elem_true country (selected ++ [country]))).
  2:{ apply elem_of_app. right. by left. }
  clear Hstep Hall. induction selected as [|y l IH]; cbn.
  - by rewrite decide_True.
  - apply not_elem_of_cons in Hc as [Hy Hc].
    rewrite decide_False by done. f_equal. by apply IH.
Qed.

End Toggles.

Section ConversationLaws.
Import FilterBot Conversation Terms Vocabulary.

Lemma tidy_nil (ALL : str) : tidy ALL [].
Proof. split; [constructor|right; apply not_elem_of_nil]. Qed.

Lemma tidy_all (ALL : str) : tidy ALL [ALL].
Proof. split; [apply NoDup_singleton|by left]. Qed.

Lemma saved_lookup (self : bot) (uid : Z) (countries directions : list str) :
  exists user,
    alter (set_filters countries directions) (pretty uid)
      (match users self !! pretty uid with
       | Some _ => users self
       | None => <[pretty uid := User.mk false Filters.empty None]> (users self)
       end) !! pretty uid = Some user
    /\ User.filters user
       = Filters.mk (Some countries) (Some directions) None None
    /\ User.subscribed user
       = from_option User.subscribed false (users self !! pretty uid)
    /\ User.subscribed_date user
       = users self !! pretty uid ≫= User.subscribed_date.
Proof.
  rewrite lookup_alter_eq.
  destruct (users self !! pretty uid) as [u|] eqn:Hu.
  - rewrite Hu. by eexists.
  - rewrite lookup_insert_eq. by eexists.
Qed.

(** A step of the conversation keeps its invariant. *)
Lemma on_callback_in_progress (uid : Z) (now : bot * UserData.t * state)
    (data : str) :
  in_progress uid now -> in_progress uid (on_callback now uid data).
Proof.
  destruct now as [[self ud] [| |]]; cbn [on_callback in_progress]; [| |done].
  - intros (cs & Hcs & Ht). unfold select_country. rewrite Hcs.
    cbn [from_option id].
    destruct (decide (data = lit "country_done")).
    + destruct cs as [|c cs]; cbn [truthy UserData.selected_countries].
      * exists [ALL_COUNTRIES], []. split_and!; try done;
          [apply tidy_all|apply tidy_nil].
      * exists (c :: cs), []. rewrite Hcs. split_and!; try done.
        apply tidy_nil.
    + eexists. split; [done|]. by apply select_country_tidy.
  - intros (cs & ds & Hcs & Hds & Hne & Htc & Htd).
    unfold select_direction. rewrite Hds. cbn [from_option id].
    destruct (decide (data = lit "direction_done")).
    + cbn [in_progress]. unfold settled.
      destruct ds as [|d ds]; cbn [truthy UserData.selected_countries
                                    UserData.selected_directions];
        rewrite Hcs; cbn [from_option id].
      * destruct (saved_lookup self uid cs [ALL_DIRECTIONS])
          as (user & Hu & Hf & _).
        exists user, cs, [ALL_DIRECTIONS]. cbn [users].
        split_and!; try done. apply tidy_all.
      * destruct (saved_lookup self uid cs (d :: ds)) as (user & Hu & Hf & _).
        exists user, cs, (d :: ds). cbn [users]. split_and!; done.
    + cbn [in_progress UserData.selected_countries
             UserData.selected_directions].
      eexists cs, _. split_and!; try done. by apply select_direction_tidy.
Qed.

Lemma converse_in_progress (uid : Z) (clicks : list str) :
  forall now,
    in_progress uid now ->
    in_progress uid
      (foldl (fun now data => on_callback now uid data) now clicks).
Proof.
  induction clicks as [|data clicks IH]; intros now Hnow; [done|].
  cbn [foldl]. apply IH. by apply on_callback_in_progress.
Qed.

Lemma converse_unfold (self : bot) (uid : Z) (user_data : UserData.t)
    (clicks : list str) :
  converse self uid user_data clicks
  = foldl (fun now data => on_callback now uid data)
      (self,
       UserData.mk (Some []) (UserData.selected_directions user_data),
       SELECTING_COUNTRY)
      clicks.
Proof. reflexivity. Qed.

Lemma converse_settled (self : bot) (uid : Z) (user_data : UserData.t)
    (clicks : list str) (self' : bot) (user_data' : UserData.t) :
  converse self uid user_data clicks = (self', user_data', END) ->
  settled self' uid user_data'.
Proof.
  rewrite converse_unfold. intros Hrun.
  pose proof (converse_in_progress uid clicks
                (self, UserData.mk (Some [])
                         (UserData.selected_directions user_data),
                 SELECTING_COUNTRY)) as H.
  rewrite Hrun in H. apply H. exists []. split; [done|apply tidy_nil].
Qed.

(** Whatever callback queries arrive, a conversation that ends has
    stored selections that are not empty, name no label twice, and hold
    the "all" sentinel on its own or not at all. *)
Theorem conversation_stores_tidy (self : bot) (uid : Z)
    (user_data : UserData.t) (clicks : list str) (self' : bot)
    (user_data' : UserData.t) :
  converse self uid user_data clicks = (self', user_data', END) ->
  exists countries directions,
    filters_of self' uid
    = Filters.mk (Some countries) (Some directions) None None
    /\ countries <> [] /\ directions <> []
    /\ NoDup countries /\ NoDup directions
    /\ (countries = [ALL_COUNTRIES] \/ ALL_COUNTRIES ∉ countries)
    /\ (directions = [ALL_DIRECTIONS] \/ ALL_DIRECTIONS ∉ directions).
Proof.
  intros Hrun.
  destruct (converse_settled _ _ _ _ _ _ Hrun)
    as (user & cs & ds & Hu & Hf & _ & _ & ? & ? & [? ?] & [? ?]).
  exists cs, ds. unfold filters_of. rewrite Hu. by split_and!.
Qed.

(** What a conversation stores is what the user had selected when it
    ended, and [/myfilters] then prints these very selections. *)
Theorem conversation_round_trip (self : bot) (uid : Z)
    (user_data : UserData.t) (clicks : list str) (self' : bot)
    (user_data' : UserData.t) :
  converse self uid user_data clicks = (self', user_data', END) ->
  exists shown,
    (myfilters_command self' uid).2 = Ok shown
    /\ Some (shown_countries shown) = UserData.selected_countries user_data'
    /\ Some (shown_directions shown) = UserData.selected_directions user_data'
    /\ users (myfilters_command self' uid).1 = users self'.
Proof.
  intros Hrun.
  destruct (converse_settled _ _ _ _ _ _ Hrun)
    as (user & cs & ds & Hu & Hf & Hc & Hd & _).
  destruct (myfilters_command_shows self' uid) as [Hs _].
  eexists. split; [exact Hs|].
  unfold filters_of. rewrite Hu, Hf, Hc, Hd.
  cbn [shown_countries shown_directions Filters.countries
         Filters.directions from_option id].
  split_and!; [done..|].
  unfold myfilters_command. cbn [fst users].
  apply init_user_known. by eexists.
Qed.

End ConversationLaws.

Section Buttons.
Import FilterBot Conversation Terms Vocabulary.

Lemma country_labels :
  Forall (fun label => str_in (lit "country_") label = false
                       /\ label <> lit "done")
    COUNTRIES.
Proof. repeat constructor; by vm_compute. Qed.

Lemma direction_labels :
  Forall (fun label => str_in (lit "direction_") label = false
                       /\ label <> lit "done")
    DIRECTIONS.
Proof. repeat constructor; by vm_compute. Qed.

(** The callback data of a label's button is read back as the label:
    pressing the button toggles that label and nothing else, in the
    country step and in the direction step. *)
Theorem button_toggles_its_label (self : bot) (uid : Z)
    (user_data : UserData.t) (label : str) :
  label <> lit "done" ->
  str_in (lit "country_") label = false ->
  str_in (lit "direction_") label = false ->
  Conversation.select_country user_data (lit "country_" ++ label)
  = (UserData.mk
       (Some (FilterBot.select_country
                (default [] (UserData.selected_countries user_data)) label))
       (UserData.selected_directions user_data),
     SELECTING_COUNTRY)
  /\ Conversation.select_direction self uid user_data
       (lit "direction_" ++ label)
     = (self,
        UserData.mk (UserData.selected_countries user_data)
          (Some (FilterBot.select_direction
                   (default [] (UserData.selected_directions user_data))
                   label)),
        SELECTING_DIRECTION).
Proof.
  intros Hdone Hc Hd. split.
  - unfold Conversation.select_country. rewrite decide_False.
    + by rewrite replace_prefix.
    + change (lit "country_done") with (lit "country_" ++ lit "done").
      by intros ?%app_inv_head.
  - unfold Conversation.select_direction. rewrite decide_False.
    + by rewrite replace_prefix.
    + change (lit "direction_done") with (lit "direction_" ++ lit "done").
      by intros ?%app_inv_head.
Qed.

Lemma country_data_cases (data : str) :
  data ∈ country_data ->
  data = lit "country_done"
  \/ exists label, label ∈ COUNTRIES /\ data = lit "country_" ++ label
                   /\ label <> lit "done"
                   /\ str_in (lit "country_") label = false.
Proof.
  unfold country_data. intros [->|H]%elem_of_cons; [by left|]. right.
  apply list_elem_of_fmap in H as (label & -> & Hl). exists label.
  pose proof country_labels as HL. rewrite Forall_forall in HL.
  destruct (HL label Hl). done.
Qed.

Lemma direction_data_cases (data : str) :
  data ∈ direction_data ->
  data = lit "direction_done"
  \/ exists label, label ∈ DIRECTIONS /\ data = lit "direction_" ++ label
                   /\ label <> lit "done"
                   /\ str_in (lit "direction_") label = false.
Proof.
  unfold direction_data. intros [->|H]%elem_of_cons; [by left|]. right.
  apply list_elem_of_fmap in H as (label & -> & Hl). exists label.
  pose proof direction_labels as HL. rewrite Forall_forall in HL.
  destruct (HL label Hl). done.
Qed.

Lemma all_countries_in_menu : ALL_COUNTRIES ∈ COUNTRIES.
Proof. apply list_elem_of_In. vm_compute. tauto. Qed.

Lemma all_directions_in_menu : ALL_DIRECTIONS ∈ DIRECTIONS.
Proof. apply list_elem_of_In. vm_compute. tauto. Qed.

Lemma on_callback_from_menus (uid : Z) (self : bot) (ud : UserData.t)
    (st : state) (data : str) (rest : list str) :
  from_menus uid (self, ud, st) ->
  pressed st (data :: rest) ->
  from_menus uid (on_callback (self, ud, st) uid data)
  /\ pressed (on_callback (self, ud, st) uid data).2 rest.
Proof.
  destruct st; cbn [on_callback from_menus pressed];
    [| |intros H _; split; [exact H|by destruct rest]].
  - intros Hsel [Hdata Hrest].
    destruct (country_data_cases data Hdata)
      as [->|(label & Hl & -> & Hdone & Hin)].
    + rewrite decide_True in Hrest by done.
      unfold Conversation.select_country. rewrite decide_True by done.
      split; [|done]. cbn [from_menus].
      cbn [UserData.selected_countries UserData.selected_directions
             from_option id].
      split; [|apply list_subseteq_nil].
      destruct (UserData.selected_countries ud) as [[|c cs]|] eqn:Hsc;
        cbn [from_option id truthy UserData.selected_countries].
      * intros x ->%list_elem_of_singleton. apply all_countries_in_menu.
      * by rewrite Hsc.
      * intros x ->%list_elem_of_singleton. apply all_countries_in_menu.
    + assert (Hne : lit "country_" ++ label <> lit "country_done").
      { change (lit "country_done") with (lit "country_" ++ lit "done").
        by intros ?%app_inv_head. }
      rewrite decide_False in Hrest by done.
      unfold Conversation.select_country. rewrite decide_False by done.
      rewrite replace_prefix by done. split; [|done].
      cbn [from_menus UserData.selected_countries from_option id].
      intros x [->|Hx]%select_country_elem; [done|by apply Hsel].
  - intros [Hc Hd] [Hdata Hrest].
    destruct (direction_data_cases data Hdata)
      as [->|(label & Hl & -> & Hdone & Hin)].
    + rewrite decide_True in Hrest by done.
      unfold Conversation.select_direction. rewrite decide_True by done.
      assert (Hall : [ALL_DIRECTIONS] ⊆ DIRECTIONS).
      { intros x ->%list_elem_of_singleton. apply all_directions_in_menu. }
      destruct (UserData.selected_directions ud) as [[|d ds]|] eqn:Hsd;
        cbn [from_option id truthy UserData.selected_countries snd] in *;
        (split; [|by destruct rest]); cbn [from_menus]; intros user.
      * destruct (saved_lookup self uid
                    (default [ALL_COUNTRIES] (UserData.selected_countries ud))
                    [ALL_DIRECTIONS]) as (u & Hu & Hf & _).
        cbn [users]. rewrite Hu. intros [= <-]. by rewrite Hf.
      * destruct (saved_lookup self uid
                    (default [ALL_COUNTRIES] (UserData.selected_countries ud))
                    (d :: ds)) as (u & Hu & Hf & _).
        cbn [users]. rewrite Hu. intros [= <-]. by rewrite Hf.
      * destruct (saved_lookup self uid
                    (default [ALL_COUNTRIES] (UserData.selected_countries ud))
                    [ALL_DIRECTIONS]) as (u & Hu & Hf & _).
        cbn [users]. rewrite Hu. intros [= <-]. by rewrite Hf.
    + assert (Hne : lit "direction_" ++ label <> lit "direction_done").
      { change (lit "direction_done") with (lit "direction_" ++ lit "done").
        by intros ?%app_inv_head. }
      rewrite decide_False in Hrest by done.
      unfold Conversation.select_direction. rewrite decide_False by done.
      rewrite replace_prefix by done. split; [|done].
      cbn [from_menus UserData.selected_countries
             UserData.selected_directions from_option id].
      split; [done|].
      intros x [->|Hx]%select_direction_elem; [done|by apply Hd].
Qed.

Lemma converse_from_menus (uid : Z) (clicks : list str) :
  forall self ud st,
    from_menus uid (self, ud, st) ->
    pressed st clicks ->
    from_menus uid
      (foldl (fun now data => on_callback now uid data) (self, ud, st) clicks).
Proof.
  induction clicks as [|data clicks IH]; intros self ud st Hnow Hp; [done|].
  cbn [foldl].
  destruct (on_callback_from_menus uid self ud st data clicks Hnow Hp)
    as [Hnext Hrest].
  destruct (on_callback (self, ud, st) uid data) as [[self1 ud1] st1].
  by apply IH.
Qed.

(** Selections made with the buttons of the keyboards hold labels of
    the two menus only; every stored token then has the words the
    matcher indexes, so that it cannot raise [IndexError]. *)
Theorem keyboard_selections_are_wordy (self : bot) (uid : Z)
    (user_data : UserData.t) (clicks : list str) (self' : bot)
    (user_data' : UserData.t) :
  pressed SELECTING_COUNTRY clicks ->
  converse self uid user_data clicks = (self', user_data', END) ->
  default [] (Filters.countries (filters_of self' uid)) ⊆ COUNTRIES
  /\ default [] (Filters.directions (filters_of self' uid)) ⊆ DIRECTIONS
  /\ wordy (filters_of self' uid).
Proof.
  intros Hp Hrun.
  destruct (converse_settled _ _ _ _ _ _ Hrun) as (user & cs & ds & Hu & _).
  rewrite converse_unfold in Hrun.
  pose proof (converse_from_menus uid clicks self
                (UserData.mk (Some [])
                   (UserData.selected_directions user_data))
                SELECTING_COUNTRY) as H.
  rewrite Hrun in H. cbn [from_menus] in H.
  destruct (H (list_subseteq_nil _) Hp user Hu) as [Hc Hd].
  unfold filters_of. rewrite Hu.
  split_and!; [done..|].
  pose proof labels_have_two_words as HL.
  rewrite Forall_app in HL. destruct HL as [HLc HLd].
  rewrite Forall_forall in HLc, HLd.
  split; apply Forall_forall; intros x Hx.
  - specialize (HLc x (Hc x Hx)). intros Hs. rewrite Hs in HLc. cbn in HLc. lia.
  - apply HLd. by apply Hd.
Qed.

(** The second "Done" replaces the filters of the user as a whole:
    what is stored is the two selections and no other key, the
    subscription is as it was, and no other user is touched. *)
Theorem direction_done_replaces_filters (self : bot) (uid : Z)
    (user_data : UserData.t) (other : string) :
  other <> pretty uid ->
  exists self' user_data' user,
    Conversation.select_direction self uid user_data (lit "direction_done")
    = (self', user_data', END)
    /\ users self' !! pretty uid = Some user
    /\ User.filters user
       = Filters.mk
           (Some (default [ALL_COUNTRIES]
                    (UserData.selected_countries user_data)))
           (Some (match default [] (UserData.selected_directions user_data)
                  with
                  | [] => [ALL_DIRECTIONS]
                  | selected => selected
                  end))
           None None
    /\ User.subscribed user
       = from_option User.subscribed false (users self !! pretty uid)
    /\ users self' !! other = users self !! other
    /\ conferences self' = conferences self.
Proof.
  intros Hne. unfold Conversation.select_direction.
  rewrite decide_True by done.
  assert (Hother : forall cs ds,
    alter (set_filters cs ds) (pretty uid)
      (match users self !! pretty uid with
       | Some _ => users self
       | None => <[pretty uid := User.mk false Filters.empty None]> (users self)
       end) !! other = users self !! other).
  { intros cs ds. rewrite lookup_alter_ne by done.
    destruct (users self !! pretty uid); [done|].
    by rewrite lookup_insert_ne. }
  destruct (UserData.selected_directions user_data) as [[|d ds]|] eqn:Hsd;
    cbn [from_option id truthy UserData.selected_countries].
  - destruct (saved_lookup self uid
                (default [ALL_COUNTRIES]
                   (UserData.selected_countries user_data))
                [ALL_DIRECTIONS]) as (u & Hu & Hf & Hs & _).
    do 2 eexists. exists u. split; [reflexivity|]. cbn [users conferences].
    by split_and!.
  - destruct (saved_lookup self uid
                (default [ALL_COUNTRIES]
                   (UserData.selected_countries user_data))
                (d :: ds)) as (u & Hu & Hf & Hs & _).
    do 2 eexists. exists u. split; [reflexivity|]. cbn [users conferences].
    by split_and!.
  - destruct (saved_lookup self uid
                (default [ALL_COUNTRIES]
                   (UserData.selected_countries user_data))
                [ALL_DIRECTIONS]) as (u & Hu & Hf & Hs & _).
    do 2 eexists. exists u. split; [reflexivity|]. cbn [users conferences].
    by split_and!.
Qed.

End Buttons.

(** ** The keyboards *)

Section Keyboards.
Import FilterBot Conversation Vocabulary.

Lemma pairs_ind {A} (P : list A -> Prop) :
  P [] -> (forall a, P [a]) -> (forall a b l, P l -> P (a :: b :: l)) ->
  forall l, P l.
Proof.
  intros H0 H1 H2 l.
  enough (P l /\ forall a, P (a :: l)) by tauto.
  induction l as [|b l [IH1 IH2]]; split; auto.
Qed.

Lemma range2_SS (n : nat) :
  range2 (S (S n)) = 0%nat :: ((fun i => S (S i)) <$> range2 n).
Proof.
  unfold range2. replace (S (S n) + 1)%nat with (S (S (n + 1))) by lia.
  cbn [Nat.div2 seq fmap list_fmap]. f_equal.
  rewrite <- fmap_S_seq, <- !list_fmap_compose.
  apply list_fmap_ext. intros i k _. cbn. lia.
Qed.

Lemma concat_pairs {A} (l : list A) : concat (pairs l) = l.
Proof. induction l using pairs_ind; cbn; congruence. Qed.

Lemma length_pairs {A} (l : list A) :
  length (pairs l) = Nat.div2 (length l + 1).
Proof.
  induction l as [| |a b l IH] using pairs_ind; [done..|].
  cbn [pairs length]. rewrite IH.
  replace (S (S (length l)) + 1)%nat with (S (S (length l + 1))) by lia.
  done.
Qed.

Lemma pairs_rows {A} (l : list A) :
  Forall (fun row => (1 <= length row <= 2)%nat) (pairs l).
Proof.
  induction l using pairs_ind; repeat constructor; cbn; try lia. done.
Qed.

Lemma keyboard_row_one (prefix : str) (pre : list str) (a : str) :
  keyboard_row prefix (pre ++ [a]) (length pre)
  = Ok [mk_button a (prefix ++ a)].
Proof.
  unfold keyboard_row, index.
  rewrite (list_lookup_middle pre [] a (length pre) eq_refl).
  cbn [mbind result_bind].
  rewrite decide_False by (rewrite length_app; cbn; lia). reflexivity.
Qed.

Lemma keyboard_row_two (prefix : str) (pre : list str) (a b : str)
    (l : list str) :
  keyboard_row prefix (pre ++ a :: b :: l) (length pre)
  = Ok [mk_button a (prefix ++ a); mk_button b (prefix ++ b)].
Proof.
  unfold keyboard_row, index.
  rewrite (list_lookup_middle pre (b :: l) a (length pre) eq_refl).
  cbn [mbind result_bind].
  rewrite decide_True by (rewrite length_app; cbn; lia).
  replace (pre ++ a :: b :: l) with ((pre ++ [a]) ++ b :: l)
    by (by rewrite <- app_assoc).
  rewrite (list_lookup_middle (pre ++ [a]) l b (length pre + 1))
    by (rewrite length_app; cbn; lia).
  reflexivity.
Qed.

(** The rows built by index are the labels two by two. *)
Lemma keyboard_rows (prefix : str) (l : list str) :
  forall pre : list str,
    mapM (keyboard_row prefix (pre ++ l))
      ((fun i => length pre + i)%nat <$> range2 (length l))
    = Ok (pairs ((fun a => mk_button a (prefix ++ a)) <$> l)).
Proof.
  induction l as [|a|a b l IH] using pairs_ind; intros pre.
  - done.
  - cbn [length range2 Nat.div2 Nat.add seq fmap list_fmap mapM].
    rewrite Nat.mul_0_r, Nat.add_0_r, keyboard_row_one. reflexivity.
  - cbn [length]. rewrite range2_SS, fmap_cons. cbn [mapM].
    rewrite Nat.add_0_r, keyboard_row_two. cbn [mbind result_bind].
    replace (pre ++ a :: b :: l) with ((pre ++ [a; b]) ++ l)
      by (by rewrite <- !app_assoc).
    rewrite <- list_fmap_compose.
    rewrite (list_fmap_ext
               ((fun i => (length pre + i)%nat) ∘ (fun i => S (S i)))
               (fun i => (length (pre ++ [a; b]) + i)%nat)
               (range2 (length l)));
      [|intros i k _; cbn; rewrite length_app; cbn; lia].
    rewrite IH. reflexivity.
Qed.

(** A keyboard is built without an index error; its rows hold one or
    two buttons, and read row after row they are the labels of the
    menu, each once and in order, followed by "Done". *)
Theorem keyboard_lists_every_label (prefix : str) (labels : list str)
    (done : str) :
  exists rows,
    keyboard prefix labels done
    = Ok (rows ++ [[mk_button (lit "✅ Done") done]])
    /\ concat rows = (fun a => mk_button a (prefix ++ a)) <$> labels
    /\ Forall (fun row => (1 <= length row <= 2)%nat) rows
    /\ length rows = Nat.div2 (length labels + 1).
Proof.
  exists (pairs ((fun a => mk_button a (prefix ++ a)) <$> labels)).
  split_and!.
  - unfold keyboard. pose proof (keyboard_rows prefix labels []) as H.
    cbn [app length] in H.
    rewrite (list_fmap_ext _ id (range2 (length labels))) in H by done.
    rewrite list_fmap_id in H. by rewrite H.
  - apply concat_pairs.
  - apply pairs_rows.
  - by rewrite length_pairs, length_fmap.
Qed.

End Keyboards.

(** ** The upcoming conferences of the sources *)

Section SourcesLaws.
Import Scraper Terms.

Variable http_get : str -> option (response str).
Variable fromisoformat : str -> option Datetime.t.
Variable now : Datetime.t.

(** [get_upcoming_conferences_from_sources] returns only when this
    month plus [months_ahead] is a month of this year in which today's
    day exists; otherwise it raises [ValueError], after the sources have
    been read. *)
Theorem get_upcoming_month_overflow
    (got : option (response (option (list Payload.t)))) (months_ahead : Z) :
  ((exists upcoming,
       get_upcoming_conferences_from_sources http_get fromisoformat now
         got months_ahead = Ok upcoming)
   <-> (1 <= Datetime.month now + months_ahead <= 12
        /\ Datetime.day now
           <= Datetime.days_in_month (Datetime.year now)
                (Datetime.month now + months_ahead))%Z)
  /\ (get_upcoming_conferences_from_sources http_get fromisoformat now
        got months_ahead = Raise ValueError
      <-> ~ (1 <= Datetime.month now + months_ahead <= 12
             /\ Datetime.day now
                <= Datetime.days_in_month (Datetime.year now)
                     (Datetime.month now + months_ahead))%Z).
Proof.
  unfold get_upcoming_conferences_from_sources, Datetime.replace_month.
  destruct (_ && _ && _) eqn:Hv; cbn [mbind result_bind].
  - apply andb_true_iff in Hv as [Hv H3%Z.leb_le].
    apply andb_true_iff in Hv as [H1%Z.leb_le H2%Z.leb_le].
    split; split; try done; [by eauto|]. intros Hn. destruct Hn. lia.
  - assert (Hn : ~ (1 <= Datetime.month now + months_ahead <= 12
                    /\ Datetime.day now
                       <= Datetime.days_in_month (Datetime.year now)
                            (Datetime.month now + months_ahead))%Z).
    { intros [[H1 H2] H3]. apply Z.leb_le in H1, H2, H3.
      by rewrite H1, H2, H3 in Hv. }
    split; split; try done. by intros [? ?].
Qed.

(** What it returns is taken from what [discover_new_conferences]
    found, is in ascending order of the start-date strings, and holds
    only conferences whose start date is read and lies between now and
    the same day of the later month of this year. *)
Theorem get_upcoming_within
    (got : option (response (option (list Payload.t)))) (months_ahead : Z)
    (upcoming : list Conference.t) :
  get_upcoming_conferences_from_sources http_get fromisoformat now
    got months_ahead = Ok upcoming ->
  StronglySorted
    (by_key (fun x => default [] (Conference.start_date x))) upcoming
  /\ forall conf, conf ∈ upcoming ->
       conf ∈ discover_new_conferences http_get got
       /\ exists start_date_str start_date,
            Conference.start_date conf = Some start_date_str
            /\ fromisoformat (split_head 84 start_date_str) = Some start_date
            /\ Datetime.le now start_date = true
            /\ Datetime.le start_date
                 (Datetime.mk (Datetime.year now)
                    (Datetime.month now + months_ahead)
                    (Datetime.day now) (Datetime.time now)) = true.
Proof.
  unfold get_upcoming_conferences_from_sources, Datetime.replace_month.
  destruct (_ && _ && _); cbn [mbind result_bind]; [|done].
  intros [= <-]. split; [apply sorted_by_ascending|].
  intros conf Hin. rewrite sorted_by_perm in Hin.
  apply list_elem_of_In, filter_In in Hin as [Hin Hs].
  split; [by apply list_elem_of_In|].
  unfold starts_within in Hs.
  destruct (Conference.start_date conf) as [s|]; [|done].
  cbn [from_option id] in Hs.
  apply andb_true_iff in Hs as [_ Hs].
  destruct (fromisoformat (split_head 84 s)) as [d|] eqn:Hd; [|done].
  apply andb_true_iff in Hs as [? ?]. by exists s, d.
Qed.

End SourcesLaws.

(** ** More on the relevance pre-filter *)

Section RelevanceLaws.
Import Scraper.

(** A payload without a country, or with an empty one, is not
    relevant, whatever its topics and its name. *)
Theorem no_country_not_relevant (conf : Payload.t) :
  default [] (Payload.country conf) = [] ->
  _is_relevant_conference conf = false.
Proof.
  intros Hc. unfold _is_relevant_conference. rewrite Hc.
  replace (existsb (fun eu_country => str_in (lower eu_country) (lower []))
             european_countries) with false; [done|].
  by vm_compute.
Qed.

Lemma default_lower (x : option str) :
  default [] (option_map lower x) = lower (default [] x).
Proof. by destruct x. Qed.

(** The pre-filter does not see the case of the payload: lower-casing
    its country, its topics and its name does not change the
    verdict. *)
Theorem relevance_case_blind (conf lowered : Payload.t) :
  Payload.country lowered = option_map lower (Payload.country conf) ->
  Payload.topics lowered = option_map (map lower) (Payload.topics conf) ->
  Payload.name lowered = option_map lower (Payload.name conf) ->
  _is_relevant_conference lowered = _is_relevant_conference conf.
Proof.
  intros Hc Ht Hn. unfold _is_relevant_conference.
  rewrite Hc, Ht, Hn, !default_lower, !lower_twice.
  assert (Hj : forall ts : list str,
             lower (join (lit " ") (map lower ts)) = lower (join (lit " ") ts)).
  { intros ts. rewrite !lower_join. f_equal.
    change (lower <$> map lower ts) with (map lower (map lower ts)).
    rewrite map_map. apply map_ext. intros t. apply lower_twice. }
  destruct (Payload.topics conf) as [ts|]; cbn [option_map from_option id].
  - rewrite Hj. by destruct ts.
  - done.
Qed.

End RelevanceLaws.

(** ** The data files of the setup script *)

Section SetupLaws.
Import Setup.

Lemma create_file_lookup (path other : string) (files : gmap string str) :
  create_file path files !! other
  = match files !! other with
    | Some content => Some content
    | None => if decide (other = path) then Some (lit "{}") else None
    end.
Proof.
  unfold create_file. destruct (files !! path) as [c|] eqn:Hp.
  - destruct (files !! other) as [c'|] eqn:Ho; [done|].
    rewrite decide_False; [done|]. intros ->. congruence.
  - destruct (decide (other = path)) as [->|Hne].
    + by rewrite lookup_insert_eq, Hp.
    + rewrite lookup_insert_ne by done. by destruct (files !! other).
Qed.

(** [create_data_files] never overwrites: a file that exists keeps its
    content; afterwards both documents exist; running it again changes
    nothing. *)
Theorem create_data_files_keeps (files : gmap string str) (path : string)
    (content : str) :
  files !! path = Some content ->
  create_data_files files !! path = Some content
  /\ is_Some (create_data_files files !! "conferences.json")
  /\ is_Some (create_data_files files !! "users.json")
  /\ create_data_files (create_data_files files) = create_data_files files.
Proof.
  intros Hp. unfold create_data_files. split_and!.
  - by rewrite !create_file_lookup, Hp.
  - rewrite !create_file_lookup.
    destruct (files !! "conferences.json"); [by eexists|].
    rewrite decide_True by done. by eexists.
  - rewrite !create_file_lookup.
    destruct (files !! "users.json"); [by eexists|].
    rewrite decide_False by done. rewrite decide_True by done. by eexists.
  - apply map_eq. intros other. rewrite !create_file_lookup.
    destruct (files !! other); [done|].
    destruct (decide (other = "conferences.json")); [done|].
    by destruct (decide (other = "users.json")).
Qed.

End SetupLaws.

(** ** Scenarios of the statements above *)

Section MoreScenarios.
Import FilterBot Conversation Scraper Setup.
Import Terms Vocabulary Examples Scenarios.

Lemma longer_selection_keeps_match_witness :
  _matches_filters agile_testing_days
    (Filters.mk
       (Some (default [] (Filters.countries germany_agile)
              ++ [lit "🇫🇷 France"]))
       (Some (default [] (Filters.directions germany_agile)
              ++ [lit "🧪 Testing/QA"]))
       (Filters.topics germany_agile)
       (Filters.notify_early_bird germany_agile))
  = Ok true.
Proof.
  apply (longer_selection_keeps_match agile_testing_days germany_agile).
  by vm_compute.
Defined.

Lemma empty_selection_matches_nothing_witness :
  _matches_filters no_country nothing_selected <> Ok true
  /\ (default [] (Filters.directions nothing_selected) = [] ->
      _matches_filters no_country nothing_selected = Ok false).
Proof.
  apply (empty_selection_matches_nothing no_country nothing_selected).
  reflexivity.
Defined.

Lemma matches_filters_case_blind_witness :
  _matches_filters (lower_conference oesterreich) austrian
  = _matches_filters oesterreich austrian.
Proof.
  apply (matches_filters_case_blind oesterreich
           (lower_conference oesterreich) austrian);
    reflexivity.
Defined.

(** In this scenario the conference matches, on a tag that ends in a
    final sigma once in lower case, and lower-casing changes it. *)
Example matches_filters_capitals :
  _matches_filters oesterreich austrian = Ok true
  /\ Conference.country (lower_conference oesterreich)
     = Some (lit "österreich")
  /\ Conference.directions (lower_conference oesterreich)
     = Some [lit "qualität"; lit "δοκιμες"].
Proof. split_and!; by vm_compute. Qed.

Lemma empty_selection_lists_nothing_witness :
  (list_command undecided 42).2 = Ok NothingFound
  /\ upcoming_command unreadable epoch undecided 42 = Ok NothingFound.
Proof.
  apply (empty_selection_lists_nothing unreadable epoch undecided 42
           (User.mk false nothing_selected None)); by vm_compute.
Defined.

Lemma list_command_counts_witness :
  exists sorted,
    (list_command (store cloud_native) 42).2
    = Ok (Listing (length (matching_of (store cloud_native) 42))
            (take 10 sorted))
    /\ length (take 10 sorted)
       = (10 `min` length (matching_of (store cloud_native) 42))%nat
    /\ forall date,
         List.filter (fun conf => bool_decide (date_key conf = date)) sorted
         = List.filter (fun conf => bool_decide (date_key conf = date))
             (matching_of (store cloud_native) 42).
Proof.
  apply (list_command_counts (store cloud_native) 42).
  - exact default_filters_wordy.
  - repeat constructor; by eexists.
  - repeat constructor; by eexists.
  - by vm_compute.
Defined.

Lemma upcoming_command_store_order_witness :
  [agile_testing_days; cloud_native]
    `sublist_of` (snd <$> conferences (store cloud_native)).
Proof.
  apply (upcoming_command_store_order today epoch (store cloud_native) 42).
  by vm_compute.
Defined.

Lemma upcoming_command_unknown_user_witness :
  upcoming_command today epoch (store cloud_native) 42
  = Ok (match take 10 (List.filter (dated_within today epoch)
                         (snd <$> conferences (store cloud_native))) with
        | [] => NothingFound
        | shown => Upcoming shown
        end).
Proof.
  apply (upcoming_command_unknown_user today epoch (store cloud_native) 42).
  - reflexivity.
  - repeat constructor; by eexists.
Defined.

Lemma upcoming_conferences_count_witness :
  length [("1"%string, cloud_native)]
  = (10 `min` length [("1"%string, cloud_native)])%nat
  /\ [("1"%string, cloud_native)] ⊆ [("1"%string, cloud_native)].
Proof.
  apply (upcoming_conferences_count [("1"%string, cloud_native)]).
  by vm_compute.
Defined.

Lemma subscribe_command_effect_witness :
  users (subscribe_command undecided 42) !! pretty 42%Z
  = Some (User.with_subscribed true
            (default new_user (users undecided !! pretty 42%Z)))
  /\ users (subscribe_command undecided 42) !! "7"%string
     = users undecided !! "7"%string
  /\ conferences (subscribe_command undecided 42) = conferences undecided
  /\ subscribe_command (subscribe_command undecided 42) 42
     = subscribe_command undecided 42.
Proof.
  apply (subscribe_command_effect undecided 42 "7"). by vm_compute.
Defined.

Lemma unsubscribe_command_effect_witness :
  users (unsubscribe_command undecided 42) !! pretty 42%Z
  = User.with_subscribed false <$> users undecided !! pretty 42%Z
  /\ users (unsubscribe_command undecided 42) !! "7"%string
     = users undecided !! "7"%string
  /\ conferences (unsubscribe_command undecided 42) = conferences undecided.
Proof.
  apply (unsubscribe_command_effect undecided 42 "7"). by vm_compute.
Defined.

Lemma subscribe_known_user_witness :
  NotifyBot.subscribe subscribers (lit "2026-02-01T08:00:00") 42
    !! pretty 42%Z
  = Some (User.mk true (User.filters subscriber)
            (User.subscribed_date subscriber))
  /\ NotifyBot.subscribe subscribers (lit "2026-02-01T08:00:00") 42
       !! "7"%string
     = subscribers !! "7"%string.
Proof.
  apply (subscribe_known_user subscribers (lit "2026-02-01T08:00:00") 42
           subscriber "7"); by vm_compute.
Defined.

Lemma subscribed_users_follow_witness :
  pretty 42%Z
    ∈ NotifyBot.subscribed_users
        (NotifyBot.subscribe subscribers (lit "2026-02-01T08:00:00") 42)
  /\ (pretty 42%Z
        ∉ NotifyBot.subscribed_users (NotifyBot.unsubscribe subscribers 42).1)
  /\ ("7"%string
        ∈ NotifyBot.subscribed_users
            (NotifyBot.subscribe subscribers (lit "2026-02-01T08:00:00") 42)
      <-> "7"%string ∈ NotifyBot.subscribed_users subscribers)
  /\ ("7"%string
        ∈ NotifyBot.subscribed_users (NotifyBot.unsubscribe subscribers 42).1
      <-> "7"%string ∈ NotifyBot.subscribed_users subscribers).
Proof.
  apply (subscribed_users_follow subscribers (lit "2026-02-01T08:00:00") 42
           "7").
  by vm_compute.
Defined.

Lemma select_country_twice_witness :
  FilterBot.select_country
    (FilterBot.select_country [lit "🇫🇷 France"] (lit "🇩🇪 Germany"))
    (lit "🇩🇪 Germany")
  = [lit "🇫🇷 France"].
Proof.
  apply (select_country_twice [lit "🇫🇷 France"] (lit "🇩🇪 Germany")).
  - by vm_compute.
  - intros Hin%list_elem_of_singleton. by vm_compute in Hin.
  - intros Hin%list_elem_of_singleton. by vm_compute in Hin.
Defined.

Lemma conversation_stores_tidy_witness :
  exists countries directions,
    filters_of
      (converse (mk_bot ∅ []) 42 UserData.empty germany_done_done).1.1 42
    = Filters.mk (Some countries) (Some directions) None None
    /\ countries <> [] /\ directions <> []
    /\ NoDup countries /\ NoDup directions
    /\ (countries = [ALL_COUNTRIES] \/ ALL_COUNTRIES ∉ countries)
    /\ (directions = [ALL_DIRECTIONS] \/ ALL_DIRECTIONS ∉ directions).
Proof.
  apply (conversation_stores_tidy (mk_bot ∅ []) 42 UserData.empty
           germany_done_done _
           (converse (mk_bot ∅ []) 42 UserData.empty germany_done_done).1.2).
  by vm_compute.
Defined.

Lemma conversation_round_trip_witness :
  exists shown,
    (myfilters_command
       (converse (mk_bot ∅ []) 42 UserData.empty germany_done_done).1.1
       42).2 = Ok shown
    /\ Some (shown_countries shown)
       = UserData.selected_countries
           (converse (mk_bot ∅ []) 42 UserData.empty germany_done_done).1.2
    /\ Some (shown_directions shown)
       = UserData.selected_directions
           (converse (mk_bot ∅ []) 42 UserData.empty germany_done_done).1.2
    /\ users
         (myfilters_command
            (converse (mk_bot ∅ []) 42 UserData.empty germany_done_done).1.1
            42).1
       = users
           (converse (mk_bot ∅ []) 42 UserData.empty germany_done_done).1.1.
Proof.
  apply (conversation_round_trip (mk_bot ∅ []) 42 UserData.empty
           germany_done_done).
  by vm_compute.
Defined.

Lemma button_toggles_its_label_witness :
  Conversation.select_country UserData.empty
    (lit "country_" ++ lit "🇩🇪 Germany")
  = (UserData.mk
       (Some (FilterBot.select_country
                (default [] (UserData.selected_countries UserData.empty))
                (lit "🇩🇪 Germany")))
       (UserData.selected_directions UserData.empty),
     SELECTING_COUNTRY)
  /\ Conversation.select_direction (mk_bot ∅ []) 42 UserData.empty
       (lit "direction_" ++ lit "🇩🇪 Germany")
     = (mk_bot ∅ [],
        UserData.mk (UserData.selected_countries UserData.empty)
          (Some (FilterBot.select_direction
                   (default [] (UserData.selected_directions UserData.empty))
                   (lit "🇩🇪 Germany"))),
        SELECTING_DIRECTION).
Proof.
  apply (button_toggles_its_label (mk_bot ∅ []) 42 UserData.empty
           (lit "🇩🇪 Germany")); by vm_compute.
Defined.

Lemma keyboard_selections_are_wordy_witness :
  default []
    (Filters.countries
       (filters_of
          (converse (mk_bot ∅ []) 42 UserData.empty germany_done_done).1.1
          42))
    ⊆ COUNTRIES
  /\ default []
       (Filters.directions
          (filters_of
             (converse (mk_bot ∅ []) 42 UserData.empty
                germany_done_done).1.1
             42))
       ⊆ DIRECTIONS
  /\ wordy
       (filters_of
          (converse (mk_bot ∅ []) 42 UserData.empty germany_done_done).1.1
          42).
Proof.
  apply (keyboard_selections_are_wordy (mk_bot ∅ []) 42 UserData.empty
           germany_done_done _
           (converse (mk_bot ∅ []) 42 UserData.empty germany_done_done).1.2).
  - assert (Hin : forall (x : str) (l : list str),
               bool_decide (x ∈ l) = true -> x ∈ l).
    { intros x l H. by apply bool_decide_eq_true in H. }
    vm_compute. repeat split; apply Hin; by vm_compute.
  - by vm_compute.
Defined.

Lemma direction_done_replaces_filters_witness :
  exists self' user_data' user,
    Conversation.select_direction undecided 42 UserData.empty
      (lit "direction_done")
    = (self', user_data', END)
    /\ users self' !! pretty 42%Z = Some user
    /\ User.filters user
       = Filters.mk
           (Some (default [ALL_COUNTRIES]
                    (UserData.selected_countries UserData.empty)))
           (Some (match default []
                          (UserData.selected_directions UserData.empty)
                  with
                  | [] => [ALL_DIRECTIONS]
                  | selected => selected
                  end))
           None None
    /\ User.subscribed user
       = from_option User.subscribed false (users undecided !! pretty 42%Z)
    /\ users self' !! "7"%string = users undecided !! "7"%string
    /\ conferences self' = conferences undecided.
Proof.
  apply (direction_done_replaces_filters undecided 42 UserData.empty "7").
  by vm_compute.
Defined.

Lemma get_upcoming_within_witness :
  StronglySorted
    (by_key (fun x => default [] (Conference.start_date x)))
    [annotated offline (scraped testing_only)]
  /\ forall conf, conf ∈ [annotated offline (scraped testing_only)] ->
       conf ∈ discover_new_conferences offline (feed [testing_only])
       /\ exists start_date_str start_date,
            Conference.start_date conf = Some start_date_str
            /\ first_of_april (split_head 84 start_date_str)
               = Some start_date
            /\ Datetime.le ides_of_march start_date = true
            /\ Datetime.le start_date
                 (Datetime.mk (Datetime.year ides_of_march)
                    (Datetime.month ides_of_march + 3)
                    (Datetime.day ides_of_march)
                    (Datetime.time ides_of_march)) = true.
Proof.
  apply (get_upcoming_within offline first_of_april ides_of_march
           (feed [testing_only]) 3).
  by vm_compute.
Defined.

Lemma no_country_not_relevant_witness :
  _is_relevant_conference stateless = false.
Proof. apply (no_country_not_relevant stateless). reflexivity. Defined.

Lemma relevance_case_blind_witness :
  _is_relevant_conference (lower_payload hellenic)
  = _is_relevant_conference hellenic.
Proof.
  apply (relevance_case_blind hellenic (lower_payload hellenic));
    reflexivity.
Defined.

(** In this scenario the payload is relevant, by its name, and
    lower-casing changes it. *)
Example relevance_capitals :
  _is_relevant_conference hellenic = true
  /\ Payload.name (lower_payload hellenic)
     = Some (lit "ημερες ποιοτητας software")
  /\ Payload.country (lower_payload hellenic) = Some (lit "greece (ελλας)").
Proof. split_and!; by vm_compute. Qed.

Lemma create_data_files_keeps_witness :
  create_data_files users_only !! "users.json"%string = Some (lit "{ }")
  /\ is_Some (create_data_files users_only !! "conferences.json"%string)
  /\ is_Some (create_data_files users_only !! "users.json"%string)
  /\ create_data_files (create_data_files users_only)
     = create_data_files users_only.
Proof.
  apply (create_data_files_keeps users_only "users.json" (lit "{ }")).
  by vm_compute.
Defined.

End MoreScenarios.
